(** * The EBS storage backend of volplugin, embedded in Rocq

    A shallow embedding of [storage/backend/ebs]: the driver ([ebs.go]), the
    device allocator and the AWS call helpers with their poll loops.

    Conventions of the embedding.
    - A Go [string] is a [string] (a sequence of bytes); indices and lengths
      are [nat].
    - A Go [error] is an [option error]: [None] is [nil].
    - A function returning [(T, error)] returns a pair, as in Go; a pointer
      result that the code returns as [nil] is an [option].
    - Scalar fields of AWS SDK structures ([*string], [*int64]) are always
      set in the responses read here and are modelled by their values.
    - Everything outside the repository (the EC2 service, the instance
      metadata endpoint, the OS, the Go scheduler) is an oracle [Env]; the
      calls a function issues are recorded in a trace, and a run ends by
      returning, by a Go panic, or by exhausting the fuel of a loop that Go
      leaves unbounded. *)

From Stdlib Require Import String Ascii List ZArith Lia Bool Arith.
Import ListNotations.

Open Scope string_scope.
Open Scope list_scope.

(* ================================================================= *)
(** ** Go strings *)

(** [s[i]]; every use below is guarded by [i < len(s)]. *)
Definition byte_at (s : string) (i : nat) : ascii :=
  match String.get i s with
  | Some c => c
  | None => zero
  end.

(** [s[:n]] *)
Definition slice_to (s : string) (n : nat) : string := substring 0 n s.

(** [s[n:]] *)
Definition slice_from (s : string) (n : nat) : string :=
  substring n (String.length s - n) s.

(** [strings.Contains(s, substr)] *)
Fixpoint strings_Contains (s substr : string) : bool :=
  if prefix substr s then true
  else match s with
       | EmptyString => false
       | String _ s' => strings_Contains s' substr
       end.

(** The text before and after the first occurrence of the byte [sep]. *)
Fixpoint cut (sep : ascii) (s : string) : option (string * string) :=
  match s with
  | EmptyString => None
  | String c s' =>
      if Ascii.eqb c sep then Some (EmptyString, s')
      else match cut sep s' with
           | Some (a, b) => Some (String c a, b)
           | None => None
           end
  end.

(** [strings.SplitN(s, sep, n)] for a one-byte separator and [n >= 0]. *)
Fixpoint strings_SplitN (s : string) (sep : ascii) (n : nat) : list string :=
  match n with
  | 0 => []
  | 1 => [s]
  | S n' =>
      match cut sep s with
      | Some (a, b) => a :: strings_SplitN b sep n'
      | None => [s]
      end
  end.

(** [strings.Join(elems, sep)] *)
Definition strings_Join (elems : list string) (sep : string) : string :=
  String.concat sep elems.

(** [strings.Split(s, sep)] for a one-byte separator. *)
Fixpoint strings_Split_aux (sep : ascii) (cur : string) (s : string) : list string :=
  match s with
  | EmptyString => [cur]
  | String c s' =>
      if Ascii.eqb c sep then cur :: strings_Split_aux sep EmptyString s'
      else strings_Split_aux sep (cur ++ String c EmptyString) s'
  end.

Definition strings_Split (s : string) (sep : ascii) : list string :=
  strings_Split_aux sep EmptyString s.

(** No byte of [s] is ['%']. *)
Fixpoint no_percent (s : string) : bool :=
  match s with
  | EmptyString => true
  | String c s' => negb (Ascii.eqb c "%") && no_percent s'
  end.

(* ================================================================= *)
(** ** Errors *)

(** [syscall.Errno] values used by the driver. *)
Definition ENOENT : Z := 2.
Definition EINVAL : Z := 22.
Definition EBUSY : Z := 16.
Definition ENOTEMPTY : Z := 39.

(** Go error values: [errors.New]/[fmt.Errorf], [awserr.Error],
    [syscall.Errno], [*os.PathError], [errored.Errorf] with its unevaluated
    arguments, and the [Combine] method of [errored.Error]. *)
Inductive error : Type :=
| ErrorsNew (msg : string)
| AwsError (code message : string)
| Errno (n : Z)
| PathError (op path : string) (n : Z)
| Errorf (format : string) (args : list fmtarg)
| Combine (e1 e2 : error)
with fmtarg : Type :=
| ArgS (s : string)
| ArgZ (z : Z)
| ArgE (e : option error).

Definition errNilService : error := ErrorsNew "service can't be nil".
Definition errNilConfig : error := ErrorsNew "config can't be nil".
Definition errTimeout : error := ErrorsNew "operation timed out".
Definition errNotExists : error := ErrorsNew "volume doesn't exist".

(** [errors.MountFailed] of volplugin's [errors] package. *)
Definition errors_MountFailed : error := Errorf "Mount failed" [].

Definition is_nil {A : Type} (x : option A) : bool :=
  match x with
  | None => true
  | Some _ => false
  end.

(** [os.IsNotExist(err)] *)
Definition os_IsNotExist (err : option error) : bool :=
  match err with
  | Some (PathError _ _ n) => Z.eqb n ENOENT
  | Some (Errno n) => Z.eqb n ENOENT
  | Some (ErrorsNew msg) => String.eqb msg "file does not exist"
  | _ => false
  end.

(* ================================================================= *)
(** ** [ebs.go]: size validation *)

(** the minimum size is one gigabyte *)
Definition gigabyteAsBytes : Z := (1024 * 1024 * 1024)%Z.

Definition uint64_max : Z := (2 ^ 64 - 1)%Z.

(** The conversion [int64(x)] of a [uint64]. *)
Definition int64_of_uint64 (x : Z) : Z :=
  (if x <? 2 ^ 63 then x else x - 2 ^ 64)%Z.

Definition errMinimumSize : error := Errorf "the minimum volume size is 1 GB" [].
Definition errWholeGigabytes : error :=
  Errorf "volume size can only be provided as whole gigabytes" [].

Definition getVolumeSizeInGB (size : Z) : Z * option error :=
  if (size <? gigabyteAsBytes)%Z then (0%Z, Some errMinimumSize)
  else if negb (size mod gigabyteAsBytes =? 0)%Z then (0%Z, Some errWholeGigabytes)
  else
    let finalSize := (size / gigabyteAsBytes)%Z in
    (int64_of_uint64 finalSize, None).

(* ================================================================= *)
(** ** [ebs.go]: the filesystem command templater *)

(** The loop of [templateFSCmd]; [idx] and [fscmd] are its two mutable
    variables.  One unit of [fuel] is one evaluation of the loop condition:
    the loop is not bounded by the length of the template, since every
    substitution replaces [fscmd] by a longer string. *)
Fixpoint templateFSCmd_loop (fuel idx : nat) (fscmd devicePath : string)
  : option string :=
  match fuel with
  | 0 => None
  | S fuel' =>
      if (idx <? String.length fscmd)%nat then
        if Ascii.eqb (byte_at fscmd idx) "%" then
          if (idx <? String.length fscmd - 1)%nat
             && Ascii.eqb (byte_at fscmd (idx + 1)) "%"
          then
            (* idx++; continue; then the loop's own idx++ *)
            templateFSCmd_loop fuel' (S (S idx)) fscmd devicePath
          else
            let '(lhs, rhs) :=
              if (idx =? 0)%nat then (EmptyString, slice_from fscmd 1)
              else if (idx =? String.length fscmd - 1)%nat
                   then (slice_to fscmd idx, EmptyString)
                   else (slice_to fscmd idx, slice_from fscmd (idx + 1)) in
            templateFSCmd_loop fuel' (S idx) (lhs ++ devicePath ++ rhs)%string devicePath
        else templateFSCmd_loop fuel' (S idx) fscmd devicePath
      else Some fscmd
  end.

Definition templateFSCmd (fuel : nat) (fscmd devicePath : string) : option string :=
  templateFSCmd_loop fuel 0 fscmd devicePath.

(** What the loop computes on a device path without ['%']: a left-to-right
    scan in which a pair ["%%"] is stepped over and stays as it is, and any
    other ['%'] becomes the device path. *)
Fixpoint expand (devicePath : string) (fscmd : string) : string :=
  match fscmd with
  | EmptyString => EmptyString
  | String c rest =>
      if Ascii.eqb c "%" then
        match rest with
        | String c' rest' =>
            if Ascii.eqb c' "%" then String c (String c' (expand devicePath rest'))
            else (devicePath ++ String c' (expand devicePath rest'))%string
        | EmptyString => devicePath
        end
      else String c (expand devicePath rest)
  end.

(** Loop iterations that suffice for [fscmd] and a device path of [d] bytes. *)
Definition templateFSCmd_fuel (fscmd devicePath : string) : nat :=
  S (String.length fscmd * S (String.length devicePath)).

(* ================================================================= *)
(** ** Go's [path/filepath], as far as the driver uses it *)

(** The two library functions [mkMountPath] calls.  The driver is embedded
    over any implementation of them; [GoUnixPath] below follows the one of Go
    on Unix, element by element, and is what the examples run. *)
Record PathLib : Type := {
  filepath_Join : string -> string -> string;
  filepath_Rel : string -> string -> string * option error
}.

(** One element of a path being cleaned: [stack] holds the elements kept so
    far, innermost first. *)
Definition clean_step (rooted : bool) (stack : list string) (elem : string)
  : list string :=
  if String.eqb elem "" || String.eqb elem "." then stack
  else if String.eqb elem ".." then
    match stack with
    | top :: below =>
        if String.eqb top ".." then elem :: stack else below
    | [] => if rooted then [] else [elem]
    end
  else elem :: stack.

(** [filepath.Clean]: separators collapsed, [.] elements dropped, an inner
    [..] removed with the element before it, a [..] at the root dropped, and
    the empty path turned into ["."]. *)
Definition filepath_Clean (path : string) : string :=
  match path with
  | EmptyString => "."
  | String c _ =>
      let rooted := Ascii.eqb c "/" in
      let kept := rev (fold_left (clean_step rooted) (strings_Split path "/") []) in
      let body := strings_Join kept "/" in
      if rooted then String "/" body
      else if String.eqb body "" then "." else body
  end.

(** [filepath.Join(a, b)] *)
Definition go_filepath_Join (a b : string) : string :=
  if negb (String.eqb a "") then filepath_Clean (a ++ "/" ++ b)
  else if negb (String.eqb b "") then filepath_Clean b
  else "".

(** The elements of a cleaned path, the leading separator apart. *)
Definition path_elems (p : string) : list string :=
  let p' := match p with
            | String c rest => if Ascii.eqb c "/" then rest else p
            | EmptyString => p
            end in
  if String.eqb p' "" then [] else strings_Split p' "/".

Definition is_slashed (p : string) : bool :=
  match p with
  | String c _ => Ascii.eqb c "/"
  | EmptyString => false
  end.

(** The loop of [filepath.Rel] that steps over the elements the two paths
    share; the result is what is left of each. *)
Fixpoint drop_common (base targ : list string) : list string * list string :=
  match base, targ with
  | b :: base', t :: targ' =>
      if String.eqb b t then drop_common base' targ' else (base, targ)
  | _, _ => (base, targ)
  end.

Definition errRel (basepath targpath : string) : error :=
  ErrorsNew ("Rel: can't make " ++ targpath ++ " relative to " ++ basepath).

(** [filepath.Rel(basepath, targpath)] *)
Definition go_filepath_Rel (basepath targpath : string) : string * option error :=
  let base := filepath_Clean basepath in
  let targ := filepath_Clean targpath in
  if String.eqb targ base then (".", None)
  else
    let base := if String.eqb base "." then "" else base in
    if negb (Bool.eqb (is_slashed base) (is_slashed targ))
    then ("", Some (errRel basepath targpath))
    else
      let '(b, t) := drop_common (path_elems base) (path_elems targ) in
      match b with
      | b0 :: _ =>
          (* base elements are left: go up before going down, which cannot
             be done through a [..] of the base *)
          if String.eqb b0 ".." then ("", Some (errRel basepath targpath))
          else (strings_Join (map (fun _ => "..") b ++ t) "/", None)
      | [] => (strings_Join t "/", None)
      end.

Definition GoUnixPath : PathLib :=
  {| filepath_Join := go_filepath_Join; filepath_Rel := go_filepath_Rel |}.

(* ================================================================= *)
(** ** [ebs.go]: the driver, its options and its pure operations *)

Definition BackendName : string := "ebs".

Record Driver : Type := { mountpath : string }.

(** [storage.Volume], [storage.FSOptions], [storage.DriverOptions] and
    [storage.ListOptions]; a [Params] map is its list of bindings. *)
Record storage_Volume : Type := {
  vol_Name : string;
  vol_Size : Z;
  vol_Params : list (string * string)
}.

Record storage_FSOptions : Type := {
  fs_Type : string;
  fs_CreateCommand : string
}.

Record DriverOptions : Type := {
  do_Volume : storage_Volume;
  do_FSOptions : storage_FSOptions;
  do_Timeout : Z
}.

Record ListOptions : Type := { lo_Params : list (string * string) }.

(** [m[key]] on a Go map: the zero value when the key is absent. *)
Fixpoint map_index (m : list (string * string)) (key : string) : string :=
  match m with
  | [] => ""
  | (k, v) :: m' => if String.eqb k key then v else map_index m' key
  end.

Definition NewMountDriver (mountpath : string) : Driver * option error :=
  ({| mountpath := mountpath |}, None).

Definition NewCRUDDriver : Driver * option error :=
  ({| mountpath := "" |}, None).

Definition Name (c : Driver) : string := BackendName.

(** InternalName translates a volplugin `tenant/volume` name to an internal
    name suitable for the driver. Yields an error if impossible. *)
Definition internalName (c : Driver) (s : string) : string * option error :=
  let strs := strings_SplitN s "/" 2 in
  if negb (List.length strs =? 2)%nat then
    ("", Some (Errorf "Invalid volume name %q, must be two parts" [ArgS s]))
  else if strings_Contains (nth 0 strs "") "." then
    ("", Some (Errorf "Invalid policy name %q, cannot contain '.'" [ArgS (nth 0 strs "")]))
  else if strings_Contains (nth 1 strs "") "/" then
    ("", Some (Errorf "Invalid volume name %q, cannot contain '/'" [ArgS (nth 1 strs "")]))
  else (strings_Join strs ".", None).

Definition errEscape (volumePath : string) : error :=
  Combine errors_MountFailed
    (Errorf "Calculated volume path would escape subdir jail: %v" [ArgS volumePath]).

Definition mkMountPath (P : PathLib) (c : Driver) (intName : string)
  : string * option error :=
  (* Directory to mount the volume *)
  let volumePath := filepath_Join P (mountpath c) intName in
  let '(rel, err) := filepath_Rel P (mountpath c) volumePath in
  if negb (is_nil err) || strings_Contains rel ".." then ("", Some (errEscape volumePath))
  else (volumePath, None).

Definition MountPath (P : PathLib) (c : Driver) (do : DriverOptions)
  : string * option error :=
  let '(intName, err) := internalName c (vol_Name (do_Volume do)) in
  if negb (is_nil err) then ("", err)
  else
    let '(volumePath, err) := mkMountPath P c intName in
    if negb (is_nil err) then ("", err)
    else (volumePath, None).

(* ================================================================= *)
(** ** The device allocator *)

(** [ec2.EbsInstanceBlockDevice] and [ec2.InstanceBlockDeviceMapping] *)
Record EbsInstanceBlockDevice : Type := { ebs_VolumeId : string }.

Record InstanceBlockDeviceMapping : Type := {
  DeviceName : string;
  Ebs : EbsInstanceBlockDevice
}.

(** The inner loop of [findFreeBlockDevice]: [usable] after the scan of
    [mappings]. *)
Fixpoint usable (blockDev : string) (mappings : list InstanceBlockDeviceMapping)
  : bool :=
  match mappings with
  | [] => true
  | mapping :: rest =>
      if String.eqb blockDev (DeviceName mapping) then false
      else usable blockDev rest
  end.

(** [fmt.Sprintf("/dev/xvd%c", dev)] *)
Definition blockDevName (dev : nat) : string :=
  "/dev/xvd" ++ String (ascii_of_nat dev) EmptyString.

Definition errNoFreeDevice : error := Errorf "failed to find free block device" [].

(** The outer loop [for dev = 'a'; dev < 'z'; dev++]; [n] bounds the
    iterations left. *)
Fixpoint findFreeBlockDevice_loop (n dev : nat)
  (mappings : list InstanceBlockDeviceMapping) : string * option error :=
  match n with
  | 0 => ("", Some errNoFreeDevice)
  | S n' =>
      if (dev <? nat_of_ascii "z")%nat then
        let blockDev := blockDevName dev in
        if usable blockDev mappings then (blockDev, None)
        else findFreeBlockDevice_loop n' (S dev) mappings
      else ("", Some errNoFreeDevice)
  end.

Definition findFreeBlockDevice (mappings : list InstanceBlockDeviceMapping)
  : string * option error :=
  findFreeBlockDevice_loop 26 (nat_of_ascii "a") mappings.

Definition errVolumeNotAttached : error :=
  Errorf "failed to find volume in attached volumes" [].

Fixpoint findBlockVolumeBlockDevice (mappings : list InstanceBlockDeviceMapping)
  (volume : string) : string * option error :=
  match mappings with
  | [] => ("", Some errVolumeNotAttached)
  | mapping :: rest =>
      if String.eqb volume (ebs_VolumeId (Ebs mapping)) then (DeviceName mapping, None)
      else findBlockVolumeBlockDevice rest volume
  end.

(* ================================================================= *)
(** ** The outside world *)

(** Structures of the AWS SDK ([service/ec2]) and of [contiv/executor]. *)
Record VolumeAttachment : Type := {
  va_Device : string;
  va_InstanceId : string;
  va_State : string;
  va_VolumeId : string
}.

Record ec2_Volume : Type := {
  Attachments : list VolumeAttachment;
  State : string;
  VolumeId : string
}.

Record Tag : Type := { tag_Key : string; tag_Value : string }.

Record TagDescription : Type := {
  Key : string;
  ResourceId : string;
  ResourceType : string;
  Value : string
}.

Record Filter : Type := { filter_Name : string; filter_Values : list string }.

Record DescribeTagsInput : Type := {
  dti_DryRun : bool;
  dti_Filters : list Filter;
  dti_MaxResults : Z
}.

Record CreateVolumeInput : Type := {
  cvi_AvailabilityZone : string;
  cvi_Iops : option Z;
  cvi_Size : Z;
  cvi_VolumeType : string
}.

Record ec2_Instance : Type := {
  BlockDeviceMappings : list InstanceBlockDeviceMapping
}.

Record Reservation : Type := { Instances : list ec2_Instance }.

Record ExecResult : Type := {
  ExitStatus : Z;
  Stdout : string;
  Stderr : string
}.

Definition VolumeStateAvailable : string := "available".
Definition VolumeStateDeleted : string := "deleted".
Definition VolumeAttachmentStateAttached : string := "attached".
Definition VolumeAttachmentStateDetached : string := "detached".

(** An EC2 client [*ec2.EC2] is the region it was built for; [None] is the
    [nil] client. *)
Definition EC2 : Type := string.

(** [ec2.New(session.New(), &aws.Config{Region: aws.String(region)})]: the
    client is built locally, no request is sent. *)
Definition ec2_New (region : string) : option EC2 := Some region.

(** The calls that leave the process, with the logging calls. *)
Inductive Call : Type :=
| CreateTags (resources : list string) (tags : list Tag)
| DeleteTags (resources : list string) (tags : list Tag)
| DescribeTags (input : DescribeTagsInput)
| CreateVolume (input : CreateVolumeInput)
| AttachVolume (device instance volume : string)
| DetachVolume (volume device : string) (force : bool) (instance : string)
| DeleteVolume (volume : string)
| DescribeInstances (ids : list string)
| DescribeVolumes (ids : list string)
| GetMetadata (p : string)
| OsStat (name : string)
| OsRemove (name : string)
| UnixUnmount (target : string) (flags : Z)
| RunCommand (argv : list string) (timeout : Z)
| Sleep (ms : Z)
| GoTimer (timeout : Z)
| Select (after_ms : Z)
| LogError (e : error).

(** The answers of the world.  Each answer may depend on the arguments of
    the call and on the moment of the call, which is the number of calls
    issued before it; [timer_fired t] tells whether a [select] entered at
    moment [t] takes the timeout case. *)
Record Env : Type := {
  ec2_CreateTags : list string -> list Tag -> nat -> option error;
  ec2_DeleteTags : list string -> list Tag -> nat -> option error;
  ec2_DescribeTags : DescribeTagsInput -> nat -> list TagDescription * option error;
  ec2_CreateVolume : CreateVolumeInput -> nat -> ec2_Volume * option error;
  ec2_AttachVolume : string -> string -> string -> nat -> VolumeAttachment * option error;
  ec2_DetachVolume : string -> string -> bool -> string -> nat
                     -> VolumeAttachment * option error;
  ec2_DeleteVolume : string -> nat -> option error;
  ec2_DescribeInstances : list string -> nat -> list Reservation * option error;
  ec2_DescribeVolumes : list string -> nat -> list ec2_Volume * option error;
  metadata_GetMetadata : string -> nat -> string * option error;
  os_Stat : string -> nat -> option error;
  os_Remove : string -> nat -> option error;
  unix_Unmount : string -> Z -> nat -> option Z;
  executor_Run : list string -> Z -> nat -> option ExecResult * option error;
  timer_fired : nat -> bool
}.

(** The trace of calls issued so far, latest first. *)
Definition World : Type := list Call.

(** How a run of Go code ends. *)
Inductive Outcome (A : Type) : Type :=
| Returned (a : A)
| Panicked
| OutOfFuel.

Arguments Returned {A} a.
Arguments Panicked {A}.
Arguments OutOfFuel {A}.

Definition M (A : Type) : Type := World -> Outcome A * World.

Definition ret {A : Type} (a : A) : M A := fun w => (Returned a, w).

Definition bind {A B : Type} (m : M A) (k : A -> M B) : M B :=
  fun w =>
    match m w with
    | (Returned a, w') => k a w'
    | (Panicked, w') => (Panicked, w')
    | (OutOfFuel, w') => (OutOfFuel, w')
    end.

Definition panic {A : Type} : M A := fun w => (Panicked, w).
Definition out_of_fuel {A : Type} : M A := fun w => (OutOfFuel, w).

(** Issue the call [c]; the world answers for the current moment. *)
Definition call {A : Type} (c : Call) (answer : nat -> A) : M A :=
  fun w => (Returned (answer (List.length w)), c :: w).

(** [*p]: a nil pointer dereference panics. *)
Definition deref {A : Type} (p : option A) : M A :=
  match p with
  | Some a => ret a
  | None => panic
  end.

(** [l[i]]: an index out of range panics. *)
Definition elem_at {A : Type} (l : list A) (i : nat) : M A :=
  deref (nth_error l i).

Declare Scope go_scope.
Delimit Scope go_scope with go.

Notation "x <- c1 ;; c2" := (bind c1 (fun x => c2))
  (at level 61, c1 at next level, right associativity) : go_scope.
Notation "' pat <- c1 ;; c2" := (bind c1 (fun x => match x with pat => c2 end))
  (at level 61, pat pattern, c1 at next level, right associativity) : go_scope.
Notation "c1 ;; c2" := (bind c1 (fun _ => c2))
  (at level 61, right associativity) : go_scope.

Open Scope go_scope.

(* ================================================================= *)
(** ** The AWS call helpers *)

Section Backend.

Variable env : Env.

(** A method of the EC2 client: calling it on the [nil] client panics. *)
Definition svc_call {A : Type} (svc : option EC2) (c : Call) (answer : nat -> A)
  : M A :=
  match svc with
  | Some _ => call c answer
  | None => panic
  end.

Definition log_Error (e : error) : M unit := call (LogError e) (fun _ => tt).

Definition time_Sleep (ms : Z) : M unit := call (Sleep ms) (fun _ => tt).

(** [c := make(chan bool, 1); go func() { time.Sleep(timeout); c <- true }()] *)
Definition go_timer (timeout : Z) : M unit := call (GoTimer timeout) (fun _ => tt).

(** [select { case <-c: ...; case <-time.After(d): ... }]: [true] when the
    timeout case is taken. *)
Definition select_timeout (after_ms : Z) : M bool :=
  call (Select after_ms) (timer_fired env).

Record volumeConfig : Type := {
  availabilityZone : string;
  size : Z;
  iops : Z;
  volumeType : string;
  snapshot : string;
  device : string
}.

Definition contivVolumeKey : string := "contiv.io.volplugin.volume.name".

Definition tagVolume (volumeID : string) (tags : list Tag) (svc : option EC2)
  : M (option error) :=
  err <- svc_call svc (CreateTags [volumeID] tags) (ec2_CreateTags env [volumeID] tags) ;;
  if negb (is_nil err) then ret err else ret None.

Definition untagVolume (volumeID : string) (tags : list Tag) (svc : option EC2)
  : M (option error) :=
  err <- svc_call svc (DeleteTags [volumeID] tags) (ec2_DeleteTags env [volumeID] tags) ;;
  if negb (is_nil err) then ret err else ret None.

Definition setVolumeNameTag (volumeID name : string) (svc : option EC2)
  : M (option error) :=
  let tags := [ {| tag_Key := contivVolumeKey; tag_Value := name |} ] in
  tagVolume volumeID tags svc.

Definition deleteVolumeNameTag (volumeID name : string) (svc : option EC2)
  : M (option error) :=
  let tags := [ {| tag_Key := contivVolumeKey; tag_Value := name |} ] in
  untagVolume volumeID tags svc.

Definition getVolumesWithFilters (filters : list Filter) (svc : option EC2)
  : M (list TagDescription * option error) :=
  let params := {| dti_DryRun := false; dti_Filters := filters; dti_MaxResults := 6 |} in
  '(tags, err) <- svc_call svc (DescribeTags params) (ec2_DescribeTags env params) ;;
  ret (tags, err).

Definition errExpectedOne (n : nat) : error :=
  Errorf "expected one response, got %v" [ArgZ (Z.of_nat n)].

Definition getVolumeWithTag (key value : string) (svc : option EC2)
  : M (option TagDescription * option error) :=
  let filters :=
    [ {| filter_Name := "resource-type"; filter_Values := ["volume"] |};
      {| filter_Name := "key"; filter_Values := [key] |};
      {| filter_Name := "value"; filter_Values := [value] |} ] in
  '(volumes, err) <- getVolumesWithFilters filters svc ;;
  if negb (is_nil err) then ret (None, err)
  else if negb (List.length volumes =? 1)%nat
       then ret (None, Some (errExpectedOne (List.length volumes)))
       else v <- elem_at volumes 0 ;; ret (Some v, None).

Definition getVolumeWithName (name : string) (svc : option EC2)
  : M (string * option error) :=
  '(tagDesc, err) <- getVolumeWithTag contivVolumeKey name svc ;;
  if negb (is_nil err) then ret ("", err)
  else t <- deref tagDesc ;; ret (ResourceId t, None).

Definition getVolumesWithKey (key : string) (svc : option EC2)
  : M (list TagDescription * option error) :=
  let filters :=
    [ {| filter_Name := "resource-type"; filter_Values := ["volume"] |};
      {| filter_Name := "key"; filter_Values := [key] |} ] in
  '(volumes, err) <- getVolumesWithFilters filters svc ;;
  if negb (is_nil err) then ret ([], err)
  else ret (volumes, None).

Definition listVolumes (svc : option EC2) : M (list TagDescription * option error) :=
  getVolumesWithKey contivVolumeKey svc.

Definition createVolume (config : option volumeConfig) (svc : option EC2)
  : M (option ec2_Volume * option error) :=
  if is_nil svc then ret (None, Some errNilService)
  else match config with
       | None => ret (None, Some errNilConfig)
       | Some config =>
           let input := {| cvi_AvailabilityZone := availabilityZone config;
                           cvi_Iops := if negb (iops config =? 0)%Z
                                       then Some (iops config) else None;
                           cvi_Size := size config;
                           cvi_VolumeType := volumeType config |} in
           '(resp, err) <- svc_call svc (CreateVolume input) (ec2_CreateVolume env input) ;;
           if negb (is_nil err) then ret (None, err)
           else ret (Some resp, None)
       end.

Definition attachVolume (volume instance device : string) (svc : option EC2)
  : M (option VolumeAttachment * option error) :=
  if is_nil svc then ret (None, Some errNilService)
  else
    '(resp, err) <- svc_call svc (AttachVolume device instance volume)
                      (ec2_AttachVolume env device instance volume) ;;
    if negb (is_nil err) then ret (None, err)
    else ret (Some resp, None).

Definition detachVolume (volume instance device : string) (force : bool)
  (svc : option EC2) : M (option VolumeAttachment * option error) :=
  if is_nil svc then ret (None, Some errNilService)
  else
    '(resp, err) <- svc_call svc (DetachVolume volume device force instance)
                      (ec2_DetachVolume env volume device force instance) ;;
    if negb (is_nil err) then ret (None, err)
    else ret (Some resp, None).

Definition deleteVolume (volume : string) (svc : option EC2) : M (option error) :=
  if is_nil svc then ret (Some errNilService)
  else
    (* DeleteVolumeOutput has no exported fields and we ignore it *)
    svc_call svc (DeleteVolume volume) (ec2_DeleteVolume env volume).

Definition getInstanceInfo (instance : string) (svc : option EC2)
  : M (option ec2_Instance * option error) :=
  if is_nil svc then ret (None, Some errNilService)
  else
    '(resp, err) <- svc_call svc (DescribeInstances [instance])
                      (ec2_DescribeInstances env [instance]) ;;
    if negb (is_nil err) then ret (None, err)
    else if negb (List.length resp =? 1)%nat
         then ret (None, Some (ErrorsNew "expected exactly one reservation"))
         else
           r <- elem_at resp 0 ;;
           if negb (List.length (Instances r) =? 1)%nat
           then ret (None, Some (ErrorsNew "expected exactly one instance"))
           else i <- elem_at (Instances r) 0 ;; ret (Some i, None).

Definition getVolumeInfo (volume : string) (svc : option EC2)
  : M (option ec2_Volume * option error) :=
  if is_nil svc then ret (None, Some errNilService)
  else
    '(resp, err) <- svc_call svc (DescribeVolumes [volume])
                      (ec2_DescribeVolumes env [volume]) ;;
    if negb (is_nil err) then ret (None, err)
    else if negb (List.length resp =? 1)%nat
         then ret (None, Some (ErrorsNew "expected exactly one volume"))
         else v <- elem_at resp 0 ;; ret (Some v, None).

Definition getInstanceID : M (string * option error) :=
  '(instanceID, err) <- call (GetMetadata "instance-id")
                          (metadata_GetMetadata env "instance-id") ;;
  if negb (is_nil err)
  then ret ("", Some (Errorf "failed to retrieve the instance id: %v" [ArgE err]))
  else ret (instanceID, None).

(* ----------------------------------------------------------------- *)
(** *** The synchronizers *)

(** The [for { select { ... } }] loop of [createVolumeSynchronously]. *)
Fixpoint createVolume_poll (fuel : nat) (resp : ec2_Volume) (svc : option EC2)
  (exponent : Z) : M (option ec2_Volume * option error) :=
  match fuel with
  | 0 => out_of_fuel
  | S fuel' =>
      fired <- select_timeout (500 * exponent) ;;
      if fired : bool then ret (Some resp, Some errTimeout)
      else
        '(vol, err) <- getVolumeInfo (VolumeId resp) svc ;;
        ok <- (if is_nil err
               then v <- deref vol ;; ret (String.eqb (State v) VolumeStateAvailable)
               else ret false) ;;
        if ok : bool then ret (vol, None)
        else createVolume_poll fuel' resp svc (exponent + 1)
  end.

Definition createVolumeSynchronously (fuel : nat) (config : option volumeConfig)
  (svc : option EC2) (timeout : Z) : M (option ec2_Volume * option error) :=
  '(resp, err) <- createVolume config svc ;;
  if negb (is_nil err) then ret (None, err)
  else
    r <- deref resp ;;
    if String.eqb (State r) VolumeStateAvailable then ret (resp, None)
    else
      go_timer timeout ;;
      createVolume_poll fuel r svc 1.

(** The [for { select { ... } }] loop of [attachVolumeSynchronously];
    [attachmentState] is the variable declared before the loop. *)
Fixpoint attachVolume_poll (fuel : nat) (resp : VolumeAttachment)
  (device : string) (svc : option EC2) (attachmentState : string)
  : M (option VolumeAttachment * option error) :=
  match fuel with
  | 0 => out_of_fuel
  | S fuel' =>
      fired <- select_timeout 100 ;;
      if fired : bool then ret (None, Some errTimeout)
      else
        err <- call (OsStat device) (os_Stat env device) ;;
        if negb (is_nil err) && os_IsNotExist err
        then attachVolume_poll fuel' resp device svc attachmentState
        else
          '(vol, err) <- getVolumeInfo (va_VolumeId resp) svc ;;
          (* len(vol.Attachments) reads through vol *)
          v <- deref vol ;;
          attachmentState' <-
            (if (List.length (Attachments v) =? 1)%nat
             then a <- elem_at (Attachments v) 0 ;; ret (va_State a)
             else ret attachmentState) ;;
          if is_nil err && String.eqb attachmentState' VolumeAttachmentStateAttached
          then a <- elem_at (Attachments v) 0 ;; ret (Some a, None)
          else attachVolume_poll fuel' resp device svc attachmentState'
  end.

Definition attachVolumeSynchronously (fuel : nat) (volume instance device : string)
  (svc : option EC2) (timeout : Z) : M (option VolumeAttachment * option error) :=
  '(resp, err) <- attachVolume volume instance device svc ;;
  if negb (is_nil err) then ret (None, err)
  else
    r <- deref resp ;;
    if String.eqb (va_State r) VolumeAttachmentStateAttached then ret (resp, None)
    else
      go_timer timeout ;;
      attachVolume_poll fuel r device svc "".

(** The [for { select { ... } }] loop of [detachVolumeSynchronously]. *)
Fixpoint detachVolume_poll (fuel : nat) (resp : VolumeAttachment)
  (device : string) (svc : option EC2) : M (option ec2_Volume * option error) :=
  match fuel with
  | 0 => out_of_fuel
  | S fuel' =>
      fired <- select_timeout 100 ;;
      if fired : bool then ret (None, Some errTimeout)
      else
        err <- call (OsStat device) (os_Stat env device) ;;
        if is_nil err then detachVolume_poll fuel' resp device svc
        else
          '(vol, err) <- getVolumeInfo (va_VolumeId resp) svc ;;
          ok <- (if is_nil err
                 then v <- deref vol ;; ret (String.eqb (State v) VolumeStateAvailable)
                 else ret false) ;;
          if ok : bool then ret (vol, None)
          else detachVolume_poll fuel' resp device svc
  end.

Definition detachVolumeSynchronously (fuel : nat) (volume instance device : string)
  (force : bool) (svc : option EC2) (timeout : Z)
  : M (option ec2_Volume * option error) :=
  '(resp, err) <- detachVolume volume instance device force svc ;;
  if negb (is_nil err) then ret (None, err)
  else
    r <- deref resp ;;
    if String.eqb (va_State r) VolumeAttachmentStateDetached then
      '(vol, err) <- getVolumeInfo (va_VolumeId r) svc ;;
      if negb (is_nil err) then ret (None, err)
      else ret (vol, None)
    else
      go_timer timeout ;;
      detachVolume_poll fuel r device svc.

(** [awsErr, ok := err.(awserr.Error); ok && awsErr.Code() == code] *)
Definition aws_code_is (err : option error) (code : string) : bool :=
  match err with
  | Some (AwsError c _) => String.eqb c code
  | _ => false
  end.

(** The [for { select { ... } }] loop of [deleteVolumeSynchronously]. *)
Fixpoint deleteVolume_poll (fuel : nat) (volume : string) (svc : option EC2)
  : M (option error) :=
  match fuel with
  | 0 => out_of_fuel
  | S fuel' =>
      fired <- select_timeout 500 ;;
      if fired : bool then ret (Some errTimeout)
      else
        '(vol, err) <- getVolumeInfo volume svc ;;
        if is_nil err then deleteVolume_poll fuel' volume svc
        else if aws_code_is err "InvalidVolume.NotFound" then ret None
        else deleteVolume_poll fuel' volume svc
  end.

Definition deleteVolumeSynchronously (fuel : nat) (volume : string)
  (svc : option EC2) (timeout : Z) : M (option error) :=
  err <- deleteVolume volume svc ;;
  if negb (is_nil err) then ret err
  else
    '(vol, err) <- getVolumeInfo volume svc ;;
    if negb (is_nil err) then ret err
    else
      v <- deref vol ;;
      if String.eqb (State v) VolumeStateDeleted then ret None
      else
        go_timer timeout ;;
        deleteVolume_poll fuel volume svc.

(* ================================================================= *)
(** ** [ebs.go]: the operations of the driver *)

Variable P : PathLib.

(** The method [Validate] of [storage.DriverOptions], of the [storage] package. *)
Variable storage_Validate : DriverOptions -> option error.

Definition runWithTimeout (argv : list string) (timeout : Z)
  : M (option ExecResult * option error) :=
  call (RunCommand argv timeout) (executor_Run env argv timeout).

Definition mkfsVolume (fuel : nat) (c : Driver) (fscmd devicePath : string)
  (timeout : Z) : M (option error) :=
  match templateFSCmd fuel fscmd devicePath with
  | None => out_of_fuel
  | Some script =>
      '(er, err) <- runWithTimeout ["/bin/sh"; "-c"; script] timeout ;;
      failed <- (if negb (is_nil err) then ret true
                 else r <- deref er ;; ret (negb (ExitStatus r =? 0)%Z)) ;;
      if failed : bool then
        (* the arguments of Errorf read er.Stdout and er.Stderr *)
        r <- deref er ;;
        ret (Some (Errorf
          "Error creating filesystem on %s with cmd: %q. Error: %v (%v) (%v) (%v)"
          [ArgS devicePath; ArgS fscmd; ArgZ (ExitStatus r); ArgE err;
           ArgS (Stdout r); ArgS (Stderr r)]))
      else ret None
  end.

Definition Create (fuel : nat) (c : Driver) (do : DriverOptions) : M (option error) :=
  let region := map_index (vol_Params (do_Volume do)) "region" in
  let availabilityZone := map_index (vol_Params (do_Volume do)) "availabilityzone" in
  let svc := ec2_New region in
  let '(sizeInGB, err) := getVolumeSizeInGB (vol_Size (do_Volume do)) in
  if negb (is_nil err) then ret err
  else
    let vc := {| availabilityZone := availabilityZone; size := sizeInGB; iops := 0;
                 volumeType := "gp2"; snapshot := ""; device := "" |} in
    '(resp, err) <- createVolumeSynchronously fuel (Some vc) svc (do_Timeout do) ;;
    if negb (is_nil err) then ret err
    else
      r <- deref resp ;;
      err <- setVolumeNameTag (VolumeId r) (vol_Name (do_Volume do)) svc ;;
      if negb (is_nil err)
      then ret (Some (Errorf "encountered error while storing volume name in tag: %v"
                        [ArgE err]))
      else ret None.

Definition errDetachAfterMkfs (err : option error) : error :=
  Errorf "failed to detach volume after failing to create filesystem: %v" [ArgE err].

Definition Format (fuel : nat) (c : Driver) (do : DriverOptions) : M (option error) :=
  let region := map_index (vol_Params (do_Volume do)) "region" in
  (* TODO: defer detach if attach failed *)
  '(instanceID, err) <- getInstanceID ;;
  if negb (is_nil err) then ret err
  else
    let svc := ec2_New region in
    '(awsVolume, err) <- getVolumeWithName (vol_Name (do_Volume do)) svc ;;
    if negb (is_nil err) then ret err
    else
      '(instance, err) <- getInstanceInfo instanceID svc ;;
      if negb (is_nil err)
      then ret (Some (Errorf "failed to get information about the instance: %v" [ArgE err]))
      else
        i <- deref instance ;;
        let '(device, err) := findFreeBlockDevice (BlockDeviceMappings i) in
        if negb (is_nil err) then ret err
        else
          '(_, err) <- attachVolumeSynchronously fuel awsVolume instanceID device svc
                         (do_Timeout do) ;;
          if negb (is_nil err)
          then ret (Some (Errorf "failed to attach volume to instance: %v" [ArgE err]))
          else
            err <- mkfsVolume fuel c (fs_CreateCommand (do_FSOptions do)) device
                     (do_Timeout do) ;;
            if negb (is_nil err) then
              '(_, err') <- detachVolumeSynchronously fuel awsVolume instanceID device
                              true svc (do_Timeout do) ;;
              (if negb (is_nil err') then log_Error (errDetachAfterMkfs err')
               else ret tt) ;;
              ret err
            else
              '(_, err') <- detachVolumeSynchronously fuel awsVolume instanceID device
                              true svc (do_Timeout do) ;;
              (if negb (is_nil err') then log_Error (errDetachAfterMkfs err')
               else ret tt) ;;
              ret None.

Definition Destroy (fuel : nat) (c : Driver) (do : DriverOptions) : M (option error) :=
  let region := map_index (vol_Params (do_Volume do)) "region" in
  let svc := ec2_New region in
  '(awsVolume, err) <- getVolumeWithName (vol_Name (do_Volume do)) svc ;;
  if negb (is_nil err)
  then ret (Some (Errorf "failed to retrieve the AWS EBS volume name: %v" [ArgE err]))
  else
    err <- deleteVolumeNameTag awsVolume (vol_Name (do_Volume do)) svc ;;
    if negb (is_nil err)
    then ret (Some (Errorf "failed to untag the volume: %v" [ArgE err]))
    else
      err <- deleteVolumeSynchronously fuel awsVolume svc (do_Timeout do) ;;
      if negb (is_nil err)
      then ret (Some (Errorf "failed to destroy the AWS EBS volume: %v" [ArgE err]))
      else ret None.

(** [List] in the source. *)
Definition List_ (c : Driver) (lo : ListOptions)
  : M (list storage_Volume * option error) :=
  let region := map_index (lo_Params lo) "region" in
  let svc := ec2_New region in
  '(volumes, err) <- listVolumes svc ;;
  if negb (is_nil err) then ret ([], err)
  else
    ret (map (fun v => {| vol_Name := Value v; vol_Size := 0; vol_Params := [] |})
           volumes, None).

(** The loop [for _, vol := range volumes] of [Exists]. *)
Fixpoint Exists_scan (volumes : list storage_Volume) (name : string) : bool :=
  match volumes with
  | [] => false
  | vol :: rest => if String.eqb (vol_Name vol) name then true else Exists_scan rest name
  end.

Definition Exists (c : Driver) (do : DriverOptions) : M (bool * option error) :=
  '(volumes, err) <- List_ c {| lo_Params := vol_Params (do_Volume do) |} ;;
  if negb (is_nil err) then ret (false, err)
  else ret (Exists_scan volumes (vol_Name (do_Volume do)), None).

Definition errUnmountRetry (volumeDir : string) (errno : option Z) : error :=
  Errorf "Failed to unmount %q (retrying): %v"
    [ArgS volumeDir; ArgE (option_map Errno errno)].

(** The code of [Unmount] from the label [retry] to its end; a [goto retry]
    is the recursive call.  [retries] and [lastErr] are the two variables
    declared before the label. *)
Fixpoint Unmount_retry (fuel : nat) (volumeDir awsVolume instanceID device : string)
  (svc : option EC2) (timeout : Z) (retries : Z) (lastErr : option error)
  : M (option error) :=
  match fuel with
  | 0 => out_of_fuel
  | S fuel' =>
      if (retries <? 3)%Z then
        err <- call (UnixUnmount volumeDir 0) (unix_Unmount env volumeDir 0) ;;
        if negb (is_nil err)
           && negb (match err with Some n => (n =? ENOENT)%Z | None => false end)
           && negb (match err with Some n => (n =? EINVAL)%Z | None => false end)
        then
          let lastErr' := errUnmountRetry volumeDir err in
          log_Error lastErr' ;;
          time_Sleep 100 ;;
          Unmount_retry fuel' volumeDir awsVolume instanceID device svc timeout
            (retries + 1) (Some lastErr')
        else
          (* Remove the mounted directory *)
          err <- call (OsRemove volumeDir) (os_Remove env volumeDir) ;;
          if negb (is_nil err) && negb (os_IsNotExist err) then
            log_Error (Errorf "error removing %q directory: %v" [ArgS volumeDir; ArgE err]) ;;
            Unmount_retry fuel' volumeDir awsVolume instanceID device svc timeout
              retries lastErr
          else
            '(_, err) <- detachVolumeSynchronously fuel awsVolume instanceID device
                           false svc timeout ;;
            if negb (is_nil err)
            then ret (Some (Errorf "failed to detach volume from instance: %v" [ArgE err]))
            else ret None
      else
        (* the type assertion of lastErr to an errored.Error *)
        e <- deref lastErr ;;
        ret (Some (Combine (Errorf "Failed to umount after 3 retries" []) e))
  end.

Definition Unmount (fuel : nat) (c : Driver) (do : DriverOptions) : M (option error) :=
  '(instanceID, err) <- getInstanceID ;;
  if negb (is_nil err) then ret err
  else
    let region := map_index (vol_Params (do_Volume do)) "region" in
    let '(intName, err) := internalName c (vol_Name (do_Volume do)) in
    if negb (is_nil err) then ret err
    else
      let '(volumeDir, err) := mkMountPath P c intName in
      if negb (is_nil err) then ret err
      else
        (* Unmount the EBS volume *)
        let retries := 0%Z in
        let lastErr : option error := None in
        let svc := ec2_New region in
        '(awsVolume, err) <- getVolumeWithName (vol_Name (do_Volume do)) svc ;;
        if negb (is_nil err) then ret err
        else
          '(instance, err) <- getInstanceInfo instanceID svc ;;
          if negb (is_nil err)
          then ret (Some (Errorf "failed to get information about the instance: %v"
                            [ArgE err]))
          else
            i <- deref instance ;;
            let '(device, err) :=
              findBlockVolumeBlockDevice (BlockDeviceMappings i) awsVolume in
            if negb (is_nil err)
            then ret (Some (Errorf "failed to find block device for attached volume" []))
            else
              Unmount_retry fuel volumeDir awsVolume instanceID device svc
                (do_Timeout do) retries lastErr.

(** [Validate]; [do] is the options its pointer argument refers to. *)
Definition Validate (c : Driver) (do : DriverOptions) : option error :=
  let err := storage_Validate do in
  if negb (is_nil err) then err
  else
    let '(_, err) := getVolumeSizeInGB (vol_Size (do_Volume do)) in
    if negb (is_nil err) then err
    else if String.eqb (map_index (vol_Params (do_Volume do)) "region") ""
         then Some (Errorf "AWS region is missing in ebs storage driver." [])
         (* AWS credentials are picked up automatically from ~/.aws/credentials *)
         else None.

End Backend.

Arguments svc_call {A} svc c answer.

(* ================================================================= *)
(** ** [ebs.go]: [Mount] and [Mounted] *)

Definition EEXIST : Z := 17.

(** [os.IsExist(err)] *)
Definition os_IsExist (err : option error) : bool :=
  match err with
  | Some (PathError _ _ n) => Z.eqb n EEXIST || Z.eqb n ENOTEMPTY
  | Some (Errno n) => Z.eqb n EEXIST || Z.eqb n ENOTEMPTY
  | Some (ErrorsNew msg) => String.eqb msg "file already exists"
  | _ => false
  end.

(** [storage.Mount], with the fields [Mount] sets; [DevMajor] and [DevMinor]
    are [uint], 64 bits wide as [Stat_t.Rdev] is. *)
Record storage_Mount : Type := {
  mnt_Device : string;
  mnt_Path : string;
  mnt_Volume : storage_Volume;
  mnt_DevMajor : Z;
  mnt_DevMinor : Z
}.

(** The OS calls only [Mount] issues.  [Mount] issues them after its last
    call to the service, so they are recorded in a trace of their own, kept
    beside the trace of the calls above. *)
Inductive MountCall : Type :=
| OsMkdirAll (path : string) (perm : Z)
| OsStatDevice (name : string)
| UnixMount (source target fstype : string) (flags : Z) (data : string).

(** The answers to them; the moment of a call is again the number of calls
    issued before it.  [os_Stat_Rdev] is [os.Stat] with the [Rdev] field of
    the [Stat_t] behind the [FileInfo] it returns. *)
Record MountEnv : Type := {
  os_MkdirAll : string -> Z -> nat -> option error;
  os_Stat_Rdev : string -> nat -> Z * option error;
  unix_Mount : string -> string -> string -> Z -> string -> nat -> option Z
}.

Definition MWorld : Type := (World * list MountCall)%type.

Definition MM (A : Type) : Type := MWorld -> Outcome A * MWorld.

Definition mret {A : Type} (a : A) : MM A := fun s => (Returned a, s).

Definition mbind {A B : Type} (m : MM A) (k : A -> MM B) : MM B :=
  fun s =>
    match m s with
    | (Returned a, s') => k a s'
    | (Panicked, s') => (Panicked, s')
    | (OutOfFuel, s') => (OutOfFuel, s')
    end.

(** A computation over the first trace, run inside [Mount]. *)
Definition lift {A : Type} (m : M A) : MM A :=
  fun s => let '(r, w') := m (fst s) in (r, (w', snd s)).

Definition mcall {A : Type} (c : MountCall) (answer : nat -> A) : MM A :=
  fun s => (Returned (answer (List.length (fst s) + List.length (snd s))),
            (fst s, c :: snd s)).

Declare Scope mount_scope.
Delimit Scope mount_scope with mount.

Notation "x <- c1 ;; c2" := (mbind c1 (fun x => c2))
  (at level 61, c1 at next level, right associativity) : mount_scope.
Notation "' pat <- c1 ;; c2" := (mbind c1 (fun x => match x with pat => c2 end))
  (at level 61, pat pattern, c1 at next level, right associativity) : mount_scope.

Section MountOperation.

Variable env : Env.
Variable menv : MountEnv.
Variable P : PathLib.

Definition Mount (fuel : nat) (c : Driver) (do : DriverOptions)
  : MM (option storage_Mount * option error) :=
  ('(instanceID, err) <- lift (getInstanceID env) ;;
   if negb (is_nil err) then mret (None, err)
   else
     let region := map_index (vol_Params (do_Volume do)) "region" in
     let svc := ec2_New region in
     '(awsVolume, err) <- lift (getVolumeWithName env (vol_Name (do_Volume do)) svc) ;;
     if negb (is_nil err) then mret (None, err)
     else
       '(instance, err) <- lift (getInstanceInfo env instanceID svc) ;;
       if negb (is_nil err)
       then mret (None, Some (Errorf "failed to get information about the instance: %v"
                                [ArgE err]))
       else
         i <- lift (deref instance) ;;
         let '(device, err) := findFreeBlockDevice (BlockDeviceMappings i) in
         if negb (is_nil err) then mret (None, err)
         else
           '(_, err) <- lift (attachVolumeSynchronously env fuel awsVolume instanceID
                                device svc (do_Timeout do)) ;;
           if negb (is_nil err)
           then mret (None, Some (Errorf "failed to attach volume to instance: %v"
                                    [ArgE err]))
           else
             let '(intName, err) := internalName c (vol_Name (do_Volume do)) in
             if negb (is_nil err) then mret (None, err)
             else
               let '(volumePath, err) := mkMountPath P c intName in
               if negb (is_nil err) then mret (None, err)
               else
                 (* Create directory to mount; 0700 is 448 *)
                 err <- mcall (OsMkdirAll (mountpath c) 448)
                          (os_MkdirAll menv (mountpath c) 448) ;;
                 if negb (is_nil err) && negb (os_IsExist err)
                 then mret (None, Some (Errorf "error creating %q directory: %v"
                                          [ArgS (mountpath c); ArgE err]))
                 else
                   err <- mcall (OsMkdirAll volumePath 448)
                            (os_MkdirAll menv volumePath 448) ;;
                   if negb (is_nil err) && negb (os_IsExist err)
                   then mret (None, Some (Errorf "error creating %q directory: %v"
                                            [ArgS volumePath; ArgE err]))
                   else
                     (* Obtain the major and minor node information about the
                        device we're mounting. *)
                     '(rdev, err) <- mcall (OsStatDevice device)
                                       (os_Stat_Rdev menv device) ;;
                     if negb (is_nil err)
                     then mret (None, Some (Errorf "Failed to stat EBS device %q: %v"
                                              [ArgS device; ArgE err]))
                     else
                       let major := Z.shiftr rdev 8 in
                       let minor := Z.land rdev 255 in
                       (* Mount the EBS volume *)
                       err <- mcall (UnixMount device volumePath
                                       (fs_Type (do_FSOptions do)) 0 "")
                                (unix_Mount menv device volumePath
                                   (fs_Type (do_FSOptions do)) 0 "") ;;
                       if negb (is_nil err)
                       then mret (None, Some (Errorf "Failed to mount EBS dev %q: %v"
                                                [ArgS device;
                                                 ArgE (option_map Errno err)]))
                       else
                         mret (Some {| mnt_Device := device;
                                       mnt_Path := volumePath;
                                       mnt_Volume := do_Volume do;
                                       mnt_DevMajor := major;
                                       mnt_DevMinor := minor |}, None))%mount.

Definition Mounted (c : Driver) (timeout : Z) : list storage_Mount * option error :=
  ([], None).

End MountOperation.

(* ================================================================= *)
(** ** Queries and worlds used in the statements *)

(** The query [getVolumeWithTag] sends to resolve [name]. *)
Definition nameQuery (name : string) : DescribeTagsInput :=
  {| dti_DryRun := false;
     dti_Filters :=
       [ {| filter_Name := "resource-type"; filter_Values := ["volume"] |};
         {| filter_Name := "key"; filter_Values := [contivVolumeKey] |};
         {| filter_Name := "value"; filter_Values := [name] |} ];
     dti_MaxResults := 6 |}.

(** The query [listVolumes] sends. *)
Definition listQuery : DescribeTagsInput :=
  {| dti_DryRun := false;
     dti_Filters :=
       [ {| filter_Name := "resource-type"; filter_Values := ["volume"] |};
         {| filter_Name := "key"; filter_Values := [contivVolumeKey] |} ];
     dti_MaxResults := 6 |}.

(** The service returns no more tag descriptions than a query asks for. *)
Definition honours_MaxResults (env : Env) : Prop :=
  forall (input : DescribeTagsInput) (t : nat),
    (0 <= dti_MaxResults input)%Z ->
    (Z.of_nat (List.length (fst (ec2_DescribeTags env input t))) <= dti_MaxResults input)%Z.

(** The tag index of the remote service: a description matches a filter
    when the attribute the filter names is one of the filter's values. *)
Definition matches_filter (t : TagDescription) (f : Filter) : bool :=
  if String.eqb (filter_Name f) "resource-type"
  then existsb (String.eqb (ResourceType t)) (filter_Values f)
  else if String.eqb (filter_Name f) "key"
  then existsb (String.eqb (Key t)) (filter_Values f)
  else if String.eqb (filter_Name f) "value"
  then existsb (String.eqb (Value t)) (filter_Values f)
  else if String.eqb (filter_Name f) "resource-id"
  then existsb (String.eqb (ResourceId t)) (filter_Values f)
  else false.

(** One page of the remote tag index [remote]: the first [MaxResults]
    descriptions that match every filter of the query. *)
Definition tag_page (remote : list TagDescription) (input : DescribeTagsInput)
  : list TagDescription :=
  firstn (Z.to_nat (dti_MaxResults input))
    (filter (fun t => forallb (matches_filter t) (dti_Filters input)) remote).

(** The descriptions of [remote] that name a volume of the driver. *)
Definition volume_tags (remote : list TagDescription) : list TagDescription :=
  filter (fun t => String.eqb (ResourceType t) "volume"
                   && String.eqb (Key t) contivVolumeKey) remote.

Definition theInstance : ec2_Instance :=
  {| BlockDeviceMappings :=
       [ {| DeviceName := "/dev/xvda"; Ebs := {| ebs_VolumeId := "vol-root" |} |};
         {| DeviceName := "/dev/xvdf"; Ebs := {| ebs_VolumeId := "vol-1" |} |} ] |}.

(** A world given by its tag index, its answers to [DescribeVolumes],
    [AttachVolume] and [DetachVolume], the results of [os.Remove] and the
    moments at which a timeout fires.  The instance is ["i-1"] with
    [theInstance]'s devices; every device node exists, every unmount, tag
    update, deletion and command succeeds. *)
Definition scripted (remote : list TagDescription)
  (volumes : nat -> list ec2_Volume * option error)
  (attach detach : VolumeAttachment * option error)
  (remove : nat -> option error) (fired : nat -> bool) : Env :=
  {| ec2_CreateTags := fun _ _ _ => None;
     ec2_DeleteTags := fun _ _ _ => None;
     ec2_DescribeTags := fun input _ => (tag_page remote input, None);
     ec2_CreateVolume := fun input _ =>
       ({| Attachments := []; State := "creating"; VolumeId := "vol-1" |}, None);
     ec2_AttachVolume := fun _ _ _ _ => attach;
     ec2_DetachVolume := fun _ _ _ _ _ => detach;
     ec2_DeleteVolume := fun _ _ => None;
     ec2_DescribeInstances := fun _ _ => ([ {| Instances := [theInstance] |} ], None);
     ec2_DescribeVolumes := fun _ t => volumes t;
     metadata_GetMetadata := fun _ _ => ("i-1", None);
     os_Stat := fun _ _ => None;
     os_Remove := fun _ t => remove t;
     unix_Unmount := fun _ _ _ => None;
     executor_Run := fun _ _ _ =>
       (Some {| ExitStatus := 0; Stdout := ""; Stderr := "" |}, None);
     timer_fired := fired |}.

Definition volumeTag (id name : string) : TagDescription :=
  {| Key := contivVolumeKey; ResourceId := id; ResourceType := "volume"; Value := name |}.

Definition attachment (state : string) : VolumeAttachment :=
  {| va_Device := "/dev/xvdb"; va_InstanceId := "i-1"; va_State := state;
     va_VolumeId := "vol-1" |}.

Definition errNotFound : error :=
  AwsError "InvalidVolume.NotFound" "The volume 'vol-1' does not exist.".

Definition errThrottled : error :=
  AwsError "RequestLimitExceeded" "Request limit exceeded.".

(** The volume of the repository's tests. *)
Definition volumeSpec : storage_Volume :=
  {| vol_Name := "test/pithos";
     vol_Size := 4 * 1024 * 1024 * 1024;
     vol_Params := [("region", "eu-central-1"); ("availabilityzone", "eu-central-1b")] |}.

Definition driverOpts : DriverOptions :=
  {| do_Volume := volumeSpec;
     do_FSOptions := {| fs_Type := "ext4"; fs_CreateCommand := "mkfs.ext4 -m0 %" |};
     do_Timeout := 10000000000 |}.

Definition myMountpath : string := "/mnt/ebs".

(** The volume is deleted at once: the first status query already finds
    no such volume. *)
Definition world_deleted_at_once : Env :=
  scripted [volumeTag "vol-1" "test/pithos"] (fun _ => ([], Some errNotFound))
    (attachment "attached", None) (attachment "detached", None)
    (fun _ => None) (fun _ => false).

(** The attachment is still pending and one status query is throttled. *)
Definition world_throttled_query : Env :=
  scripted [volumeTag "vol-1" "test/pithos"] (fun _ => ([], Some errThrottled))
    (attachment "attaching", None) (attachment "detached", None)
    (fun _ => None) (fun _ => false).

(** The mount directory cannot be removed at the first [n] moments. *)
Definition world_busy_directory (n : nat) : Env :=
  scripted [volumeTag "vol-1" "test/pithos"]
    (fun _ => ([ {| Attachments := []; State := "available"; VolumeId := "vol-1" |} ], None))
    (attachment "attached", None) (attachment "detached", None)
    (fun t => if (t <? n)%nat then Some (PathError "remove" "/mnt/ebs/test.pithos" EBUSY)
              else None)
    (fun _ => false).

(** The mount directory is not empty under the mount: it can never be
    removed. *)
Definition world_directory_stays : Env :=
  scripted [volumeTag "vol-1" "test/pithos"]
    (fun _ => ([ {| Attachments := []; State := "available"; VolumeId := "vol-1" |} ], None))
    (attachment "attached", None) (attachment "detached", None)
    (fun _ => Some (PathError "remove" "/mnt/ebs/test.pithos" ENOTEMPTY))
    (fun _ => false).

(** The filesystem is created, and the detach request that follows fails. *)
Definition world_detach_fails : Env :=
  scripted [volumeTag "vol-1" "test/pithos"]
    (fun _ => ([ {| Attachments := []; State := "in-use"; VolumeId := "vol-1" |} ], None))
    (attachment "attached", None) (attachment "", Some errThrottled)
    (fun _ => None) (fun _ => false).

(** Seven volumes are tagged; the seventh is ["test/seventh"]. *)
Definition seven_volumes : list TagDescription :=
  [ volumeTag "vol-1" "test/one"; volumeTag "vol-2" "test/two";
    volumeTag "vol-3" "test/three"; volumeTag "vol-4" "test/four";
    volumeTag "vol-5" "test/five"; volumeTag "vol-6" "test/six";
    volumeTag "vol-7" "test/seventh" ].

Definition world_of_tags (remote : list TagDescription) : Env :=
  scripted remote (fun _ => ([], None)) (attachment "attached", None)
    (attachment "detached", None) (fun _ => None) (fun _ => false).

(** The number of [unix.Unmount] calls in a trace. *)
Definition unmount_calls (w : World) : nat :=
  List.length (filter (fun c => match c with UnixUnmount _ _ => true | _ => false end) w).

(** The number of [DetachVolume] requests in a trace. *)
Definition detach_calls (w : World) : nat :=
  List.length (filter (fun c => match c with DetachVolume _ _ _ _ => true | _ => false end) w).

(* ================================================================= *)
(** ** Notions used in the statements *)

(** [storage.Volume{Name: *v.Value}], the element [List] builds from a tag
    description. *)
Definition named (v : TagDescription) : storage_Volume :=
  {| vol_Name := Value v; vol_Size := 0; vol_Params := [] |}.

(** The [k]-th candidate of the allocator: [/dev/xvda] for 0 up to
    [/dev/xvdy] for 24. *)
Definition candidate (k : nat) : string := blockDevName (nat_of_ascii "a" + k).

(** A name [policy/volume] with exactly one separator and no dot in the
    policy. *)
Definition well_formed (name policy volume : string) : Prop :=
  name = (policy ++ "/" ++ volume)%string
  /\ strings_Contains policy "/" = false
  /\ strings_Contains policy "." = false
  /\ strings_Contains volume "/" = false.

(** The client the operations of the driver build for their options. *)
Definition svc_of (do : DriverOptions) : option EC2 :=
  ec2_New (map_index (vol_Params (do_Volume do)) "region").

(** The result of [unix.Unmount] that [Unmount] accepts: no error, or an
    error that says the path is not mounted. *)
Definition unmount_tolerated (errno : option Z) : bool :=
  match errno with
  | None => true
  | Some n => (n =? ENOENT)%Z || (n =? EINVAL)%Z
  end.

(** One step of a run: the next call of the sequence returns as [H] says. *)
Ltac run_step H := unfold bind at 1; rewrite H; cbn [is_nil negb deref ret].

(* ================================================================= *)
(** ** Notions and worlds of the further properties *)

(** Whatever the trace before it, a run of [m] only adds calls to the trace,
    and every call it adds is [allowed]. *)
Definition issues_only {A : Type} (allowed : Call -> Prop) (m : M A) : Prop :=
  forall w : World, exists tail : list Call, snd (m w) = tail ++ w /\ Forall allowed tail.

(** The request [Create] sends for its options. *)
Definition Create_request (do : DriverOptions) : CreateVolumeInput :=
  {| cvi_AvailabilityZone := map_index (vol_Params (do_Volume do)) "availabilityzone";
     cvi_Iops := None;
     cvi_Size := (vol_Size (do_Volume do) / gigabyteAsBytes)%Z;
     cvi_VolumeType := "gp2" |}.

(** The tag that names a volume. *)
Definition nameTag (name : string) : Tag :=
  {| tag_Key := contivVolumeKey; tag_Value := name |}.

(** The calls that may follow the creation request in a run of [Create]. *)
Definition Create_follow_up (do : DriverOptions) (c : Call) : Prop :=
  match c with
  | GoTimer _ | Select _ | DescribeVolumes _ => True
  | CreateTags _ tags => tags = [nameTag (vol_Name (do_Volume do))]
  | _ => False
  end.

(** The calls of a poll loop on the status of a volume. *)
Definition status_poll (c : Call) : Prop :=
  match c with
  | GoTimer _ | Select _ | DescribeVolumes _ => True
  | _ => False
  end.

(** The calls of a status poll that also looks at the device node. *)
Definition device_poll (c : Call) : Prop :=
  match c with
  | GoTimer _ | Select _ | OsStat _ | DescribeVolumes _ => True
  | _ => False
  end.

(** The calls [Format] may issue: every detach request is forced. *)
Definition Format_calls (c : Call) : Prop :=
  match c with
  | GetMetadata _ | DescribeTags _ | DescribeInstances _ | AttachVolume _ _ _
  | GoTimer _ | Select _ | OsStat _ | DescribeVolumes _ | RunCommand _ _
  | LogError _ => True
  | DetachVolume _ _ force _ => force = true
  | _ => False
  end.

(** The calls [Unmount] may issue: no detach request is forced. *)
Definition Unmount_calls (c : Call) : Prop :=
  match c with
  | GetMetadata _ | DescribeTags _ | DescribeInstances _ | UnixUnmount _ _
  | OsRemove _ | Sleep _ | LogError _
  | GoTimer _ | Select _ | OsStat _ | DescribeVolumes _ => True
  | DetachVolume _ _ force _ => force = false
  | _ => False
  end.

(** The calls to the service and to the device node [Mount] may issue. *)
Definition Mount_calls (c : Call) : Prop :=
  match c with
  | GetMetadata _ | DescribeTags _ | DescribeInstances _ | AttachVolume _ _ _
  | GoTimer _ | Select _ | OsStat _ | DescribeVolumes _ => True
  | _ => False
  end.

(** [env] with another executor; with other answers to the unmount call;
    with one answer to every tag update. *)
Definition with_executor
  (run : list string -> Z -> nat -> option ExecResult * option error) (env : Env) : Env :=
  {| ec2_CreateTags := ec2_CreateTags env;
     ec2_DeleteTags := ec2_DeleteTags env;
     ec2_DescribeTags := ec2_DescribeTags env;
     ec2_CreateVolume := ec2_CreateVolume env;
     ec2_AttachVolume := ec2_AttachVolume env;
     ec2_DetachVolume := ec2_DetachVolume env;
     ec2_DeleteVolume := ec2_DeleteVolume env;
     ec2_DescribeInstances := ec2_DescribeInstances env;
     ec2_DescribeVolumes := ec2_DescribeVolumes env;
     metadata_GetMetadata := metadata_GetMetadata env;
     os_Stat := os_Stat env;
     os_Remove := os_Remove env;
     unix_Unmount := unix_Unmount env;
     executor_Run := run;
     timer_fired := timer_fired env |}.

Definition with_unmount (unmount : string -> Z -> nat -> option Z) (env : Env) : Env :=
  {| ec2_CreateTags := ec2_CreateTags env;
     ec2_DeleteTags := ec2_DeleteTags env;
     ec2_DescribeTags := ec2_DescribeTags env;
     ec2_CreateVolume := ec2_CreateVolume env;
     ec2_AttachVolume := ec2_AttachVolume env;
     ec2_DetachVolume := ec2_DetachVolume env;
     ec2_DeleteVolume := ec2_DeleteVolume env;
     ec2_DescribeInstances := ec2_DescribeInstances env;
     ec2_DescribeVolumes := ec2_DescribeVolumes env;
     metadata_GetMetadata := metadata_GetMetadata env;
     os_Stat := os_Stat env;
     os_Remove := os_Remove env;
     unix_Unmount := unmount;
     executor_Run := executor_Run env;
     timer_fired := timer_fired env |}.

Definition with_tagging (tagging : option error) (env : Env) : Env :=
  {| ec2_CreateTags := fun _ _ _ => tagging;
     ec2_DeleteTags := fun _ _ _ => tagging;
     ec2_DescribeTags := ec2_DescribeTags env;
     ec2_CreateVolume := ec2_CreateVolume env;
     ec2_AttachVolume := ec2_AttachVolume env;
     ec2_DetachVolume := ec2_DetachVolume env;
     ec2_DeleteVolume := ec2_DeleteVolume env;
     ec2_DescribeInstances := ec2_DescribeInstances env;
     ec2_DescribeVolumes := ec2_DescribeVolumes env;
     metadata_GetMetadata := metadata_GetMetadata env;
     os_Stat := os_Stat env;
     os_Remove := os_Remove env;
     unix_Unmount := unix_Unmount env;
     executor_Run := executor_Run env;
     timer_fired := timer_fired env |}.

(** The calls of one failed unmount of [volumeDir] at moment [t], latest
    first: the unmount, the log entry and the sleep. *)
Definition failed_unmount (env : Env) (volumeDir : string) (t : nat) : list Call :=
  [ Sleep 100;
    LogError (errUnmountRetry volumeDir (unix_Unmount env volumeDir 0 t));
    UnixUnmount volumeDir 0 ].

(** A computation of [Mount] adds to the first trace only calls that are
    [allowed]. *)
Definition mount_issues_only {A : Type} (allowed : Call -> Prop) (m : MM A) : Prop :=
  forall s : MWorld,
    exists tail : list Call, fst (snd (m s)) = tail ++ fst s /\ Forall allowed tail.

(** What a run of a poll loop for a volume may end with: no panic, and
    either a volume that is available, or the timeout with [pending]. *)
Definition ends_available (pending : option ec2_Volume)
  (r : Outcome (option ec2_Volume * option error)) : Prop :=
  match r with
  | Returned (vol, None) => exists v, vol = Some v /\ State v = VolumeStateAvailable
  | Returned (vol, Some e) => e = errTimeout /\ vol = pending
  | Panicked => False
  | OutOfFuel => True
  end.

(** The volume of the tests exists, tagged with its name, and is available;
    an attach request is answered with the attachment in place. *)
Definition world_available : Env :=
  scripted [volumeTag "vol-1" "test/pithos"]
    (fun _ => ([ {| Attachments := []; State := "available"; VolumeId := "vol-1" |} ], None))
    (attachment "attached", None) (attachment "detached", None)
    (fun _ => None) (fun _ => false).

(** Every tag update is refused. *)
Definition world_tagging_fails : Env := with_tagging (Some errThrottled) world_available.

(** The format command exits with status 1, and the detach request that
    follows is refused. *)
Definition world_mkfs_fails : Env :=
  with_executor
    (fun _ _ _ => (Some {| ExitStatus := 1; Stdout := "";
                           Stderr := "mkfs.ext4: Device or resource busy" |}, None))
    world_detach_fails.

(** The mount point is busy: every unmount fails with [EBUSY]. *)
Definition world_mount_busy : Env := with_unmount (fun _ _ _ => Some EBUSY) world_available.

(** Nothing is mounted on the mount point and its directory is gone. *)
Definition world_not_mounted : Env :=
  with_unmount (fun _ _ _ => Some EINVAL)
    (scripted [volumeTag "vol-1" "test/pithos"]
       (fun _ => ([ {| Attachments := []; State := "available"; VolumeId := "vol-1" |} ],
                  None))
       (attachment "attached", None) (attachment "detached", None)
       (fun _ => Some (PathError "remove" "/mnt/ebs/test.pithos" ENOENT))
       (fun _ => false)).

(** Requests are answered with an operation in progress, the service goes
    on describing the volume as being deleted, and the timer of a
    synchronizer has fired from moment [T] on. *)
Definition world_timer_fires (T : nat) : Env :=
  scripted [volumeTag "vol-1" "test/pithos"]
    (fun _ => ([ {| Attachments := []; State := "deleting"; VolumeId := "vol-1" |} ], None))
    (attachment "attaching", None) (attachment "detaching", None)
    (fun _ => None) (fun t => (T <=? t)%nat).

(** A volume was created under a name whose policy part holds a dot. *)
Definition dottedOpts : DriverOptions :=
  {| do_Volume := {| vol_Name := "te.st/pithos"; vol_Size := vol_Size volumeSpec;
                     vol_Params := vol_Params volumeSpec |};
     do_FSOptions := do_FSOptions driverOpts;
     do_Timeout := do_Timeout driverOpts |}.

Definition world_dotted_name : Env :=
  scripted [volumeTag "vol-1" "te.st/pithos"]
    (fun _ => ([ {| Attachments := []; State := "in-use"; VolumeId := "vol-1" |} ], None))
    (attachment "attached", None) (attachment "detached", None)
    (fun _ => None) (fun _ => false).

(** The OS of the instance: directories can be created, the device node of
    [/dev/xvdb] has the device number of major 202 and minor 16, and the
    mount succeeds. *)
Definition theDisk : MountEnv :=
  {| os_MkdirAll := fun _ _ _ => None;
     os_Stat_Rdev := fun _ _ => ((202 * 256 + 16)%Z, None);
     unix_Mount := fun _ _ _ _ _ _ => None |}.

(** The mount [Mount] returns for the volume of the tests on that OS. *)
Definition theMount : storage_Mount :=
  {| mnt_Device := "/dev/xvdb"; mnt_Path := "/mnt/ebs/test.pithos";
     mnt_Volume := volumeSpec; mnt_DevMajor := 202; mnt_DevMinor := 16 |}.

(* ================================================================= *)
(** * Properties *)

(** ** Runs of the call monad *)

Lemma bind_ret {A B : Type} (a : A) (k : A -> M B) (w : World) :
  bind (ret a) k w = k a w.
Proof. reflexivity. Qed.

Lemma bind_call {A B : Type} (c : Call) (answer : nat -> A) (k : A -> M B) (w : World) :
  bind (call c answer) k w = k (answer (List.length w)) (c :: w).
Proof. reflexivity. Qed.

Lemma bind_bind {A B C : Type} (m : M A) (k : A -> M B) (h : B -> M C) (w : World) :
  bind (bind m k) h w = bind m (fun a => bind (k a) h) w.
Proof. unfold bind. destruct (m w) as [[a| |] w']; reflexivity. Qed.

(** ** Go strings *)

Section StringFacts.

Local Open Scope string_scope.

Lemma length_append (a b : string) :
  String.length (a ++ b) = String.length a + String.length b.
Proof. induction a as [|c a IH]; simpl; [reflexivity | now rewrite IH]. Qed.

Lemma append_nil_r (a : string) : a ++ "" = a.
Proof. induction a as [|c a IH]; simpl; [reflexivity | now rewrite IH]. Qed.

Lemma append_assoc (a b c : string) : (a ++ b) ++ c = a ++ (b ++ c).
Proof. induction a as [|x a IH]; simpl; [reflexivity | now rewrite IH]. Qed.

Lemma append_snoc (a : string) (c : ascii) (b : string) :
  (a ++ String c "") ++ b = a ++ String c b.
Proof. now rewrite append_assoc. Qed.

Lemma length_snoc (pre : string) (c : ascii) :
  String.length (pre ++ String c "") = S (String.length pre).
Proof. rewrite length_append. simpl. lia. Qed.

Lemma get_append_here (pre : string) (c : ascii) (rest : string) :
  String.get (String.length pre) (pre ++ String c rest) = Some c.
Proof. induction pre as [|x pre IH]; simpl; [reflexivity | exact IH]. Qed.

Lemma byte_at_append (pre : string) (c : ascii) (rest : string) :
  byte_at (pre ++ String c rest) (String.length pre) = c.
Proof. unfold byte_at. now rewrite get_append_here. Qed.

Lemma substring_all (s : string) : substring 0 (String.length s) s = s.
Proof. induction s as [|c s IH]; simpl; [reflexivity | now rewrite IH]. Qed.

Lemma slice_to_append (pre rest : string) :
  slice_to (pre ++ rest) (String.length pre) = pre.
Proof.
  unfold slice_to. induction pre as [|c pre IH]; simpl.
  - destruct rest; reflexivity.
  - now rewrite IH.
Qed.

Lemma substring_skip (pre rest : string) (m : nat) :
  substring (String.length pre) m (pre ++ rest) = substring 0 m rest.
Proof. induction pre as [|c pre IH]; simpl; [reflexivity | exact IH]. Qed.

Lemma slice_from_append (pre rest : string) :
  slice_from (pre ++ rest) (String.length pre) = rest.
Proof.
  unfold slice_from. rewrite substring_skip, length_append.
  replace (String.length pre + String.length rest - String.length pre)
    with (String.length rest) by lia.
  apply substring_all.
Qed.

Lemma in_range (pre : string) (c : ascii) (rest : string) :
  (String.length pre <? String.length (pre ++ String c rest))%nat = true.
Proof. apply Nat.ltb_lt. rewrite length_append. simpl. lia. Qed.

Lemma no_percent_cons (c : ascii) (s : string) :
  no_percent (String c s) = true -> Ascii.eqb c "%" = false /\ no_percent s = true.
Proof.
  simpl. intros H. apply andb_true_iff in H as [H1 H2].
  split; [now apply negb_true_iff | assumption].
Qed.

Lemma Contains_byte_cons (c x : ascii) (s : string) :
  strings_Contains (String x s) (String c "") = false ->
  Ascii.eqb x c = false /\ strings_Contains s (String c "") = false.
Proof.
  cbn [strings_Contains prefix].
  destruct (ascii_dec c x) as [->|N].
  - destruct s; discriminate.
  - intros H. split; [|assumption].
    apply Ascii.eqb_neq. congruence.
Qed.

Lemma cut_first (sep : ascii) (a b : string) :
  strings_Contains a (String sep "") = false ->
  cut sep (a ++ String sep b) = Some (a, b).
Proof.
  induction a as [|x a IH]; intros H; cbn [append cut].
  - now rewrite Ascii.eqb_refl.
  - apply Contains_byte_cons in H as [Hx Ha].
    rewrite Hx, (IH Ha). reflexivity.
Qed.

Lemma cut_inv (sep : ascii) (s a b : string) :
  cut sep s = Some (a, b) ->
  s = a ++ String sep b /\ strings_Contains a (String sep "") = false.
Proof.
  revert a b. induction s as [|x s IH]; intros a b H; cbn [cut] in H; [discriminate|].
  destruct (Ascii.eqb_spec x sep) as [->|N].
  - injection H as <- <-. split; reflexivity.
  - destruct (cut sep s) as [[a' b']|]; [|discriminate].
    injection H as <- <-.
    destruct (IH a' b' eq_refl) as [-> Ha]. split; [reflexivity|].
    cbn [strings_Contains prefix].
    destruct (ascii_dec sep x) as [E|_]; [congruence | assumption].
Qed.

End StringFacts.

(* ================================================================= *)
(** ** The filesystem command templater *)

Section TemplaterSteps.

Local Open Scope string_scope.

(** The test for an escaped percent, at a percent that follows [pre]. *)
Lemma escape_test (pre rest : string) :
  (String.length pre <? String.length (pre ++ String "%" rest) - 1)%nat
  && Ascii.eqb (byte_at (pre ++ String "%" rest) (String.length pre + 1)) "%"
  = match rest with
    | String c _ => Ascii.eqb c "%"
    | EmptyString => false
    end.
Proof.
  destruct rest as [|c rest].
  - replace (String.length pre <? String.length (pre ++ "%") - 1)%nat with false;
      [reflexivity|].
    symmetry. apply Nat.ltb_ge. rewrite length_append. simpl. lia.
  - replace (String.length pre <? String.length (pre ++ String "%" (String c rest)) - 1)%nat
      with true.
    2:{ symmetry. apply Nat.ltb_lt. rewrite length_append. simpl. lia. }
    rewrite <- (append_snoc pre "%" (String c rest)).
    replace (String.length pre + 1) with (String.length (pre ++ "%")).
    2:{ rewrite length_snoc. lia. }
    now rewrite byte_at_append.
Qed.

(** The three-way [switch] that cuts [fscmd] around the percent at [idx]. *)
Lemma splice_eq (pre rest : string) :
  (if (String.length pre =? 0)%nat
   then (EmptyString, slice_from (pre ++ String "%" rest) 1)
   else if (String.length pre =? String.length (pre ++ String "%" rest) - 1)%nat
        then (slice_to (pre ++ String "%" rest) (String.length pre), EmptyString)
        else (slice_to (pre ++ String "%" rest) (String.length pre),
              slice_from (pre ++ String "%" rest) (String.length pre + 1)))
  = (pre, rest).
Proof.
  destruct (Nat.eqb_spec (String.length pre) 0) as [H0|H0].
  - destruct pre; [|discriminate]. f_equal.
    change ("" ++ String "%" rest) with ("%" ++ rest).
    apply (slice_from_append "%" rest).
  - destruct (Nat.eqb_spec (String.length pre)
                (String.length (pre ++ String "%" rest) - 1)) as [H1|H1].
    + rewrite length_append in H1. simpl in H1.
      destruct rest; [|simpl in H1; lia].
      now rewrite slice_to_append.
    + rewrite slice_to_append. f_equal.
      rewrite <- (append_snoc pre "%" rest).
      replace (String.length pre + 1) with (String.length (pre ++ "%")).
      2:{ rewrite length_snoc. lia. }
      apply slice_from_append.
Qed.

(** Bytes that are not ['%'] are stepped over one by one. *)
Lemma loop_skips_plain (devicePath mid : string) :
  forall (pre rest : string) (fuel : nat),
    no_percent mid = true ->
    templateFSCmd_loop (String.length mid + fuel) (String.length pre)
      (pre ++ mid ++ rest) devicePath
    = templateFSCmd_loop fuel (String.length pre + String.length mid)
        (pre ++ mid ++ rest) devicePath.
Proof.
  induction mid as [|c mid IH]; intros pre rest fuel Hmid.
  - simpl. now rewrite Nat.add_0_r.
  - apply no_percent_cons in Hmid as [Hc Hmid].
    cbn [String.length Nat.add templateFSCmd_loop].
    assert (Hlt : (String.length pre <? String.length (pre ++ String c mid ++ rest))%nat = true).
    { apply Nat.ltb_lt. rewrite length_append. simpl. lia. }
    rewrite Hlt.
    change (String c mid ++ rest) with (String c (mid ++ rest)).
    rewrite byte_at_append, Hc.
    rewrite <- (append_snoc pre c (mid ++ rest)).
    replace (S (String.length pre)) with (String.length (pre ++ String c "")).
    2:{ rewrite length_append. simpl. lia. }
    rewrite IH by assumption.
    f_equal. rewrite length_append. simpl. lia.
Qed.


(** The scan of the device path that was just spliced in at [pre]. *)
Lemma loop_after_splice (devicePath pre rest : string) (fuel : nat) :
  no_percent devicePath = true ->
  devicePath <> "" ->
  templateFSCmd_loop (String.length devicePath - 1 + fuel) (S (String.length pre))
    (pre ++ devicePath ++ rest) devicePath
  = templateFSCmd_loop fuel (String.length (pre ++ devicePath))
      ((pre ++ devicePath) ++ rest) devicePath.
Proof.
  intros Hplain Hne. destruct devicePath as [|c ds]; [congruence|].
  apply no_percent_cons in Hplain as [_ Hds].
  cbn [String.length Nat.sub]. rewrite Nat.sub_0_r.
  change (String c ds ++ rest) with (String c (ds ++ rest)).
  rewrite <- (append_snoc pre c (ds ++ rest)).
  replace (S (String.length pre)) with (String.length (pre ++ String c "")).
  2:{ rewrite length_append. simpl. lia. }
  rewrite loop_skips_plain by assumption.
  f_equal.
  - rewrite !length_append. simpl. lia.
  - rewrite !append_assoc. reflexivity.
Qed.

End TemplaterSteps.

Section Templater.

Local Open Scope string_scope.

Variable devicePath : string.
Hypothesis device_plain : no_percent devicePath = true.

Lemma loop_expands (n : nat) :
  forall rest : string, String.length rest <= n ->
  forall (pre : string) (fuel : nat),
    S (String.length rest * S (String.length devicePath)) <= fuel ->
    templateFSCmd_loop fuel (String.length pre) (pre ++ rest) devicePath
    = Some (pre ++ expand devicePath rest).
Proof.
  induction n as [|n IH]; intros rest Hn pre fuel Hfuel.
  - destruct rest; [|simpl in Hn; lia].
    destruct fuel; [lia|]. cbn [templateFSCmd_loop expand].
    rewrite append_nil_r, Nat.ltb_irrefl. reflexivity.
  - destruct rest as [|c rest].
    { destruct fuel; [lia|]. cbn [templateFSCmd_loop expand].
      rewrite append_nil_r, Nat.ltb_irrefl. reflexivity. }
    destruct fuel as [|fuel]; [lia|].
    cbn [String.length] in Hn, Hfuel.
    cbn [templateFSCmd_loop].
    rewrite in_range, byte_at_append.
    destruct (Ascii.eqb c "%") eqn:Hc.
    2:{ (* a plain byte *)
      cbn [expand]. rewrite Hc.
      rewrite <- (append_snoc pre c rest), <- (length_snoc pre c).
      rewrite IH by (cbn [String.length]; try lia; nia).
      now rewrite append_snoc. }
    apply Ascii.eqb_eq in Hc. subst c.
    rewrite escape_test, splice_eq.
    destruct rest as [|c' rest].
    { (* a final single percent *)
      cbn [expand]. rewrite Ascii.eqb_refl.
      destruct (String.eqb_spec devicePath "") as [He|Hne].
      - rewrite He in *. cbn [String.length] in Hfuel.
        destruct fuel; [lia|]. cbn [templateFSCmd_loop].
        rewrite !append_nil_r.
        replace (S (String.length pre) <? String.length pre)%nat with false; [reflexivity|].
        symmetry. apply Nat.ltb_ge. lia.
      - assert (Hd : String.length devicePath <> 0).
        { destruct devicePath; [congruence | simpl; lia]. }
        replace fuel with (String.length devicePath - 1 + (fuel - (String.length devicePath - 1)))
          by lia.
        rewrite loop_after_splice by assumption.
        rewrite (IH ""); [| simpl; lia | simpl; lia].
        cbn [expand]. now rewrite !append_nil_r. }
    destruct (Ascii.eqb c' "%") eqn:Hc'.
    { (* a doubled percent: stepped over *)
      apply Ascii.eqb_eq in Hc'. subst c'.
      cbn [expand]. rewrite Ascii.eqb_refl.
      replace (pre ++ String "%" (String "%" rest)) with ((pre ++ "%%") ++ rest).
      2:{ rewrite append_assoc. reflexivity. }
      replace (S (S (String.length pre))) with (String.length (pre ++ "%%")).
      2:{ rewrite length_append. simpl. lia. }
      cbn [String.length] in Hn, Hfuel.
      rewrite IH by (cbn [String.length]; try lia; nia).
      rewrite append_assoc. reflexivity. }
    (* a single percent followed by a plain byte *)
    cbn [expand]. rewrite Ascii.eqb_refl, Hc'.
    cbn [String.length] in Hn, Hfuel.
    destruct (String.eqb_spec devicePath "") as [He|Hne].
    + rewrite He in *. cbn [String.length] in Hfuel. cbn [append].
      rewrite <- (append_snoc pre c' rest), <- (length_snoc pre c').
      rewrite IH by (cbn [String.length]; try lia; nia).
      now rewrite append_snoc.
    + assert (Hd : String.length devicePath <> 0).
      { destruct devicePath; [congruence | simpl; lia]. }
      replace fuel with (String.length devicePath - 1 + (fuel - (String.length devicePath - 1)))
        by lia.
      rewrite loop_after_splice by assumption.
      rewrite (IH (String c' rest)); [| simpl; lia | simpl; nia].
      cbn [expand]. rewrite Hc'. now rewrite append_assoc.
Qed.

(** More fuel never changes a result. *)
Lemma loop_fuel_mono (fuel : nat) :
  forall (fuel' idx : nat) (fscmd r : string),
    fuel <= fuel' ->
    templateFSCmd_loop fuel idx fscmd devicePath = Some r ->
    templateFSCmd_loop fuel' idx fscmd devicePath = Some r.
Proof.
  induction fuel as [|fuel IH]; intros fuel' idx fscmd r Hle H; [discriminate|].
  destruct fuel' as [|fuel']; [lia|].
  cbn [templateFSCmd_loop] in *.
  destruct (idx <? String.length fscmd)%nat; [|assumption].
  destruct (Ascii.eqb (byte_at fscmd idx) "%").
  - destruct ((idx <? String.length fscmd - 1)%nat && Ascii.eqb (byte_at fscmd (idx + 1)) "%").
    + apply IH; [lia | assumption].
    + destruct (if (idx =? 0)%nat then _ else _) as [lhs rhs].
      apply IH; [lia | assumption].
  - apply IH; [lia | assumption].
Qed.

(** With a device path without ['%'], whatever the loop returns is the
    expansion of the template. *)
Lemma templateFSCmd_result_unique (fuel : nat) (fscmd r : string) :
  templateFSCmd fuel fscmd devicePath = Some r -> r = expand devicePath fscmd.
Proof.
  intros H. unfold templateFSCmd in H.
  apply (loop_fuel_mono fuel (Nat.max fuel (templateFSCmd_fuel fscmd devicePath))) in H;
    [|lia].
  pose proof (loop_expands (String.length fscmd) fscmd (Nat.le_refl _) ""
                (Nat.max fuel (templateFSCmd_fuel fscmd devicePath))) as Hrun.
  cbn [String.length append] in Hrun.
  rewrite Hrun in H; [congruence|].
  unfold templateFSCmd_fuel. lia.
Qed.

End Templater.

(** C2, as the code has it: applied to any template and any device path
    without ['%'], the templater returns (given the loop iterations
    [templateFSCmd_fuel] counts) the template in which every single ['%'] is
    replaced by the device path and every doubled ["%%"] is left in place as
    two ['%'] bytes; the scan goes left to right and steps over both bytes
    of a pair, so ["%%%"] yields ["%%"] followed by one device path. *)
Theorem templateFSCmd_keeps_doubled_percent (fscmd devicePath : string) (fuel : nat) :
  no_percent devicePath = true ->
  templateFSCmd_fuel fscmd devicePath <= fuel ->
  templateFSCmd fuel fscmd devicePath = Some (expand devicePath fscmd).
Proof.
  intros Hplain Hfuel. unfold templateFSCmd.
  exact (loop_expands devicePath Hplain (String.length fscmd) fscmd (Nat.le_refl _)
           EmptyString fuel Hfuel).
Qed.

(** C2 on three templates: the format command of the tests has its percent
    replaced by the device, the two templates with a doubled percent keep
    it. *)
Lemma templateFSCmd_keeps_doubled_percent_witness :
  no_percent "/dev/xvdb" = true
  /\ templateFSCmd 256 "mkfs.ext4 -m0 %" "/dev/xvdb" = Some "mkfs.ext4 -m0 /dev/xvdb"%string
  /\ templateFSCmd 256 "echo %% %" "/dev/xvdb" = Some "echo %% /dev/xvdb"%string
  /\ templateFSCmd 256 "%%%" "/dev/xvdb" = Some "%%/dev/xvdb"%string.
Proof.
  split; [reflexivity|].
  split; [|split].
  - exact (templateFSCmd_keeps_doubled_percent "mkfs.ext4 -m0 %" "/dev/xvdb" 256 eq_refl
             (proj1 (Nat.leb_le (templateFSCmd_fuel "mkfs.ext4 -m0 %" "/dev/xvdb") 256) eq_refl)).
  - exact (templateFSCmd_keeps_doubled_percent "echo %% %" "/dev/xvdb" 256 eq_refl
             (proj1 (Nat.leb_le (templateFSCmd_fuel "echo %% %" "/dev/xvdb") 256) eq_refl)).
  - exact (templateFSCmd_keeps_doubled_percent "%%%" "/dev/xvdb" 256 eq_refl
             (proj1 (Nat.leb_le (templateFSCmd_fuel "%%%" "/dev/xvdb") 256) eq_refl)).
Defined.

(** C2 does not hold of the code: no run of the templater on ["echo %% %"] returns
    ["echo % /dev/xvdb"], and none on ["%%%"] returns ["%/dev/xvdb"]; the
    doubled percent stays doubled. *)
Lemma templateFSCmd_doubled_percent_counterexample :
  templateFSCmd 256 "echo %% %" "/dev/xvdb" = Some "echo %% /dev/xvdb"%string
  /\ ~ (exists fuel, templateFSCmd fuel "echo %% %" "/dev/xvdb"
                     = Some "echo % /dev/xvdb"%string)
  /\ templateFSCmd 256 "%%%" "/dev/xvdb" = Some "%%/dev/xvdb"%string
  /\ ~ (exists fuel, templateFSCmd fuel "%%%" "/dev/xvdb" = Some "%/dev/xvdb"%string).
Proof.
  repeat split.
  - intros [fuel H].
    apply (templateFSCmd_result_unique "/dev/xvdb" eq_refl) in H. discriminate.
  - intros [fuel H].
    apply (templateFSCmd_result_unique "/dev/xvdb" eq_refl) in H. discriminate.
Qed.

(** A device path with a ['%'] can keep the loop busy beyond any bound the
    template gives: the path is scanned again after it is spliced in. *)
Example templateFSCmd_rescans_device_path :
  templateFSCmd 1000 "%" "%a%a" = None.
Proof. vm_compute. reflexivity. Qed.

(* ================================================================= *)
(** ** Size validation *)

Section SizeValidation.

Local Open Scope Z_scope.


Lemma getVolumeSizeInGB_accepts (size : Z) :
  0 <= size <= uint64_max ->
  gigabyteAsBytes <= size -> size mod gigabyteAsBytes = 0 ->
  getVolumeSizeInGB size = (size / gigabyteAsBytes, None).
Proof.
  intros Hrange Hge Hmod. unfold getVolumeSizeInGB.
  destruct (Z.ltb_spec size gigabyteAsBytes) as [Hlt|_]; [lia|].
  rewrite Hmod. cbn [Z.eqb negb]. f_equal.
  unfold int64_of_uint64.
  destruct (Z.ltb_spec (size / gigabyteAsBytes) (2 ^ 63)) as [_|Hbig]; [reflexivity|].
  exfalso. unfold uint64_max, gigabyteAsBytes in *.
  assert (size / (1024 * 1024 * 1024) < 2 ^ 63); [|lia].
  apply Z.div_lt_upper_bound; lia.
Qed.



Example size_validation_rejects_zero_and_fractions :
  getVolumeSizeInGB 0 = (0, Some errMinimumSize)
  /\ getVolumeSizeInGB (gigabyteAsBytes - 1) = (0, Some errMinimumSize)
  /\ getVolumeSizeInGB (gigabyteAsBytes + 1) = (0, Some errWholeGigabytes)
  /\ Create (world_of_tags []) 0 {| mountpath := "" |}
       {| do_Volume := {| vol_Name := "test/pithos"; vol_Size := 0; vol_Params := [] |};
          do_FSOptions := do_FSOptions driverOpts; do_Timeout := 0 |} []
     = (Returned (Some errMinimumSize), []).
Proof. repeat split. Qed.

End SizeValidation.

(* ================================================================= *)
(** ** The device allocator *)

Section Allocator.

Local Open Scope string_scope.

Variable mappings : list InstanceBlockDeviceMapping.

Lemma usable_spec (blockDev : string) :
  usable blockDev mappings = true <-> ~ In blockDev (map DeviceName mappings).
Proof.
  induction mappings as [|m ms IH]; simpl.
  - split; [intros _ [] | reflexivity].
  - destruct (String.eqb_spec blockDev (DeviceName m)) as [E|N].
    + split; [discriminate | intros H; exfalso; apply H; left; now symmetry].
    + rewrite IH. split.
      * intros H [E|HIn]; [apply N; now symmetry | now apply H].
      * intros H HIn. apply H. now right.
Qed.


(** The outer loop from [dev] on, with enough iterations left to reach ['z']. *)
Lemma findFreeBlockDevice_loop_spec (n : nat) :
  forall dev : nat,
    nat_of_ascii "z" <= dev + n ->
    (exists k, dev <= k < nat_of_ascii "z"
               /\ usable (blockDevName k) mappings = true
               /\ (forall j, dev <= j < k -> usable (blockDevName j) mappings = false)
               /\ findFreeBlockDevice_loop n dev mappings = (blockDevName k, None))
    \/ ((forall j, dev <= j < nat_of_ascii "z" -> usable (blockDevName j) mappings = false)
        /\ findFreeBlockDevice_loop n dev mappings = ("", Some errNoFreeDevice)).
Proof.
  induction n as [|n IH]; intros dev Hn.
  - right. split; [intros j Hj; lia | reflexivity].
  - cbn [findFreeBlockDevice_loop].
    destruct (Nat.ltb_spec dev (nat_of_ascii "z")) as [Hlt|Hge].
    2:{ right. split; [intros j Hj; lia | reflexivity]. }
    destruct (usable (blockDevName dev) mappings) eqn:Hu.
    + left. exists dev. repeat split; try lia; try assumption.
    + destruct (IH (S dev) ltac:(lia)) as [(k & Hk & Huk & Hbefore & Hres) | (Hall & Hres)].
      * left. exists k. repeat split; try lia; try assumption.
        intros j Hj. destruct (Nat.eq_dec j dev) as [->|Hne]; [assumption|].
        apply Hbefore. lia.
      * right. split; [|assumption].
        intros j Hj. destruct (Nat.eq_dec j dev) as [->|Hne]; [assumption|].
        apply Hall. lia.
Qed.


End Allocator.

Example findFreeBlockDevice_on_the_instance :
  findFreeBlockDevice (BlockDeviceMappings theInstance) = ("/dev/xvdb"%string, None)
  /\ findFreeBlockDevice
       (map (fun k => {| DeviceName := candidate k; Ebs := {| ebs_VolumeId := "vol" |} |})
          (seq 0 25))
     = (EmptyString, Some errNoFreeDevice).
Proof. split; reflexivity. Qed.

(* ================================================================= *)
(** ** Volume names and mount paths *)

Section Names.

Local Open Scope string_scope.

Variable c : Driver.

Lemma internalName_well_formed (name policy volume : string) :
  well_formed name policy volume ->
  internalName c name = (policy ++ "." ++ volume, None).
Proof.
  intros (-> & Hslash & Hdot & Hvol).
  unfold internalName. cbn [strings_SplitN].
  change ("/" ++ volume) with (String "/" volume).
  rewrite (cut_first "/" policy volume Hslash).
  cbn [List.length Nat.eqb negb nth]. rewrite Hdot, Hvol.
  reflexivity.
Qed.

Lemma internalName_ok_inv (name intName : string) :
  internalName c name = (intName, None) ->
  exists policy volume,
    well_formed name policy volume /\ intName = policy ++ "." ++ volume.
Proof.
  unfold internalName. cbn [strings_SplitN].
  destruct (cut "/" name) as [[a b]|] eqn:Hcut; cbn [List.length Nat.eqb negb nth];
    [|discriminate].
  destruct (strings_Contains a ".") eqn:Hdot; [discriminate|].
  destruct (strings_Contains b "/") eqn:Hvol; [discriminate|].
  intros H. injection H as <-.
  apply cut_inv in Hcut as [-> Hslash].
  exists a, b. repeat split; assumption.
Qed.

Lemma internalName_total (name : string) :
  (exists intName, internalName c name = (intName, None))
  \/ (exists e, internalName c name = ("", Some e)).
Proof.
  unfold internalName.
  destruct (negb _); [right; eauto|].
  destruct (strings_Contains _ "."); [right; eauto|].
  destruct (strings_Contains _ "/"); [right; eauto|].
  left; eauto.
Qed.

Variable P : PathLib.

(** C8, as the code has it: [MountPath] is a function of the driver's mount
    path and of the volume name alone (it is a term of the logic: it issues
    no call).  For a well-formed name [policy/volume] it returns the mount
    path joined with [policy.volume] if [filepath.Rel] can make that path
    relative to the mount path and the relative path contains no [..]; if
    not, it returns the error of the subdirectory jail.  Every name that is
    not well formed yields an error. *)
Theorem MountPath_is_a_function_of_the_name :
  (forall do1 do2 : DriverOptions,
      vol_Name (do_Volume do1) = vol_Name (do_Volume do2) ->
      MountPath P c do1 = MountPath P c do2)
  /\ (forall (do : DriverOptions) (policy volume rel : string) (err : option error),
        well_formed (vol_Name (do_Volume do)) policy volume ->
        let volumePath := filepath_Join P (mountpath c) (policy ++ "." ++ volume) in
        filepath_Rel P (mountpath c) volumePath = (rel, err) ->
        MountPath P c do
        = if is_nil err && negb (strings_Contains rel "..")
          then (volumePath, None)
          else ("", Some (errEscape volumePath)))
  /\ (forall do : DriverOptions,
        (forall policy volume, ~ well_formed (vol_Name (do_Volume do)) policy volume) ->
        exists e, MountPath P c do = ("", Some e)).
Proof.
  repeat split.
  - intros do1 do2 H. unfold MountPath. now rewrite H.
  - intros do policy volume rel err Hwf volumePath Hrel.
    unfold MountPath. rewrite (internalName_well_formed _ _ _ Hwf).
    cbn [is_nil negb]. unfold mkMountPath. fold volumePath. rewrite Hrel.
    destruct err as [e|]; cbn [is_nil negb orb andb]; [reflexivity|].
    destruct (strings_Contains rel ".."); reflexivity.
  - intros do Hbad. unfold MountPath.
    destruct (internalName_total (vol_Name (do_Volume do))) as [[intName H] | [e H]].
    + destruct (internalName_ok_inv _ _ H) as (policy & volume & Hwf & _).
      exfalso; exact (Hbad _ _ Hwf).
    + rewrite H. exists e. reflexivity.
Qed.

End Names.

(** C8 does not hold of the code: ["test/.pithos"] is well formed, its internal name
    ["test..pithos"] contains [..], and [MountPath] yields the error of the
    subdirectory jail instead of [/mnt/ebs/test..pithos]. *)
Lemma MountPath_dot_volume_counterexample :
  well_formed "test/.pithos" "test" ".pithos"
  /\ filepath_Join GoUnixPath myMountpath "test..pithos" = "/mnt/ebs/test..pithos"%string
  /\ MountPath GoUnixPath {| mountpath := myMountpath |}
       {| do_Volume := {| vol_Name := "test/.pithos"; vol_Size := vol_Size volumeSpec;
                          vol_Params := vol_Params volumeSpec |};
          do_FSOptions := do_FSOptions driverOpts; do_Timeout := do_Timeout driverOpts |}
     = (EmptyString, Some (errEscape "/mnt/ebs/test..pithos")).
Proof. repeat split. Qed.

(** The mount path of the tests: [filepath.Join(myMountpath, "test.pithos")]. *)
Example MountPath_of_the_tests :
  MountPath GoUnixPath {| mountpath := myMountpath |} driverOpts
  = ("/mnt/ebs/test.pithos"%string, None).
Proof. reflexivity. Qed.

(* ================================================================= *)
(** ** Queries of the tag index *)

Section Queries.

Local Open Scope string_scope.

Variable env : Env.
Variable region : EC2.

Lemma getVolumesWithFilters_run (filters : list Filter) (w : World) :
  let params := {| dti_DryRun := false; dti_Filters := filters; dti_MaxResults := 6 |} in
  getVolumesWithFilters env filters (Some region) w
  = (Returned (ec2_DescribeTags env params (List.length w)), DescribeTags params :: w).
Proof.
  intros params. unfold getVolumesWithFilters, svc_call. fold params.
  rewrite bind_call. destruct (ec2_DescribeTags env params (List.length w)). reflexivity.
Qed.

(** A status query that the service answers with an error. *)
Lemma getVolumeInfo_error (volume : string) (w : World)
  (vols : list ec2_Volume) (e : error) :
  ec2_DescribeVolumes env [volume] (List.length w) = (vols, Some e) ->
  getVolumeInfo env volume (Some region) w
  = (Returned (None, Some e), DescribeVolumes [volume] :: w).
Proof.
  intros H. unfold getVolumeInfo, svc_call. cbn [is_nil].
  rewrite bind_call, H. reflexivity.
Qed.

(** A status query that the service answers with one volume. *)
Lemma getVolumeInfo_found (volume : string) (w : World) (v : ec2_Volume) :
  ec2_DescribeVolumes env [volume] (List.length w) = ([v], None) ->
  getVolumeInfo env volume (Some region) w
  = (Returned (Some v, None), DescribeVolumes [volume] :: w).
Proof.
  intros H. unfold getVolumeInfo, svc_call. cbn [is_nil].
  rewrite bind_call, H. reflexivity.
Qed.

Variable name : string.
Variable w : World.


End Queries.


Example getVolumeWithName_none_or_several :
  getVolumeWithName (world_of_tags []) "test/pithos" (Some "eu-central-1"%string) []
  = (Returned (EmptyString, Some (errExpectedOne 0)), [DescribeTags (nameQuery "test/pithos")])
  /\ getVolumeWithName
       (world_of_tags [volumeTag "vol-1" "test/pithos"; volumeTag "vol-2" "test/pithos"])
       "test/pithos" (Some "eu-central-1"%string) []
     = (Returned (EmptyString, Some (errExpectedOne 2)),
        [DescribeTags (nameQuery "test/pithos")]).
Proof. split; reflexivity. Qed.

(* ================================================================= *)
(** ** Listing and existence *)

Section Listing.

Local Open Scope string_scope.

Variable env : Env.
Variable c : Driver.

Lemma List_run (lo : ListOptions) (w : World) :
  List_ env c lo w
  = (let '(page, err) := ec2_DescribeTags env listQuery (List.length w) in
     Returned (if is_nil err then map named page else [], err),
     DescribeTags listQuery :: w).
Proof.
  unfold List_, listVolumes, getVolumesWithKey, ec2_New.
  rewrite !bind_bind. unfold bind at 1. rewrite getVolumesWithFilters_run.
  fold listQuery.
  destruct (ec2_DescribeTags env listQuery (List.length w)) as [page [e|]]; reflexivity.
Qed.

Lemma Exists_scan_existsb (page : list TagDescription) (name : string) :
  Exists_scan (map named page) name = existsb (fun v => String.eqb (Value v) name) page.
Proof.
  induction page as [|v page IH]; [reflexivity|].
  cbn [map Exists_scan existsb named vol_Name]. rewrite IH.
  destruct (String.eqb (Value v) name); reflexivity.
Qed.

Hypothesis service_pages : honours_MaxResults env.

(** C9: the query [List] sends asks for at most 6 results, so against a
    service that returns no more descriptions than asked for [List] returns
    at most 6 volumes; [Exists] sends that one query and answers by the
    names on the page it gets: a volume whose name is not on that page is
    reported as not existing. *)
Theorem listing_reads_one_page_of_six (do : DriverOptions) (w : World) :
  let page := fst (ec2_DescribeTags env listQuery (List.length w)) in
  let err := snd (ec2_DescribeTags env listQuery (List.length w)) in
  let name := vol_Name (do_Volume do) in
  dti_MaxResults listQuery = 6%Z
  /\ (exists volumes,
        List_ env c {| lo_Params := vol_Params (do_Volume do) |} w
        = (Returned (volumes, err), DescribeTags listQuery :: w)
        /\ List.length volumes <= 6
        /\ (err = None -> volumes = map named page))
  /\ Exists env c do w
     = (Returned (is_nil err && existsb (fun v => String.eqb (Value v) name) page, err),
        DescribeTags listQuery :: w)
  /\ (~ In name (map Value page) ->
      Exists env c do w = (Returned (false, err), DescribeTags listQuery :: w)).
Proof.
  intros page err name.
  assert (Hpage : List.length page <= 6).
  { pose proof (service_pages listQuery (List.length w) ltac:(simpl; lia)) as H.
    fold page in H. cbn [dti_MaxResults listQuery] in H. lia. }
  assert (Hexists :
    Exists env c do w
    = (Returned (is_nil err && existsb (fun v => String.eqb (Value v) name) page, err),
       DescribeTags listQuery :: w)).
  { unfold Exists, bind. rewrite List_run. subst page err.
    destruct (ec2_DescribeTags env listQuery (List.length w)) as [page [e|]];
      cbn [fst snd is_nil negb andb]; [reflexivity|].
    unfold ret. now rewrite Exists_scan_existsb. }
  split; [reflexivity|]. split; [|split].
  - rewrite List_run. subst page err.
    destruct (ec2_DescribeTags env listQuery (List.length w)) as [page [e|]];
      cbn [fst snd is_nil] in *.
    + exists []. repeat split; [simpl; lia | discriminate].
    + exists (map named page). repeat split. now rewrite length_map.
  - exact Hexists.
  - intros Hout. rewrite Hexists. f_equal. f_equal.
    replace (existsb (fun v => String.eqb (Value v) name) page) with false;
      [now rewrite andb_false_r|].
    symmetry. apply not_true_is_false. intros Hex.
    apply existsb_exists in Hex as (v & Hv & Heq).
    apply String.eqb_eq in Heq. apply Hout. rewrite <- Heq. now apply in_map.
Qed.

End Listing.

Lemma tag_page_length (remote : list TagDescription) (input : DescribeTagsInput) :
  (0 <= dti_MaxResults input)%Z ->
  (Z.of_nat (List.length (tag_page remote input)) <= dti_MaxResults input)%Z.
Proof.
  intros H. unfold tag_page. rewrite length_firstn. lia.
Qed.

Lemma world_of_tags_pages (remote : list TagDescription) :
  honours_MaxResults (world_of_tags remote).
Proof. intros input t H. now apply tag_page_length. Qed.

Lemma tag_page_listQuery (remote : list TagDescription) :
  tag_page remote listQuery = firstn 6 (volume_tags remote).
Proof.
  unfold tag_page, volume_tags. cbn [dti_MaxResults listQuery]. f_equal.
  apply filter_ext. intros t.
  cbn [forallb dti_Filters listQuery matches_filter filter_Name filter_Values
       String.eqb Ascii.eqb Bool.eqb existsb].
  now rewrite !orb_false_r, andb_true_r.
Qed.

(** For every state of the remote tag index, [List] returns the volumes of
    the first six descriptions and [Exists] looks at those six alone. *)
Lemma Exists_in_every_remote_state (remote : list TagDescription) (c : Driver)
  (do : DriverOptions) (w : World) :
  List_ (world_of_tags remote) c {| lo_Params := vol_Params (do_Volume do) |} w
  = (Returned (map named (firstn 6 (volume_tags remote)), None), DescribeTags listQuery :: w)
  /\ Exists (world_of_tags remote) c do w
     = (Returned (existsb (fun v => String.eqb (Value v) (vol_Name (do_Volume do)))
                    (firstn 6 (volume_tags remote)), None),
        DescribeTags listQuery :: w).
Proof.
  split.
  - rewrite List_run. cbn [world_of_tags scripted ec2_DescribeTags is_nil].
    now rewrite tag_page_listQuery.
  - unfold Exists, bind. rewrite List_run.
    cbn [world_of_tags scripted ec2_DescribeTags is_nil negb].
    unfold ret. now rewrite tag_page_listQuery, Exists_scan_existsb.
Qed.

(** C9 with seven tagged volumes: the seventh is tagged in the remote index
    and [Exists] reports it as not existing. *)
Lemma listing_reads_one_page_of_six_witness :
  honours_MaxResults (world_of_tags seven_volumes)
  /\ In (volumeTag "vol-7" "test/seventh") seven_volumes
  /\ Exists (world_of_tags seven_volumes) {| mountpath := "" |}
       {| do_Volume := {| vol_Name := "test/seventh"; vol_Size := vol_Size volumeSpec;
                          vol_Params := vol_Params volumeSpec |};
          do_FSOptions := do_FSOptions driverOpts; do_Timeout := do_Timeout driverOpts |} []
     = (Returned (false, None), [DescribeTags listQuery]).
Proof.
  split; [apply world_of_tags_pages|].
  split; [simpl; tauto|].
  refine (proj2 (proj2 (proj2
    (listing_reads_one_page_of_six (world_of_tags seven_volumes) {| mountpath := "" |}
       (world_of_tags_pages seven_volumes)
       {| do_Volume := {| vol_Name := "test/seventh"; vol_Size := vol_Size volumeSpec;
                          vol_Params := vol_Params volumeSpec |};
          do_FSOptions := do_FSOptions driverOpts; do_Timeout := do_Timeout driverOpts |}
       []))) _).
  vm_compute. intros H.
  repeat (destruct H as [H|H]; [discriminate|]). exact H.
Defined.

(* ================================================================= *)
(** ** The synchronizers *)

Section Synchronizers.

Local Open Scope string_scope.

Variable env : Env.
Variable region : EC2.

(** In the poll loop of the delete, a not-found answer ends the wait with
    success. *)
Lemma deleteVolume_poll_NotFound (fuel : nat) (volume : string) (w : World)
  (vols : list ec2_Volume) (msg : string) :
  timer_fired env (List.length w) = false ->
  ec2_DescribeVolumes env [volume] (S (List.length w))
  = (vols, Some (AwsError "InvalidVolume.NotFound" msg)) ->
  deleteVolume_poll env (S fuel) volume (Some region) w
  = (Returned None, DescribeVolumes [volume] :: Select 500 :: w).
Proof.
  intros Htimer Hq. cbn [deleteVolume_poll]. unfold select_timeout.
  rewrite bind_call, Htimer. unfold bind.
  rewrite (getVolumeInfo_error env region volume (Select 500 :: w) vols _ Hq).
  reflexivity.
Qed.

(** In the poll loop of the delete, any other error of the status query,
    and any answer without error, lets the loop go on. *)
Lemma deleteVolume_poll_continues (fuel : nat) (volume : string) (w : World)
  (vols : list ec2_Volume) (err : option error) :
  timer_fired env (List.length w) = false ->
  ec2_DescribeVolumes env [volume] (S (List.length w)) = (vols, err) ->
  aws_code_is err "InvalidVolume.NotFound" = false ->
  (err = None -> List.length vols = 1) ->
  deleteVolume_poll env (S fuel) volume (Some region) w
  = deleteVolume_poll env fuel volume (Some region)
      (DescribeVolumes [volume] :: Select 500 :: w).
Proof.
  intros Htimer Hq Hcode Hone. cbn [deleteVolume_poll]. unfold select_timeout.
  rewrite bind_call, Htimer. unfold bind.
  destruct err as [e|].
  - rewrite (getVolumeInfo_error env region volume (Select 500 :: w) vols e Hq).
    cbn [is_nil]. now rewrite Hcode.
  - destruct vols as [|v [|v' vols]]; try (specialize (Hone eq_refl); discriminate).
    rewrite (getVolumeInfo_found env region volume (Select 500 :: w) v Hq). reflexivity.
Qed.

(** When the timeout fires the loop ends with [errTimeout]. *)
Lemma deleteVolume_poll_timeout (fuel : nat) (volume : string) (w : World) :
  timer_fired env (List.length w) = true ->
  deleteVolume_poll env (S fuel) volume (Some region) w
  = (Returned (Some errTimeout), Select 500 :: w).
Proof.
  intros Htimer. cbn [deleteVolume_poll]. unfold select_timeout.
  rewrite bind_call, Htimer. reflexivity.
Qed.

(** The status query sent right after the delete request is outside the
    loop: its error is returned as it is, a not-found error included. *)
Lemma deleteVolumeSynchronously_first_query_error (fuel : nat) (volume : string)
  (timeout : Z) (w : World) (vols : list ec2_Volume) (e : error) :
  ec2_DeleteVolume env volume (List.length w) = None ->
  ec2_DescribeVolumes env [volume] (S (List.length w)) = (vols, Some e) ->
  deleteVolumeSynchronously env fuel volume (Some region) timeout w
  = (Returned (Some e), DescribeVolumes [volume] :: DeleteVolume volume :: w).
Proof.
  intros Hdel Hq. unfold deleteVolumeSynchronously, deleteVolume, svc_call.
  cbn [is_nil]. rewrite bind_call, Hdel. cbn [is_nil negb]. unfold bind.
  rewrite (getVolumeInfo_error env region volume (DeleteVolume volume :: w) vols e Hq).
  reflexivity.
Qed.

(** A delete that reaches the poll loop and finds the volume gone at the
    first poll returns nil. *)
Lemma deleteVolumeSynchronously_NotFound_in_poll (fuel : nat) (volume : string)
  (timeout : Z) (w : World) (v : ec2_Volume) (vols : list ec2_Volume) (msg : string) :
  ec2_DeleteVolume env volume (List.length w) = None ->
  ec2_DescribeVolumes env [volume] (1 + List.length w) = ([v], None) ->
  String.eqb (State v) VolumeStateDeleted = false ->
  timer_fired env (3 + List.length w) = false ->
  ec2_DescribeVolumes env [volume] (4 + List.length w)
  = (vols, Some (AwsError "InvalidVolume.NotFound" msg)) ->
  deleteVolumeSynchronously env (S fuel) volume (Some region) timeout w
  = (Returned None,
     DescribeVolumes [volume] :: Select 500 :: GoTimer timeout
     :: DescribeVolumes [volume] :: DeleteVolume volume :: w).
Proof.
  intros Hdel Hfirst Hstate Htimer Hq.
  unfold deleteVolumeSynchronously, deleteVolume, svc_call.
  cbn [is_nil]. rewrite bind_call, Hdel. cbn [is_nil negb]. unfold bind at 1.
  rewrite (getVolumeInfo_found env region volume (DeleteVolume volume :: w) v Hfirst).
  cbn [is_nil negb]. unfold bind at 1. cbn [deref ret]. rewrite Hstate.
  unfold go_timer. rewrite bind_call.
  exact (deleteVolume_poll_NotFound fuel volume
           (GoTimer timeout :: DescribeVolumes [volume] :: DeleteVolume volume :: w)
           vols msg Htimer Hq).
Qed.

(** In the poll loop of the attach, the attached state is accepted when the
    device node is there and the service reports the one attachment as
    attached. *)
Lemma attachVolume_poll_accepts_attached (fuel : nat) (resp : VolumeAttachment)
  (device attachmentState : string) (w : World) (v : ec2_Volume) (a : VolumeAttachment) :
  timer_fired env (List.length w) = false ->
  os_Stat env device (S (List.length w)) = None ->
  ec2_DescribeVolumes env [va_VolumeId resp] (S (S (List.length w))) = ([v], None) ->
  Attachments v = [a] ->
  va_State a = VolumeAttachmentStateAttached ->
  attachVolume_poll env (S fuel) resp device (Some region) attachmentState w
  = (Returned (Some a, None),
     DescribeVolumes [va_VolumeId resp] :: OsStat device :: Select 100 :: w).
Proof.
  intros Htimer Hstat Hq Hone Hstate. cbn [attachVolume_poll]. unfold select_timeout.
  rewrite bind_call, Htimer. rewrite bind_call. cbn [List.length]. rewrite Hstat.
  cbn [is_nil negb andb]. unfold bind at 1.
  rewrite (getVolumeInfo_found env region _ (OsStat device :: Select 100 :: w) v Hq).
  unfold bind, elem_at, deref, ret. rewrite Hone. cbn [List.length Nat.eqb nth_error].
  rewrite Hstate. reflexivity.
Qed.

(** In the poll loop of the attach, while the device node is missing the
    service is not asked. *)
Lemma attachVolume_poll_waits_for_device (fuel : nat) (resp : VolumeAttachment)
  (device attachmentState : string) (w : World) (stat : option error) :
  timer_fired env (List.length w) = false ->
  os_Stat env device (S (List.length w)) = stat ->
  os_IsNotExist stat = true ->
  attachVolume_poll env (S fuel) resp device (Some region) attachmentState w
  = attachVolume_poll env fuel resp device (Some region) attachmentState
      (OsStat device :: Select 100 :: w).
Proof.
  intros Htimer Hstat Hmissing. cbn [attachVolume_poll]. unfold select_timeout.
  rewrite bind_call, Htimer. rewrite bind_call. cbn [List.length]. rewrite Hstat, Hmissing.
  destruct stat; [reflexivity | discriminate].
Qed.

(** In the poll loop of the attach, once the device node is there, a status
    query that fails makes the loop read through the nil volume. *)
Lemma attachVolume_poll_query_error_panics (fuel : nat) (resp : VolumeAttachment)
  (device attachmentState : string) (w : World) (stat : option error)
  (vols : list ec2_Volume) (e : error) :
  timer_fired env (List.length w) = false ->
  os_Stat env device (S (List.length w)) = stat ->
  os_IsNotExist stat = false ->
  ec2_DescribeVolumes env [va_VolumeId resp] (S (S (List.length w))) = (vols, Some e) ->
  attachVolume_poll env (S fuel) resp device (Some region) attachmentState w
  = (Panicked,
     DescribeVolumes [va_VolumeId resp] :: OsStat device :: Select 100 :: w).
Proof.
  intros Htimer Hstat Hexists Hq. cbn [attachVolume_poll]. unfold select_timeout.
  rewrite bind_call, Htimer. rewrite bind_call. cbn [List.length]. rewrite Hstat, Hexists.
  rewrite andb_false_r. unfold bind.
  rewrite (getVolumeInfo_error env region _ (OsStat device :: Select 100 :: w) vols e Hq).
  reflexivity.
Qed.

End Synchronizers.

(** C1 on the code: the delete request succeeds and the status query that
    follows it reports [InvalidVolume.NotFound]; [deleteVolumeSynchronously]
    returns that error, not nil, and [Destroy] fails with it. *)
Theorem deleteVolumeSynchronously_NotFound_at_once (fuel : nat) (timeout : Z) :
  deleteVolumeSynchronously world_deleted_at_once fuel "vol-1" (Some "eu-central-1"%string)
    timeout []
  = (Returned (Some errNotFound), [DescribeVolumes ["vol-1"%string]; DeleteVolume "vol-1"])
  /\ aws_code_is (Some errNotFound) "InvalidVolume.NotFound" = true
  /\ Destroy world_deleted_at_once fuel {| mountpath := "" |} driverOpts []
     = (Returned (Some (Errorf "failed to destroy the AWS EBS volume: %v"
                          [ArgE (Some errNotFound)])),
        [ DescribeVolumes ["vol-1"%string]; DeleteVolume "vol-1";
          DeleteTags ["vol-1"%string]
            [ {| tag_Key := contivVolumeKey; tag_Value := "test/pithos" |} ];
          DescribeTags (nameQuery "test/pithos") ]).
Proof. repeat split. Qed.

(** C4 on the code: the attachment is pending, the device node exists and
    the status query of the first poll fails; the loop panics on the nil
    volume instead of polling again. *)
Theorem attachVolumeSynchronously_panics_on_query_error (fuel : nat) (timeout : Z) :
  attachVolumeSynchronously world_throttled_query (S fuel) "vol-1" "i-1" "/dev/xvdb"
    (Some "eu-central-1"%string) timeout []
  = (Panicked,
     [ DescribeVolumes ["vol-1"%string]; OsStat "/dev/xvdb"; Select 100; GoTimer timeout;
       AttachVolume "/dev/xvdb" "i-1" "vol-1" ]).
Proof. reflexivity. Qed.

(* ================================================================= *)
(** ** Format *)

Section FormatFacts.

Variable env : Env.
Variable fuel : nat.
Variable c : Driver.
Variable do : DriverOptions.

(** C10: when every step of [Format] up to the format command succeeds and
    the detach that follows fails, [Format] logs the detach error and
    returns nil. *)
Theorem Format_returns_nil_when_detach_fails
  (w0 w1 w2 w3 w4 w5 w6 : World) (instanceID awsVolume device : string)
  (instance : ec2_Instance) (att : option VolumeAttachment)
  (vol : option ec2_Volume) (detachErr : error) :
  getInstanceID env w0 = (Returned (instanceID, None), w1) ->
  getVolumeWithName env (vol_Name (do_Volume do)) (svc_of do) w1
  = (Returned (awsVolume, None), w2) ->
  getInstanceInfo env instanceID (svc_of do) w2 = (Returned (Some instance, None), w3) ->
  findFreeBlockDevice (BlockDeviceMappings instance) = (device, None) ->
  attachVolumeSynchronously env fuel awsVolume instanceID device (svc_of do)
    (do_Timeout do) w3
  = (Returned (att, None), w4) ->
  mkfsVolume env fuel c (fs_CreateCommand (do_FSOptions do)) device (do_Timeout do) w4
  = (Returned None, w5) ->
  detachVolumeSynchronously env fuel awsVolume instanceID device true (svc_of do)
    (do_Timeout do) w5
  = (Returned (vol, Some detachErr), w6) ->
  Format env fuel c do w0
  = (Returned None, LogError (errDetachAfterMkfs (Some detachErr)) :: w6).
Proof.
  intros HID Hname Hinfo Hdev Hattach Hmkfs Hdetach.
  unfold Format. fold (svc_of do).
  run_step HID. run_step Hname. run_step Hinfo.
  unfold bind at 1. cbn [deref ret]. rewrite Hdev. cbn [is_nil negb].
  run_step Hattach. run_step Hmkfs. run_step Hdetach.
  reflexivity.
Qed.

End FormatFacts.

(** C10 in a world where the format command succeeds and the detach request
    is refused: the volume stays attached and [Format] returns nil. *)
Lemma Format_returns_nil_when_detach_fails_witness :
  detachVolumeSynchronously world_detach_fails 64 "vol-1" "i-1" "/dev/xvdb" true
    (Some "eu-central-1"%string) 10000000000
    [ RunCommand ["/bin/sh"; "-c"; "mkfs.ext4 -m0 /dev/xvdb"]%string 10000000000;
      AttachVolume "/dev/xvdb" "i-1" "vol-1"; DescribeInstances ["i-1"%string];
      DescribeTags (nameQuery "test/pithos"); GetMetadata "instance-id" ]
  = (Returned (None, Some errThrottled),
     [ DetachVolume "vol-1" "/dev/xvdb" true "i-1";
       RunCommand ["/bin/sh"; "-c"; "mkfs.ext4 -m0 /dev/xvdb"]%string 10000000000;
       AttachVolume "/dev/xvdb" "i-1" "vol-1"; DescribeInstances ["i-1"%string];
       DescribeTags (nameQuery "test/pithos"); GetMetadata "instance-id" ])
  /\ Format world_detach_fails 64 {| mountpath := "" |} driverOpts []
     = (Returned None,
        [ LogError (errDetachAfterMkfs (Some errThrottled));
          DetachVolume "vol-1" "/dev/xvdb" true "i-1";
          RunCommand ["/bin/sh"; "-c"; "mkfs.ext4 -m0 /dev/xvdb"]%string 10000000000;
          AttachVolume "/dev/xvdb" "i-1" "vol-1"; DescribeInstances ["i-1"%string];
          DescribeTags (nameQuery "test/pithos"); GetMetadata "instance-id" ]).
Proof.
  split; [reflexivity|].
  eapply (Format_returns_nil_when_detach_fails world_detach_fails 64 {| mountpath := "" |}
            driverOpts []); reflexivity.
Defined.

(* ================================================================= *)
(** ** Unmount *)

Section UnmountFacts.

Local Open Scope string_scope.

Variable env : Env.
Variables volumeDir awsVolume instanceID device : string.
Variable svc : option EC2.
Variable timeout : Z.

Lemma unmount_test (errno : option Z) :
  negb (is_nil errno)
  && negb match errno with Some n => (n =? ENOENT)%Z | None => false end
  && negb match errno with Some n => (n =? EINVAL)%Z | None => false end
  = negb (unmount_tolerated errno).
Proof.
  destruct errno as [n|]; [|reflexivity].
  cbn [is_nil negb andb unmount_tolerated]. now rewrite negb_orb.
Qed.

(** One failed unmount: it is logged, [retries] grows by one, the code
    sleeps 100ms and jumps back to [retry]. *)
Lemma Unmount_retry_failed_unmount (fuel : nat) (retries : Z) (lastErr : option error)
  (w : World) (errno : option Z) :
  (retries < 3)%Z ->
  unix_Unmount env volumeDir 0 (List.length w) = errno ->
  unmount_tolerated errno = false ->
  Unmount_retry env (S fuel) volumeDir awsVolume instanceID device svc timeout
    retries lastErr w
  = Unmount_retry env fuel volumeDir awsVolume instanceID device svc timeout
      (retries + 1) (Some (errUnmountRetry volumeDir errno))
      (Sleep 100 :: LogError (errUnmountRetry volumeDir errno)
       :: UnixUnmount volumeDir 0 :: w).
Proof.
  intros Hretries Hunmount Hhard. cbn [Unmount_retry].
  destruct (Z.ltb_spec retries 3) as [_|Hge]; [|lia].
  rewrite bind_call, Hunmount, unmount_test, Hhard. cbn [negb].
  unfold log_Error, time_Sleep. rewrite !bind_call. reflexivity.
Qed.

(** With three failed unmounts behind it the code gives up: it returns the
    combined error and sends no detach request. *)
Lemma Unmount_retry_gives_up (fuel : nat) (w : World) :
  (forall t, unmount_tolerated (unix_Unmount env volumeDir 0 t) = false) ->
  exists (lastErr : error) (w' : World),
    Unmount_retry env (S (S (S (S fuel)))) volumeDir awsVolume instanceID device svc
      timeout 0 None w
    = (Returned (Some (Combine (Errorf "Failed to umount after 3 retries" []) lastErr)), w')
    /\ unmount_calls w' = 3 + unmount_calls w
    /\ detach_calls w' = detach_calls w.
Proof.
  intros Hhard.
  rewrite (Unmount_retry_failed_unmount _ 0 None w _ ltac:(lia) eq_refl (Hhard _)).
  rewrite (Unmount_retry_failed_unmount _ (0 + 1) _ _ _ ltac:(lia) eq_refl (Hhard _)).
  rewrite (Unmount_retry_failed_unmount _ (0 + 1 + 1) _ _ _ ltac:(lia) eq_refl (Hhard _)).
  cbn [Unmount_retry Z.add Z.ltb Z.compare Pos.add Pos.succ Pos.compare Pos.compare_cont
       deref bind ret].
  eexists. eexists. split; [reflexivity|]. split; reflexivity.
Qed.

(** A failed removal of the directory jumps back to [retry] with the same
    [retries]: while the removal keeps failing the loop goes on, one unmount
    call per round, whatever the fuel. *)
Lemma Unmount_retry_unbounded (e : error) :
  (forall t, unmount_tolerated (unix_Unmount env volumeDir 0 t) = true) ->
  (forall t, os_Remove env volumeDir t = Some e) ->
  os_IsNotExist (Some e) = false ->
  forall (fuel : nat) (retries : Z) (lastErr : option error) (w : World),
    (retries < 3)%Z ->
    exists w',
      Unmount_retry env fuel volumeDir awsVolume instanceID device svc timeout
        retries lastErr w = (OutOfFuel, w')
      /\ unmount_calls w' = fuel + unmount_calls w
      /\ detach_calls w' = detach_calls w.
Proof.
  intros Hunmount Hremove Hexists.
  induction fuel as [|fuel IH]; intros retries lastErr w Hretries.
  - exists w. repeat split.
  - cbn [Unmount_retry].
    destruct (Z.ltb_spec retries 3) as [_|Hge]; [|lia].
    rewrite bind_call, unmount_test, Hunmount. cbn [negb].
    rewrite bind_call, Hremove, Hexists. cbn [is_nil negb andb].
    unfold log_Error. rewrite bind_call.
    destruct (IH retries lastErr
                (LogError (Errorf "error removing %q directory: %v"
                             [ArgS volumeDir; ArgE (Some e)])
                 :: OsRemove volumeDir :: UnixUnmount volumeDir 0 :: w) Hretries)
      as (w' & Hrun & Hcount & Hdetach).
    exists w'. split; [exact Hrun|]. split.
    + rewrite Hcount. unfold unmount_calls. cbn [filter List.length]. lia.
    + rewrite Hdetach. reflexivity.
Qed.

End UnmountFacts.

(** C3 on the code: the unmount succeeds at once and the removal of the
    mount directory fails three times before it succeeds; the unmount call
    is issued four times.  When the removal fails every time, [Unmount] does
    not return: whatever number of rounds the fuel allows, each of them
    issues one more unmount call and none reaches the detach. *)
Theorem Unmount_retries_without_bound :
  (let '(result, trace) :=
     Unmount (world_busy_directory 12) GoUnixPath 64 {| mountpath := myMountpath |}
       driverOpts [] in
   result = Returned None /\ unmount_calls trace = 4)
  /\ (forall fuel : nat,
        exists trace : World,
          Unmount world_directory_stays GoUnixPath fuel {| mountpath := myMountpath |}
            driverOpts [] = (OutOfFuel, trace)
          /\ unmount_calls trace = fuel
          /\ detach_calls trace = 0).
Proof.
  split; [vm_compute; split; reflexivity|].
  intros fuel.
  assert (Hprefix :
    Unmount world_directory_stays GoUnixPath fuel {| mountpath := myMountpath |}
      driverOpts []
    = Unmount_retry world_directory_stays fuel "/mnt/ebs/test.pithos" "vol-1" "i-1"
        "/dev/xvdf" (Some "eu-central-1"%string) (do_Timeout driverOpts) 0 None
        [ DescribeInstances ["i-1"%string]; DescribeTags (nameQuery "test/pithos");
          GetMetadata "instance-id" ]) by reflexivity.
  rewrite Hprefix.
  destruct (Unmount_retry_unbounded world_directory_stays "/mnt/ebs/test.pithos" "vol-1"
              "i-1" "/dev/xvdf" (Some "eu-central-1"%string) (do_Timeout driverOpts)
              (PathError "remove" "/mnt/ebs/test.pithos" ENOTEMPTY)
              ltac:(reflexivity) ltac:(reflexivity) eq_refl fuel 0%Z None
              [ DescribeInstances ["i-1"%string]; DescribeTags (nameQuery "test/pithos");
                GetMetadata "instance-id" ] ltac:(lia))
    as (trace & Hrun & Hcount & Hdetach).
  exists trace. split; [exact Hrun|]. split.
  - rewrite Hcount. cbn. lia.
  - rewrite Hdetach. reflexivity.
Qed.

(* ================================================================= *)
(** * Further properties of the code *)

(* ================================================================= *)
(** ** More on the templater and on names *)

Section MoreNames.

Local Open Scope string_scope.

(** X1: a template without ['%'] is returned as it is, whatever the device
    path, once the loop may run for one more round than the template has
    bytes. *)
Theorem templateFSCmd_plain_template (fscmd devicePath : string) (fuel : nat) :
  no_percent fscmd = true ->
  String.length fscmd < fuel ->
  templateFSCmd fuel fscmd devicePath = Some fscmd.
Proof.
  intros Hplain Hfuel. unfold templateFSCmd.
  replace fuel with (String.length fscmd + S (fuel - S (String.length fscmd))) by lia.
  pose proof (loop_skips_plain devicePath fscmd EmptyString EmptyString (S (fuel - S (String.length fscmd)))
                Hplain) as Hskip.
  rewrite append_nil_r in Hskip. cbn [append String.length Nat.add] in Hskip.
  rewrite Hskip. cbn [templateFSCmd_loop].
  now rewrite Nat.ltb_irrefl.
Qed.

(** X1 on a command that names its device itself, with a device path that
    holds a ['%']. *)
Lemma templateFSCmd_plain_template_witness :
  templateFSCmd 64 "mkfs.xfs -f /dev/xvdz" "/dev/xvd%" = Some "mkfs.xfs -f /dev/xvdz".
Proof.
  exact (templateFSCmd_plain_template "mkfs.xfs -f /dev/xvdz" "/dev/xvd%" 64 eq_refl
           (proj1 (Nat.ltb_lt 21 64) eq_refl)).
Defined.




End MoreNames.

(* ================================================================= *)
(** ** Validation of the options *)

Section ValidateFacts.

Local Open Scope string_scope.

Lemma map_index_missing (m : list (string * string)) (key : string) :
  (forall v, ~ In (key, v) m) -> map_index m key = "".
Proof.
  induction m as [|[k v] m IH]; intros Hmiss; cbn [map_index]; [reflexivity|].
  destruct (String.eqb_spec k key) as [->|_].
  - exfalso. apply (Hmiss v). now left.
  - apply IH. intros v' HIn. apply (Hmiss v'). now right.
Qed.

(** X3: [Validate] accepts the options exactly when the generic validation
    accepts them, the size is a whole number of gigabytes, one at least, and
    the parameters hold a region that is not empty; options without a
    ["region"] parameter are refused, and an error of the generic validation
    is returned as it is. *)
Theorem Validate_accepts_iff (storage_Validate : DriverOptions -> option error)
  (c : Driver) (do : DriverOptions) :
  (Validate storage_Validate c do = None
   <-> storage_Validate do = None
       /\ (gigabyteAsBytes <= vol_Size (do_Volume do))%Z
       /\ (vol_Size (do_Volume do) mod gigabyteAsBytes = 0)%Z
       /\ map_index (vol_Params (do_Volume do)) "region" <> "")
  /\ ((forall v, ~ In ("region", v) (vol_Params (do_Volume do))) ->
      Validate storage_Validate c do <> None)
  /\ (forall e, storage_Validate do = Some e -> Validate storage_Validate c do = Some e).
Proof.
  assert (Hiff : Validate storage_Validate c do = None
   <-> storage_Validate do = None
       /\ (gigabyteAsBytes <= vol_Size (do_Volume do))%Z
       /\ (vol_Size (do_Volume do) mod gigabyteAsBytes = 0)%Z
       /\ map_index (vol_Params (do_Volume do)) "region" <> "").
  { unfold Validate, getVolumeSizeInGB.
    destruct (storage_Validate do) as [e|]; cbn [is_nil negb].
    { split; [discriminate|intros [H _]; discriminate]. }
    destruct (Z.ltb_spec (vol_Size (do_Volume do)) gigabyteAsBytes) as [Hlt|Hge];
      cbn [is_nil negb].
    { split; [discriminate|intros (_ & H & _); lia]. }
    destruct (Z.eqb_spec (vol_Size (do_Volume do) mod gigabyteAsBytes) 0) as [Hmod|Hmod];
      cbn [is_nil negb].
    2:{ split; [discriminate|intros (_ & _ & H & _); contradiction]. }
    destruct (String.eqb_spec (map_index (vol_Params (do_Volume do)) "region") "")
      as [Hreg|Hreg].
    - split; [discriminate|intros (_ & _ & _ & H); contradiction].
    - split; [intros _; repeat split; assumption|reflexivity]. }
  split; [exact Hiff|]. split.
  - intros Hmiss Hok. apply Hiff in Hok as (_ & _ & _ & Hreg).
    apply Hreg. now apply map_index_missing.
  - intros e He. unfold Validate. now rewrite He.
Qed.

End ValidateFacts.

(* ================================================================= *)
(** ** The device of an attached volume *)

Section DeviceLookup.

Lemma findBlockVolumeBlockDevice_missing (mappings : list InstanceBlockDeviceMapping)
  (volume : string) :
  (forall m, In m mappings -> ebs_VolumeId (Ebs m) <> volume) ->
  findBlockVolumeBlockDevice mappings volume = ("", Some errVolumeNotAttached).
Proof.
  induction mappings as [|m ms IH]; intros Hnone; cbn [findBlockVolumeBlockDevice];
    [reflexivity|].
  destruct (String.eqb_spec volume (ebs_VolumeId (Ebs m))) as [E|_].
  - exfalso. apply (Hnone m); [now left|now symmetry].
  - apply IH. intros m' HIn. apply Hnone. now right.
Qed.

Lemma findBlockVolumeBlockDevice_here (pre post : list InstanceBlockDeviceMapping)
  (m : InstanceBlockDeviceMapping) :
  (forall m', In m' pre -> ebs_VolumeId (Ebs m') <> ebs_VolumeId (Ebs m)) ->
  findBlockVolumeBlockDevice (pre ++ m :: post) (ebs_VolumeId (Ebs m))
  = (DeviceName m, None).
Proof.
  induction pre as [|p pre IH]; intros Hpre; cbn [app findBlockVolumeBlockDevice].
  - now rewrite String.eqb_refl.
  - destruct (String.eqb_spec (ebs_VolumeId (Ebs m)) (ebs_VolumeId (Ebs p))) as [E|_].
    + exfalso. apply (Hpre p); [now left|now symmetry].
    + apply IH. intros m' HIn. apply Hpre. now right.
Qed.

Lemma findBlockVolumeBlockDevice_found (mappings : list InstanceBlockDeviceMapping)
  (volume dev : string) (e : option error) :
  findBlockVolumeBlockDevice mappings volume = (dev, e) ->
  (e = None
   /\ exists pre m post,
        mappings = pre ++ m :: post /\ ebs_VolumeId (Ebs m) = volume
        /\ DeviceName m = dev
        /\ forall m', In m' pre -> ebs_VolumeId (Ebs m') <> volume)
  \/ (e = Some errVolumeNotAttached /\ dev = ""
      /\ forall m, In m mappings -> ebs_VolumeId (Ebs m) <> volume).
Proof.
  revert dev e. induction mappings as [|m ms IH]; intros dev e;
    cbn [findBlockVolumeBlockDevice].
  - intros H. injection H as <- <-. right. repeat split. intros m [].
  - destruct (String.eqb_spec volume (ebs_VolumeId (Ebs m))) as [E|N].
    + intros H. injection H as <- <-. left. split; [reflexivity|].
      exists [], m, ms. repeat split; [now symmetry|]. intros m' [].
    + intros H. destruct (IH _ _ H) as [(-> & pre & m0 & post & -> & Hv & Hd & Hpre)
                                       | (-> & -> & Hnone)].
      * left. split; [reflexivity|]. exists (m :: pre), m0, post.
        repeat split; [assumption|assumption|].
        intros m' [<-|HIn]; [congruence|now apply Hpre].
      * right. repeat split. intros m' [<-|HIn]; [congruence|now apply Hnone].
Qed.

(** X4: [findBlockVolumeBlockDevice] returns the device name of the first
    mapping that holds the volume, and it fails, with the error that the
    volume is not attached, exactly when no mapping holds the volume. *)
Theorem findBlockVolumeBlockDevice_first_match
  (mappings : list InstanceBlockDeviceMapping) (volume : string) :
  (forall dev : string,
      findBlockVolumeBlockDevice mappings volume = (dev, None)
      <-> exists pre m post,
            mappings = pre ++ m :: post /\ ebs_VolumeId (Ebs m) = volume
            /\ DeviceName m = dev
            /\ forall m', In m' pre -> ebs_VolumeId (Ebs m') <> volume)
  /\ (findBlockVolumeBlockDevice mappings volume = ("", Some errVolumeNotAttached)
      <-> forall m, In m mappings -> ebs_VolumeId (Ebs m) <> volume)
  /\ (forall dev e, findBlockVolumeBlockDevice mappings volume = (dev, Some e) ->
        dev = "" /\ e = errVolumeNotAttached).
Proof.
  split; [|split].
  - intros dev. split.
    + intros H. apply findBlockVolumeBlockDevice_found in H
        as [(_ & Hex) | (Habs & _)]; [exact Hex|discriminate].
    + intros (pre & m & post & -> & <- & <- & Hpre).
      now apply findBlockVolumeBlockDevice_here.
  - split.
    + intros H. apply findBlockVolumeBlockDevice_found in H
        as [(Habs & _) | (_ & _ & Hnone)]; [discriminate|exact Hnone].
    + apply findBlockVolumeBlockDevice_missing.
  - intros dev e H. apply findBlockVolumeBlockDevice_found in H
      as [(Habs & _) | (He & -> & _)]; [discriminate|].
    injection He as <-. split; reflexivity.
Qed.

Lemma findFreeBlockDevice_not_mapped (mappings : list InstanceBlockDeviceMapping)
  (dev : string) :
  findFreeBlockDevice mappings = (dev, None) -> ~ In dev (map DeviceName mappings).
Proof.
  unfold findFreeBlockDevice. intros H.
  destruct (findFreeBlockDevice_loop_spec mappings 26 (nat_of_ascii "a")
              ltac:(apply Nat.leb_le; reflexivity))
    as [(k & _ & Hu & _ & Hres) | (_ & Hres)]; rewrite Hres in H; [|discriminate].
  injection H as <-. now apply usable_spec.
Qed.

(** X5: the device the allocator returns for an instance is the device of no
    volume attached to it; once a mapping of a new volume to that device is
    added to the instance's mappings, at any place, the lookup of the volume
    returns that very device and the allocator no longer returns it. *)
Theorem free_device_round_trip (pre post : list InstanceBlockDeviceMapping)
  (dev volume : string) :
  findFreeBlockDevice (pre ++ post) = (dev, None) ->
  (forall m, In m (pre ++ post) -> ebs_VolumeId (Ebs m) <> volume) ->
  let attached := {| DeviceName := dev; Ebs := {| ebs_VolumeId := volume |} |} in
  (forall other, findBlockVolumeBlockDevice (pre ++ post) other <> (dev, None))
  /\ findBlockVolumeBlockDevice (pre ++ attached :: post) volume = (dev, None)
  /\ findFreeBlockDevice (pre ++ attached :: post) <> (dev, None).
Proof.
  intros Hfree Hnew attached. split; [|split].
  - intros other H. apply findBlockVolumeBlockDevice_found in H
      as [(_ & p & m & q & E & _ & Hd & _) | (Habs & _)]; [|discriminate].
    apply (findFreeBlockDevice_not_mapped _ _ Hfree).
    rewrite E, map_app. apply in_or_app. right. left. exact Hd.
  - apply (findBlockVolumeBlockDevice_here pre post attached).
    intros m' HIn. apply Hnew. apply in_or_app. now left.
  - intros H. apply findFreeBlockDevice_not_mapped in H. apply H.
    rewrite map_app. apply in_or_app. right. left. reflexivity.
Qed.

(** X5 on the instance of the examples: [/dev/xvdb] is free, and taken once
    [vol-2] is attached to it. *)
Lemma free_device_round_trip_witness :
  (forall other, findBlockVolumeBlockDevice (BlockDeviceMappings theInstance) other
                 <> ("/dev/xvdb", None))
  /\ findBlockVolumeBlockDevice
       (BlockDeviceMappings theInstance
        ++ [ {| DeviceName := "/dev/xvdb"; Ebs := {| ebs_VolumeId := "vol-2" |} |} ])
       "vol-2" = ("/dev/xvdb", None)
  /\ findFreeBlockDevice
       (BlockDeviceMappings theInstance
        ++ [ {| DeviceName := "/dev/xvdb"; Ebs := {| ebs_VolumeId := "vol-2" |} |} ])
     <> ("/dev/xvdb", None).
Proof.
  refine (free_device_round_trip (BlockDeviceMappings theInstance) [] "/dev/xvdb" "vol-2"
            eq_refl _).
  intros m [<-|[<-|[]]]; discriminate.
Defined.

End DeviceLookup.

(** X22: [getInstanceInfo] and [getVolumeInfo] send one query each.  They
    return the instance, or the volume, exactly when the answer comes
    without an error and holds exactly one reservation with exactly one
    instance, or exactly one volume; every other answer gives an error and
    no result, and neither function panics. *)
Theorem describe_helpers_expect_exactly_one (env : Env) (id : string) (region : EC2)
  (w : World) :
  let instances := getInstanceInfo env id (Some region) w in
  let volumes := getVolumeInfo env id (Some region) w in
  (snd instances = DescribeInstances [id] :: w
   /\ (forall i, fst instances = Returned (Some i, None)
                 <-> ec2_DescribeInstances env [id] (List.length w)
                     = ([ {| Instances := [i] |} ], None))
   /\ ((exists i, fst instances = Returned (Some i, None))
       \/ (exists e, fst instances = Returned (None, Some e))))
  /\ (snd volumes = DescribeVolumes [id] :: w
      /\ (forall v, fst volumes = Returned (Some v, None)
                    <-> ec2_DescribeVolumes env [id] (List.length w) = ([v], None))
      /\ ((exists v, fst volumes = Returned (Some v, None))
          \/ (exists e, fst volumes = Returned (None, Some e)))).
Proof.
  cbn zeta. split.
  - unfold getInstanceInfo. cbn [is_nil svc_call]. rewrite bind_call.
    destruct (ec2_DescribeInstances env [id] (List.length w)) as [resp [e|]];
      cbn [is_nil negb].
    { repeat split; try discriminate. right. eexists. reflexivity. }
    destruct resp as [|[instances] [|r' resp]]; cbn [List.length Nat.eqb negb].
    + repeat split; try discriminate. right. eexists. reflexivity.
    + unfold elem_at, bind, deref, ret. cbn [nth_error Instances].
      destruct instances as [|i [|i' instances]]; cbn [List.length Nat.eqb negb nth_error].
      * repeat split; try discriminate. right. eexists. reflexivity.
      * split; [reflexivity|]. split.
        -- intros i0. cbn [fst]. split; intros H; injection H as <-; reflexivity.
        -- left. eexists. reflexivity.
      * repeat split; try discriminate. right. eexists. reflexivity.
    + repeat split; try discriminate. right. eexists. reflexivity.
  - unfold getVolumeInfo. cbn [is_nil svc_call]. rewrite bind_call.
    destruct (ec2_DescribeVolumes env [id] (List.length w)) as [resp [e|]];
      cbn [is_nil negb].
    { repeat split; try discriminate. right. eexists. reflexivity. }
    destruct resp as [|v [|v' resp]]; cbn [List.length Nat.eqb negb].
    + repeat split; try discriminate. right. eexists. reflexivity.
    + unfold elem_at, bind, deref, ret. cbn [nth_error].
      split; [reflexivity|]. split.
      * intros v0. cbn [fst]. split; intros H; injection H as <-; reflexivity.
      * left. eexists. reflexivity.
    + repeat split; try discriminate. right. eexists. reflexivity.
Qed.

(* ================================================================= *)
(** ** The describe helpers and the ends of the poll loops *)

Section Polls.

Variable env : Env.

(** The two ways [getVolumeInfo] ends: with the one volume of the answer, or
    with an error and no volume. *)
Lemma getVolumeInfo_cases (volume : string) (svc : option EC2) (w : World) :
  (exists v, getVolumeInfo env volume svc w
             = (Returned (Some v, None), DescribeVolumes [volume] :: w)
             /\ ec2_DescribeVolumes env [volume] (List.length w) = ([v], None))
  \/ (exists e w', getVolumeInfo env volume svc w = (Returned (None, Some e), w')
                   /\ (w' = w \/ w' = DescribeVolumes [volume] :: w)).
Proof.
  unfold getVolumeInfo. destruct svc as [region|]; cbn [is_nil svc_call].
  2:{ right. exists errNilService, w. split; [reflexivity|now left]. }
  rewrite bind_call.
  destruct (ec2_DescribeVolumes env [volume] (List.length w)) as [resp [e|]];
    cbn [is_nil negb].
  { right. exists e, (DescribeVolumes [volume] :: w). split; [reflexivity|now right]. }
  destruct resp as [|v [|v' resp]]; cbn [List.length Nat.eqb negb].
  - right. eexists. eexists. split; [reflexivity|now right].
  - left. exists v. split; reflexivity.
  - right. eexists. eexists. split; [reflexivity|now right].
Qed.

Lemma getVolumeInfo_grows (volume : string) (svc : option EC2) (w : World) :
  List.length w <= List.length (snd (getVolumeInfo env volume svc w)).
Proof.
  destruct (getVolumeInfo_cases volume svc w) as [(v & -> & _) | (e & w' & -> & [->| ->])];
    cbn [snd List.length]; lia.
Qed.

Lemma createVolume_poll_ends (svc : option EC2) (resp : ec2_Volume) (fuel : nat) :
  forall (exponent : Z) (w : World),
    ends_available (Some resp) (fst (createVolume_poll env fuel resp svc exponent w)).
Proof.
  induction fuel as [|fuel IH]; intros exponent w; cbn [createVolume_poll]; [exact I|].
  unfold select_timeout. rewrite bind_call.
  destruct (timer_fired env (List.length w)); [split; reflexivity|].
  unfold bind at 1.
  destruct (getVolumeInfo_cases (VolumeId resp) svc (Select (500 * exponent) :: w))
    as [(v & -> & _) | (e & w' & -> & _)]; cbn [is_nil deref].
  - rewrite bind_bind, bind_ret, bind_ret.
    destruct (String.eqb_spec (State v) VolumeStateAvailable) as [Hs|_].
    + exists v. split; [reflexivity|exact Hs].
    + apply IH.
  - rewrite bind_ret. apply IH.
Qed.

Lemma detachVolume_poll_ends (svc : option EC2) (resp : VolumeAttachment)
  (device : string) (fuel : nat) :
  forall w : World,
    ends_available None (fst (detachVolume_poll env fuel resp device svc w)).
Proof.
  induction fuel as [|fuel IH]; intros w; cbn [detachVolume_poll]; [exact I|].
  unfold select_timeout. rewrite bind_call.
  destruct (timer_fired env (List.length w)); [split; reflexivity|].
  rewrite bind_call. destruct (os_Stat env device _) as [e|]; cbn [is_nil]; [|apply IH].
  unfold bind at 1.
  destruct (getVolumeInfo_cases (va_VolumeId resp) svc (OsStat device :: Select 100 :: w))
    as [(v & -> & _) | (e' & w' & -> & _)]; cbn [is_nil deref].
  - rewrite bind_bind, bind_ret, bind_ret.
    destruct (String.eqb_spec (State v) VolumeStateAvailable) as [Hs|_].
    + exists v. split; [reflexivity|exact Hs].
    + apply IH.
  - rewrite bind_ret. apply IH.
Qed.

Lemma deleteVolume_poll_ends (svc : option EC2) (volume : string) (fuel : nat) :
  forall w : World,
    match fst (deleteVolume_poll env fuel volume svc w) with
    | Returned (Some e) => e = errTimeout
    | Returned None => True
    | Panicked => False
    | OutOfFuel => True
    end.
Proof.
  induction fuel as [|fuel IH]; intros w; cbn [deleteVolume_poll]; [exact I|].
  unfold select_timeout. rewrite bind_call.
  destruct (timer_fired env (List.length w)); [reflexivity|].
  unfold bind at 1.
  destruct (getVolumeInfo_cases volume svc (Select 500 :: w))
    as [(v & -> & _) | (e & w' & -> & _)]; cbn [is_nil]; [apply IH|].
  destruct (aws_code_is (Some e) "InvalidVolume.NotFound"); [exact I|apply IH].
Qed.

(** X6: [createVolumeSynchronously] never panics, whatever the service
    answers.  When it returns no error, it returns a volume whose state is
    ["available"]; when it returns a volume together with an error, the
    error is the timeout and the volume is the answer to the creation
    request. *)
Theorem createVolumeSynchronously_ends (fuel : nat) (config : option volumeConfig)
  (svc : option EC2) (timeout : Z) (w : World) :
  let run := createVolumeSynchronously env fuel config svc timeout w in
  fst run <> Panicked
  /\ (forall vol w', run = (Returned (vol, None), w') ->
        exists v, vol = Some v /\ State v = VolumeStateAvailable)
  /\ (forall v e w', run = (Returned (Some v, Some e), w') ->
        e = errTimeout
        /\ exists input, ec2_CreateVolume env input (List.length w) = (v, None)).
Proof.
  cbn zeta.
  remember (createVolumeSynchronously env fuel config svc timeout w) as run eqn:Hrun.
  unfold createVolumeSynchronously, createVolume in Hrun.
  destruct svc as [region|]; cbn [is_nil] in Hrun.
  2:{ rewrite bind_ret in Hrun. subst run. repeat split; discriminate. }
  destruct config as [config|].
  2:{ rewrite bind_ret in Hrun. subst run. repeat split; discriminate. }
  cbn [svc_call] in Hrun. rewrite bind_bind, bind_call in Hrun.
  destruct (ec2_CreateVolume env _ (List.length w)) as [resp err] eqn:Hanswer.
  destruct err as [e|]; cbn [is_nil negb] in Hrun; rewrite bind_ret in Hrun;
    cbn [is_nil negb] in Hrun.
  { subst run. repeat split; discriminate. }
  cbn [deref] in Hrun. rewrite bind_ret in Hrun.
  destruct (String.eqb_spec (State resp) VolumeStateAvailable) as [Hs|_].
  { subst run. repeat split; try discriminate.
    intros vol w' H. injection H as <- _. exists resp. split; [reflexivity|exact Hs]. }
  unfold go_timer in Hrun. rewrite bind_call in Hrun.
  match type of Hrun with _ = createVolume_poll env fuel resp ?s ?k ?w0 =>
    pose proof (createVolume_poll_ends s resp fuel k w0) as Hends end.
  rewrite <- Hrun in Hends. clear Hrun. destruct run as [r w1].
  cbn [fst] in *. split; [|split].
  - intros ->. exact Hends.
  - intros vol w' H. injection H as -> _. exact Hends.
  - intros v e w' H. injection H as -> _. destruct Hends as [-> Hv].
    split; [reflexivity|]. injection Hv as <-. eexists. exact Hanswer.
Qed.

(** X7: [detachVolumeSynchronously] never panics, whatever the service
    answers; it returns a volume or an error, never both and never
    neither.  When the answer to the detach request is not yet in the state
    ["detached"], it returns a volume in the state ["available"], or the
    timeout. *)
Theorem detachVolumeSynchronously_ends (fuel : nat) (volume instance device : string)
  (force : bool) (svc : option EC2) (timeout : Z) (w : World) :
  let run := detachVolumeSynchronously env fuel volume instance device force svc timeout w in
  fst run <> Panicked
  /\ (forall vol err w', run = (Returned (vol, err), w') ->
        (exists v, vol = Some v /\ err = None) \/ (exists e, vol = None /\ err = Some e))
  /\ (forall vol err w' att,
        svc <> None ->
        ec2_DetachVolume env volume device force instance (List.length w) = (att, None) ->
        va_State att <> VolumeAttachmentStateDetached ->
        run = (Returned (vol, err), w') ->
        (exists v, vol = Some v /\ err = None /\ State v = VolumeStateAvailable)
        \/ (vol = None /\ err = Some errTimeout)).
Proof.
  cbn zeta.
  remember (detachVolumeSynchronously env fuel volume instance device force svc timeout w)
    as run eqn:Hrun.
  unfold detachVolumeSynchronously, detachVolume in Hrun.
  destruct svc as [region|]; cbn [is_nil] in Hrun.
  2:{ rewrite bind_ret in Hrun. subst run. split; [discriminate|]. split.
      - intros vol err w' H. injection H as <- <- _. right. eauto.
      - intros vol err w' att Hsvc. now contradiction Hsvc. }
  cbn [svc_call] in Hrun. rewrite bind_bind, bind_call in Hrun.
  destruct (ec2_DetachVolume env volume device force instance (List.length w))
    as [resp [e|]]; cbn [is_nil negb] in Hrun; rewrite bind_ret in Hrun;
    cbn [is_nil negb] in Hrun.
  { subst run. split; [discriminate|]. split.
    - intros vol err w' H. injection H as <- <- _. right. eauto.
    - intros vol err w' att _ Hatt. discriminate. }
  cbn [deref] in Hrun. rewrite bind_ret in Hrun.
  destruct (String.eqb_spec (va_State resp) VolumeAttachmentStateDetached) as [Hs|Hs].
  { unfold bind at 1 in Hrun.
    destruct (getVolumeInfo_cases (va_VolumeId resp) (Some region)
                (DetachVolume volume device force instance :: w))
      as [(v & Hq & _) | (e & w1 & Hq & _)]; rewrite Hq in Hrun;
      cbn [is_nil negb ret] in Hrun; subst run.
    - split; [discriminate|]. split.
      + intros vol err w' H. injection H as <- <- _. left. eauto.
      + intros vol err w' att _ Hatt Hstate. injection Hatt as <-. contradiction.
    - split; [discriminate|]. split.
      + intros vol err w' H. injection H as <- <- _. right. eauto.
      + intros vol err w' att _ Hatt Hstate. injection Hatt as <-. contradiction. }
  unfold go_timer in Hrun. rewrite bind_call in Hrun.
  match type of Hrun with _ = detachVolume_poll env fuel resp device ?s ?w0 =>
    pose proof (detachVolume_poll_ends s resp device fuel w0) as Hends end.
  rewrite <- Hrun in Hends. clear Hrun. destruct run as [r w1].
  cbn [fst] in *. split; [|split].
  - intros ->. exact Hends.
  - intros vol err w' H. injection H as -> _. destruct err as [e|]; cbn in Hends.
    + destruct Hends as [-> ->]. right. eauto.
    + destruct Hends as (v & -> & _). left. eauto.
  - intros vol err w' att _ _ _ H. injection H as -> _. destruct err as [e|]; cbn in Hends.
    + destruct Hends as [-> ->]. now right.
    + destruct Hends as (v & -> & Hv). left. eauto.
Qed.

(** X8: [deleteVolumeSynchronously] never panics, whatever the service
    answers, and it returns nil only if the deletion request was accepted:
    when the request is refused, its error is returned and the status of
    the volume is not queried. *)
Theorem deleteVolumeSynchronously_ends (fuel : nat) (volume : string)
  (region : EC2) (timeout : Z) (w : World) :
  let run := deleteVolumeSynchronously env fuel volume (Some region) timeout w in
  fst run <> Panicked
  /\ (forall w', run = (Returned None, w') ->
        ec2_DeleteVolume env volume (List.length w) = None)
  /\ (forall e, ec2_DeleteVolume env volume (List.length w) = Some e ->
        run = (Returned (Some e), DeleteVolume volume :: w)).
Proof.
  cbn zeta.
  remember (deleteVolumeSynchronously env fuel volume (Some region) timeout w)
    as run eqn:Hrun.
  unfold deleteVolumeSynchronously, deleteVolume in Hrun. cbn [is_nil svc_call] in Hrun.
  rewrite bind_call in Hrun.
  destruct (ec2_DeleteVolume env volume (List.length w)) as [e|];
    cbn [is_nil negb] in Hrun.
  { subst run. split; [discriminate|]. split; [discriminate|].
    intros e' H. injection H as <-. reflexivity. }
  unfold bind at 1 in Hrun.
  destruct (getVolumeInfo_cases volume (Some region) (DeleteVolume volume :: w))
    as [(v & Hq & _) | (e & w1 & Hq & _)]; rewrite Hq in Hrun;
    cbn [is_nil negb deref] in Hrun.
  2:{ subst run. split; [discriminate|]. split; [reflexivity|discriminate]. }
  rewrite bind_ret in Hrun. destruct (String.eqb (State v) VolumeStateDeleted).
  { subst run. split; [discriminate|]. split; [reflexivity|discriminate]. }
  unfold go_timer in Hrun. rewrite bind_call in Hrun.
  match type of Hrun with _ = deleteVolume_poll env fuel volume ?s ?w0 =>
    pose proof (deleteVolume_poll_ends s volume fuel w0) as Hends end.
  rewrite <- Hrun in Hends. clear Hrun. destruct run as [r w1].
  cbn [fst] in *. split; [|split].
  - intros ->. exact Hends.
  - reflexivity.
  - discriminate.
Qed.

Lemma attachVolume_poll_ends (svc : option EC2) (resp : VolumeAttachment)
  (device : string) (fuel : nat) :
  forall (attachmentState : string) (w : World),
    attachmentState <> VolumeAttachmentStateAttached ->
    match fst (attachVolume_poll env fuel resp device svc attachmentState w) with
    | Returned (Some a, None) => va_State a = VolumeAttachmentStateAttached
    | Returned (None, None) => False
    | Returned (att, Some e) => att = None /\ e = errTimeout
    | Panicked => True
    | OutOfFuel => True
    end.
Proof.
  induction fuel as [|fuel IH]; intros st w Hst; cbn [attachVolume_poll]; [exact I|].
  unfold select_timeout. rewrite bind_call.
  destruct (timer_fired env (List.length w)); [split; reflexivity|].
  rewrite bind_call.
  destruct (negb (is_nil (os_Stat env device (List.length (Select 100 :: w))))
            && os_IsNotExist (os_Stat env device (List.length (Select 100 :: w))));
    [now apply IH|].
  unfold bind at 1.
  destruct (getVolumeInfo_cases (va_VolumeId resp) svc (OsStat device :: Select 100 :: w))
    as [(v & -> & _) | (e' & w' & -> & _)]; cbn [is_nil deref]; [|exact I].
  rewrite bind_ret.
  destruct (Attachments v) as [|a [|a' rest]]; cbn [List.length Nat.eqb].
  - rewrite bind_ret. cbn [andb].
    destruct (String.eqb_spec st VolumeAttachmentStateAttached) as [E|_];
      [contradiction|now apply IH].
  - unfold elem_at. cbn [nth_error deref]. rewrite bind_bind, !bind_ret. cbn [andb].
    destruct (String.eqb_spec (va_State a) VolumeAttachmentStateAttached) as [E|N].
    + rewrite bind_ret. exact E.
    + now apply IH.
  - rewrite bind_ret. cbn [andb].
    destruct (String.eqb_spec st VolumeAttachmentStateAttached) as [E|_];
      [contradiction|now apply IH].
Qed.

(** X9: when [attachVolumeSynchronously] returns no error, it returns an
    attachment whose state is ["attached"]; when it returns an error, it
    returns no attachment. *)
Theorem attachVolumeSynchronously_returns_attached (fuel : nat)
  (volume instance device : string) (svc : option EC2) (timeout : Z) (w : World) :
  let run := attachVolumeSynchronously env fuel volume instance device svc timeout w in
  (forall att w', run = (Returned (att, None), w') ->
     exists a, att = Some a /\ va_State a = VolumeAttachmentStateAttached)
  /\ (forall att e w', run = (Returned (att, Some e), w') -> att = None).
Proof.
  cbn zeta.
  remember (attachVolumeSynchronously env fuel volume instance device svc timeout w)
    as run eqn:Hrun.
  unfold attachVolumeSynchronously, attachVolume in Hrun.
  destruct svc as [region|]; cbn [is_nil] in Hrun.
  2:{ rewrite bind_ret in Hrun. subst run. split; [discriminate|].
      intros att e w' H. now injection H as <- _ _. }
  cbn [svc_call] in Hrun. rewrite bind_bind, bind_call in Hrun.
  destruct (ec2_AttachVolume env device instance volume (List.length w))
    as [resp [e|]]; cbn [is_nil negb] in Hrun; rewrite bind_ret in Hrun;
    cbn [is_nil negb] in Hrun.
  { subst run. split; [discriminate|]. intros att e' w' H. now injection H as <- _ _. }
  cbn [deref] in Hrun. rewrite bind_ret in Hrun.
  destruct (String.eqb_spec (va_State resp) VolumeAttachmentStateAttached) as [Hs|Hs].
  { subst run. split; [|discriminate].
    intros att w' H. injection H as <- _. exists resp. split; [reflexivity|exact Hs]. }
  unfold go_timer in Hrun. rewrite bind_call in Hrun.
  match type of Hrun with _ = attachVolume_poll env fuel resp device ?s ?st ?w0 =>
    pose proof (attachVolume_poll_ends s resp device fuel st w0
                  ltac:(discriminate)) as Hends end.
  rewrite <- Hrun in Hends. clear Hrun. destruct run as [r w1].
  cbn [fst] in *. split.
  - intros att w' H. injection H as -> _. destruct att as [a|]; [|contradiction].
    exists a. split; [reflexivity|exact Hends].
  - intros att e w' H. injection H as -> _. destruct att as [a|]; [|reflexivity].
    now destruct Hends.
Qed.

(* ----------------------------------------------------------------- *)
(** *** The loops end once the timer has fired *)

Section TimerFires.

Variable T : nat.
Hypothesis fires : forall t, T <= t -> timer_fired env t = true.

Lemma not_fired_yet (w : World) :
  timer_fired env (List.length w) = false -> List.length w < T.
Proof.
  intros Hf. destruct (Nat.lt_ge_cases (List.length w) T) as [H|H]; [exact H|].
  rewrite (fires _ H) in Hf. discriminate.
Qed.

Lemma createVolume_poll_returns (svc : option EC2) (resp : ec2_Volume) (fuel : nat) :
  forall (exponent : Z) (w : World),
    T - List.length w < fuel ->
    exists r w', createVolume_poll env fuel resp svc exponent w = (Returned r, w').
Proof.
  induction fuel as [|fuel IH]; intros exponent w Hfuel; [lia|].
  cbn [createVolume_poll]. unfold select_timeout. rewrite bind_call.
  destruct (timer_fired env (List.length w)) eqn:Hf; [eexists; eexists; reflexivity|].
  apply not_fired_yet in Hf. unfold bind at 1.
  destruct (getVolumeInfo_cases (VolumeId resp) svc (Select (500 * exponent) :: w))
    as [(v & -> & _) | (e & w' & -> & [->| ->])]; cbn [is_nil deref].
  - rewrite bind_bind, bind_ret, bind_ret.
    destruct (String.eqb (State v) VolumeStateAvailable);
      [eexists; eexists; reflexivity|].
    apply IH. cbn [List.length]. lia.
  - rewrite bind_ret. apply IH. cbn [List.length]. lia.
  - rewrite bind_ret. apply IH. cbn [List.length]. lia.
Qed.

Lemma detachVolume_poll_returns (svc : option EC2) (resp : VolumeAttachment)
  (device : string) (fuel : nat) :
  forall w : World,
    T - List.length w < fuel ->
    exists r w', detachVolume_poll env fuel resp device svc w = (Returned r, w').
Proof.
  induction fuel as [|fuel IH]; intros w Hfuel; [lia|].
  cbn [detachVolume_poll]. unfold select_timeout. rewrite bind_call.
  destruct (timer_fired env (List.length w)) eqn:Hf; [eexists; eexists; reflexivity|].
  apply not_fired_yet in Hf. rewrite bind_call.
  destruct (os_Stat env device _) as [e|]; cbn [is_nil].
  2:{ apply IH. cbn [List.length]. lia. }
  unfold bind at 1.
  destruct (getVolumeInfo_cases (va_VolumeId resp) svc (OsStat device :: Select 100 :: w))
    as [(v & -> & _) | (e' & w' & -> & [->| ->])]; cbn [is_nil deref].
  - rewrite bind_bind, bind_ret, bind_ret.
    destruct (String.eqb (State v) VolumeStateAvailable);
      [eexists; eexists; reflexivity|].
    apply IH. cbn [List.length]. lia.
  - rewrite bind_ret. apply IH. cbn [List.length]. lia.
  - rewrite bind_ret. apply IH. cbn [List.length]. lia.
Qed.

Lemma deleteVolume_poll_returns (svc : option EC2) (volume : string) (fuel : nat) :
  forall w : World,
    T - List.length w < fuel ->
    exists r w', deleteVolume_poll env fuel volume svc w = (Returned r, w').
Proof.
  induction fuel as [|fuel IH]; intros w Hfuel; [lia|].
  cbn [deleteVolume_poll]. unfold select_timeout. rewrite bind_call.
  destruct (timer_fired env (List.length w)) eqn:Hf; [eexists; eexists; reflexivity|].
  apply not_fired_yet in Hf. unfold bind at 1.
  destruct (getVolumeInfo_cases volume svc (Select 500 :: w))
    as [(v & -> & _) | (e & w' & -> & [->| ->])]; cbn [is_nil].
  - apply IH. cbn [List.length]. lia.
  - destruct (aws_code_is (Some e) "InvalidVolume.NotFound");
      [eexists; eexists; reflexivity|].
    apply IH. cbn [List.length]. lia.
  - destruct (aws_code_is (Some e) "InvalidVolume.NotFound");
      [eexists; eexists; reflexivity|].
    apply IH. cbn [List.length]. lia.
Qed.

Lemma attachVolume_poll_stops (svc : option EC2) (resp : VolumeAttachment)
  (device : string) (fuel : nat) :
  forall (attachmentState : string) (w : World),
    T - List.length w < fuel ->
    fst (attachVolume_poll env fuel resp device svc attachmentState w) <> OutOfFuel.
Proof.
  induction fuel as [|fuel IH]; intros st w Hfuel; [lia|].
  cbn [attachVolume_poll]. unfold select_timeout. rewrite bind_call.
  destruct (timer_fired env (List.length w)) eqn:Hf; [discriminate|].
  apply not_fired_yet in Hf. rewrite bind_call.
  destruct (negb (is_nil (os_Stat env device (List.length (Select 100 :: w))))
            && os_IsNotExist (os_Stat env device (List.length (Select 100 :: w)))).
  { apply IH. cbn [List.length]. lia. }
  unfold bind at 1.
  destruct (getVolumeInfo_cases (va_VolumeId resp) svc (OsStat device :: Select 100 :: w))
    as [(v & -> & _) | (e' & w' & -> & _)]; cbn [is_nil deref]; [|discriminate].
  rewrite bind_ret.
  destruct (Attachments v) as [|a [|a' rest]]; cbn [List.length Nat.eqb].
  - rewrite bind_ret. cbn [andb]. unfold elem_at. cbn [nth_error deref].
    destruct (String.eqb st VolumeAttachmentStateAttached); [discriminate|].
    apply IH. cbn [List.length]. lia.
  - unfold elem_at. cbn [nth_error deref]. rewrite bind_bind, !bind_ret. cbn [andb].
    destruct (String.eqb (va_State a) VolumeAttachmentStateAttached).
    + rewrite bind_ret. discriminate.
    + apply IH. cbn [List.length]. lia.
  - rewrite bind_ret. cbn [andb]. unfold elem_at. cbn [nth_error deref].
    destruct (String.eqb st VolumeAttachmentStateAttached);
      [rewrite bind_ret; discriminate|].
    apply IH. cbn [List.length]. lia.
Qed.

End TimerFires.

(** X10: if the timer of a synchronizer has fired from some moment [T] on,
    then with more fuel than [T] the poll loops end: the create, detach and
    delete synchronizers return, and the attach synchronizer returns or
    panics. *)
Theorem synchronizers_end_once_the_timer_fires (T fuel : nat) (w : World) :
  (forall t, T <= t -> timer_fired env t = true) ->
  T - List.length w < fuel ->
  (forall config svc timeout,
      exists r w', createVolumeSynchronously env fuel config svc timeout w
                   = (Returned r, w'))
  /\ (forall volume instance device force svc timeout,
        exists r w', detachVolumeSynchronously env fuel volume instance device force svc
                       timeout w = (Returned r, w'))
  /\ (forall volume svc timeout,
        exists r w', deleteVolumeSynchronously env fuel volume svc timeout w
                     = (Returned r, w'))
  /\ (forall volume instance device svc timeout,
        fst (attachVolumeSynchronously env fuel volume instance device svc timeout w)
        <> OutOfFuel).
Proof.
  intros fires Hfuel. split; [|split; [|split]].
  - intros config svc timeout. unfold createVolumeSynchronously, createVolume.
    destruct svc as [region|]; cbn [is_nil].
    2:{ rewrite bind_ret. eexists; eexists; reflexivity. }
    destruct config as [config|].
    2:{ rewrite bind_ret. eexists; eexists; reflexivity. }
    cbn [svc_call]. rewrite bind_bind, bind_call.
    destruct (ec2_CreateVolume env _ (List.length w)) as [resp [e|]];
      cbn [is_nil negb]; rewrite bind_ret; cbn [is_nil negb];
      [eexists; eexists; reflexivity|].
    cbn [deref]. rewrite bind_ret.
    destruct (String.eqb (State resp) VolumeStateAvailable);
      [eexists; eexists; reflexivity|].
    unfold go_timer. rewrite bind_call.
    apply (createVolume_poll_returns T fires). cbn [List.length]. lia.
  - intros volume instance device force svc timeout.
    unfold detachVolumeSynchronously, detachVolume.
    destruct svc as [region|]; cbn [is_nil].
    2:{ rewrite bind_ret. eexists; eexists; reflexivity. }
    cbn [svc_call]. rewrite bind_bind, bind_call.
    destruct (ec2_DetachVolume env volume device force instance (List.length w))
      as [resp [e|]]; cbn [is_nil negb]; rewrite bind_ret; cbn [is_nil negb];
      [eexists; eexists; reflexivity|].
    cbn [deref]. rewrite bind_ret.
    destruct (String.eqb (va_State resp) VolumeAttachmentStateDetached).
    { unfold bind at 1.
      destruct (getVolumeInfo_cases (va_VolumeId resp) (Some region)
                  (DetachVolume volume device force instance :: w))
        as [(v & -> & _) | (e & w1 & -> & _)]; eexists; eexists; reflexivity. }
    unfold go_timer. rewrite bind_call.
    apply (detachVolume_poll_returns T fires). cbn [List.length]. lia.
  - intros volume svc timeout. unfold deleteVolumeSynchronously, deleteVolume.
    destruct svc as [region|]; cbn [is_nil].
    2:{ rewrite bind_ret. eexists; eexists; reflexivity. }
    cbn [svc_call]. rewrite bind_call.
    destruct (ec2_DeleteVolume env volume (List.length w)) as [e|];
      cbn [is_nil negb]; [eexists; eexists; reflexivity|].
    unfold bind at 1.
    destruct (getVolumeInfo_cases volume (Some region) (DeleteVolume volume :: w))
      as [(v & -> & _) | (e & w1 & -> & _)]; cbn [is_nil negb deref];
      [|eexists; eexists; reflexivity].
    rewrite bind_ret. destruct (String.eqb (State v) VolumeStateDeleted);
      [eexists; eexists; reflexivity|].
    unfold go_timer. rewrite bind_call.
    apply (deleteVolume_poll_returns T fires). cbn [List.length]. lia.
  - intros volume instance device svc timeout.
    unfold attachVolumeSynchronously, attachVolume.
    destruct svc as [region|]; cbn [is_nil].
    2:{ rewrite bind_ret. discriminate. }
    cbn [svc_call]. rewrite bind_bind, bind_call.
    destruct (ec2_AttachVolume env device instance volume (List.length w))
      as [resp [e|]]; cbn [is_nil negb]; rewrite bind_ret; cbn [is_nil negb];
      [discriminate|].
    cbn [deref]. rewrite bind_ret.
    destruct (String.eqb (va_State resp) VolumeAttachmentStateAttached); [discriminate|].
    unfold go_timer. rewrite bind_call.
    apply (attachVolume_poll_stops T fires). cbn [List.length]. lia.
Qed.

Lemma deleteVolume_poll_times_out (T : nat) (volume : string) (region : EC2) (fuel : nat) :
  (forall t, T <= t -> timer_fired env t = true) ->
  (forall t, exists v, ec2_DescribeVolumes env [volume] t = ([v], None)) ->
  forall w : World,
    T - List.length w < fuel ->
    exists w', deleteVolume_poll env fuel volume (Some region) w
               = (Returned (Some errTimeout), w').
Proof.
  intros fires Hdescribed.
  induction fuel as [|fuel IH]; intros w Hfuel; [lia|].
  cbn [deleteVolume_poll]. unfold select_timeout. rewrite bind_call.
  destruct (timer_fired env (List.length w)) eqn:Hf; [eexists; reflexivity|].
  apply (not_fired_yet T fires) in Hf.
  unfold getVolumeInfo. cbn [is_nil svc_call]. rewrite bind_bind, bind_call.
  destruct (Hdescribed (List.length (Select 500 :: w))) as [v ->].
  cbn [is_nil negb List.length Nat.eqb elem_at nth_error deref].
  rewrite bind_bind, !bind_ret. cbn [is_nil].
  apply IH. cbn [List.length]. lia.
Qed.

(** X11: inside its poll loop [deleteVolumeSynchronously] does not read the
    state of the volume.  If the deletion request is accepted, the first
    status query shows the volume in a state other than ["deleted"], and the
    service goes on describing the volume, in whatever state, then the run
    ends with the timeout. *)
Theorem deleteVolumeSynchronously_waits_for_NotFound (T fuel : nat) (volume : string)
  (region : EC2) (timeout : Z) (w : World) (v0 : ec2_Volume) :
  (forall t, T <= t -> timer_fired env t = true) ->
  T - List.length w < fuel ->
  ec2_DeleteVolume env volume (List.length w) = None ->
  ec2_DescribeVolumes env [volume] (S (List.length w)) = ([v0], None) ->
  State v0 <> VolumeStateDeleted ->
  (forall t, exists v, ec2_DescribeVolumes env [volume] t = ([v], None)) ->
  exists w', deleteVolumeSynchronously env fuel volume (Some region) timeout w
             = (Returned (Some errTimeout), w').
Proof.
  intros fires Hfuel Hdelete Hfirst Hstate Hdescribed.
  unfold deleteVolumeSynchronously, deleteVolume. cbn [is_nil svc_call].
  rewrite bind_call, Hdelete. cbn [is_nil negb].
  unfold getVolumeInfo at 1. cbn [is_nil svc_call]. rewrite bind_bind, bind_call.
  cbn [List.length]. rewrite Hfirst.
  cbn [is_nil negb List.length Nat.eqb elem_at nth_error deref].
  rewrite bind_bind, !bind_ret. cbn [is_nil negb deref]. rewrite bind_ret.
  destruct (String.eqb_spec (State v0) VolumeStateDeleted) as [E|_]; [contradiction|].
  unfold go_timer. rewrite bind_call.
  apply (deleteVolume_poll_times_out T volume region fuel fires Hdescribed).
  cbn [List.length]. lia.
Qed.

End Polls.

(* ================================================================= *)
(** ** The calls a run adds to the trace *)

(** A computation built from [ret], [call] and [bind] only adds calls to the
    trace; the lemmas below bound the calls it adds, function by function. *)

Section Footprints.

Context {A : Type} (allowed : Call -> Prop).

Lemma issues_ret (a : A) : issues_only allowed (ret a).
Proof. intros w. exists []. split; [reflexivity|constructor]. Qed.

Lemma issues_panic : issues_only allowed (@panic A).
Proof. intros w. exists []. split; [reflexivity|constructor]. Qed.

Lemma issues_out_of_fuel : issues_only allowed (@out_of_fuel A).
Proof. intros w. exists []. split; [reflexivity|constructor]. Qed.

Lemma issues_call (c : Call) (answer : nat -> A) :
  allowed c -> issues_only allowed (call c answer).
Proof.
  intros Hc w. exists [c]. split; [reflexivity|]. constructor; [exact Hc|constructor].
Qed.

Lemma issues_svc_call (svc : option EC2) (c : Call) (answer : nat -> A) :
  allowed c -> issues_only allowed (svc_call svc c answer).
Proof.
  intros Hc. destruct svc; [apply issues_call; exact Hc|apply issues_panic].
Qed.

Lemma issues_deref (p : option A) : issues_only allowed (deref p).
Proof. destruct p; [apply issues_ret|apply issues_panic]. Qed.

Lemma issues_elem_at (l : list A) (i : nat) : issues_only allowed (elem_at l i).
Proof. apply issues_deref. Qed.

Lemma issues_bind {B : Type} (m : M B) (k : B -> M A) :
  issues_only allowed m -> (forall b, issues_only allowed (k b)) ->
  issues_only allowed (bind m k).
Proof.
  intros Hm Hk w. unfold bind. destruct (Hm w) as (t1 & E1 & F1).
  destruct (m w) as [[b| |] w1]; cbn [snd] in *.
  - destruct (Hk b w1) as (t2 & E2 & F2). exists (t2 ++ t1). split.
    + rewrite E2, E1. apply app_assoc.
    + apply Forall_app. split; assumption.
  - exists t1. split; assumption.
  - exists t1. split; assumption.
Qed.

End Footprints.

Lemma issues_weaken {A : Type} (P Q : Call -> Prop) (m : M A) :
  (forall c, P c -> Q c) -> issues_only P m -> issues_only Q m.
Proof.
  intros HPQ Hm w. destruct (Hm w) as (t & E & F). exists t. split; [exact E|].
  eapply Forall_impl; [exact HPQ|exact F].
Qed.

(** Bounds the calls of a computation by following its structure. *)
Ltac footprint :=
  repeat
    match goal with
    | |- issues_only _ (ret _) => apply issues_ret
    | |- issues_only _ panic => apply issues_panic
    | |- issues_only _ out_of_fuel => apply issues_out_of_fuel
    | |- issues_only _ (call _ _) => apply issues_call; cbn; auto
    | |- issues_only _ (svc_call _ _ _) => apply issues_svc_call; cbn; auto
    | |- issues_only _ (deref _) => apply issues_deref
    | |- issues_only _ (elem_at _ _) => apply issues_elem_at
    | |- issues_only _ (bind _ _) => apply issues_bind; [|intros]
    | |- issues_only _ (match ?x with _ => _ end) => destruct x
    end.

Section FunctionFootprints.

Variable env : Env.
Variable allowed : Call -> Prop.

Lemma getInstanceID_footprint :
  (forall p, allowed (GetMetadata p)) -> issues_only allowed (getInstanceID env).
Proof. intros H. unfold getInstanceID. footprint. Qed.

Lemma getVolumeWithName_footprint (name : string) (svc : option EC2) :
  (forall q, allowed (DescribeTags q)) ->
  issues_only allowed (getVolumeWithName env name svc).
Proof.
  intros H. unfold getVolumeWithName, getVolumeWithTag, getVolumesWithFilters. footprint.
Qed.

Lemma getInstanceInfo_footprint (instance : string) (svc : option EC2) :
  (forall ids, allowed (DescribeInstances ids)) ->
  issues_only allowed (getInstanceInfo env instance svc).
Proof. intros H. unfold getInstanceInfo. footprint. Qed.

Lemma getVolumeInfo_footprint (volume : string) (svc : option EC2) :
  (forall ids, allowed (DescribeVolumes ids)) ->
  issues_only allowed (getVolumeInfo env volume svc).
Proof. intros H. unfold getVolumeInfo. footprint. Qed.

Hypothesis allowed_Select : forall d, allowed (Select d).
Hypothesis allowed_GoTimer : forall d, allowed (GoTimer d).
Hypothesis allowed_DescribeVolumes : forall ids, allowed (DescribeVolumes ids).

Lemma createVolume_poll_footprint (svc : option EC2) (resp : ec2_Volume) (fuel : nat) :
  forall exponent : Z, issues_only allowed (createVolume_poll env fuel resp svc exponent).
Proof.
  induction fuel as [|fuel IH]; intros exponent; cbn [createVolume_poll];
    unfold select_timeout; footprint.
  - apply getVolumeInfo_footprint. exact allowed_DescribeVolumes.
  - apply IH.
Qed.

Lemma deleteVolume_poll_footprint (svc : option EC2) (volume : string) (fuel : nat) :
  issues_only allowed (deleteVolume_poll env fuel volume svc).
Proof.
  induction fuel as [|fuel IH]; cbn [deleteVolume_poll]; unfold select_timeout; footprint;
    try exact IH.
  apply getVolumeInfo_footprint. exact allowed_DescribeVolumes.
Qed.

Hypothesis allowed_OsStat : forall name, allowed (OsStat name).

Lemma attachVolume_poll_footprint (svc : option EC2) (resp : VolumeAttachment)
  (device : string) (fuel : nat) :
  forall attachmentState : string,
    issues_only allowed (attachVolume_poll env fuel resp device svc attachmentState).
Proof.
  induction fuel as [|fuel IH]; intros st; cbn [attachVolume_poll];
    unfold select_timeout; footprint; try apply IH.
  apply getVolumeInfo_footprint. exact allowed_DescribeVolumes.
Qed.

Lemma detachVolume_poll_footprint (svc : option EC2) (resp : VolumeAttachment)
  (device : string) (fuel : nat) :
  issues_only allowed (detachVolume_poll env fuel resp device svc).
Proof.
  induction fuel as [|fuel IH]; cbn [detachVolume_poll]; unfold select_timeout; footprint;
    try exact IH.
  apply getVolumeInfo_footprint. exact allowed_DescribeVolumes.
Qed.

End FunctionFootprints.

Lemma issues_after_call {A B : Type} (allowed : Call -> Prop) (c : Call)
  (answer : nat -> A) (k : A -> M B) (w : World) :
  (forall a, issues_only allowed (k a)) ->
  exists tail, snd (bind (call c answer) k w) = tail ++ c :: w /\ Forall allowed tail.
Proof. intros Hk. rewrite bind_call. apply Hk. Qed.

Section SynchronizerFootprints.

Variable env : Env.
Variable allowed : Call -> Prop.
Hypothesis allowed_Select : forall d, allowed (Select d).
Hypothesis allowed_GoTimer : forall d, allowed (GoTimer d).
Hypothesis allowed_DescribeVolumes : forall ids, allowed (DescribeVolumes ids).

Lemma createVolumeSynchronously_footprint (fuel : nat) (config : option volumeConfig)
  (svc : option EC2) (timeout : Z) :
  (forall input, allowed (CreateVolume input)) ->
  issues_only allowed (createVolumeSynchronously env fuel config svc timeout).
Proof.
  intros H. unfold createVolumeSynchronously, createVolume, go_timer. footprint.
  now apply createVolume_poll_footprint.
Qed.

Lemma deleteVolumeSynchronously_footprint (fuel : nat) (volume : string)
  (svc : option EC2) (timeout : Z) :
  allowed (DeleteVolume volume) ->
  issues_only allowed (deleteVolumeSynchronously env fuel volume svc timeout).
Proof.
  intros H. unfold deleteVolumeSynchronously, deleteVolume, go_timer. footprint.
  - now apply getVolumeInfo_footprint.
  - now apply deleteVolume_poll_footprint.
Qed.

Hypothesis allowed_OsStat : forall name, allowed (OsStat name).

Lemma attachVolumeSynchronously_footprint (fuel : nat) (volume instance device : string)
  (svc : option EC2) (timeout : Z) :
  allowed (AttachVolume device instance volume) ->
  issues_only allowed
    (attachVolumeSynchronously env fuel volume instance device svc timeout).
Proof.
  intros H. unfold attachVolumeSynchronously, attachVolume, go_timer. footprint.
  now apply attachVolume_poll_footprint.
Qed.

Lemma detachVolumeSynchronously_footprint (fuel : nat) (volume instance device : string)
  (force : bool) (svc : option EC2) (timeout : Z) :
  allowed (DetachVolume volume device force instance) ->
  issues_only allowed
    (detachVolumeSynchronously env fuel volume instance device force svc timeout).
Proof.
  intros H. unfold detachVolumeSynchronously, detachVolume, go_timer. footprint.
  - now apply getVolumeInfo_footprint.
  - now apply detachVolume_poll_footprint.
Qed.

End SynchronizerFootprints.

(* ================================================================= *)
(** ** Create and Destroy *)

Section CreateDestroy.

Variable env : Env.
Variable fuel : nat.
Variable c : Driver.
Variable do : DriverOptions.
Variable w : World.

(** X12: for a size that [getVolumeSizeInGB] accepts, the first call of
    [Create] is one creation request: for the size in gigabytes, of type
    ["gp2"], in the availability zone of the parameters and without IOPS.
    Whatever follows is the timer, status queries and the request that tags
    the volume with its name: no second creation request and no deletion,
    also when the tagging fails. *)
Theorem Create_sends_one_request :
  (gigabyteAsBytes <= vol_Size (do_Volume do) <= uint64_max)%Z ->
  (vol_Size (do_Volume do) mod gigabyteAsBytes = 0)%Z ->
  exists tail : list Call,
    snd (Create env fuel c do w) = tail ++ CreateVolume (Create_request do) :: w
    /\ Forall (Create_follow_up do) tail.
Proof.
  intros Hsize Hmod. unfold Create.
  rewrite (getVolumeSizeInGB_accepts (vol_Size (do_Volume do))
             ltac:(unfold gigabyteAsBytes in *; lia) ltac:(lia) Hmod).
  cbn [is_nil negb]. unfold createVolumeSynchronously, createVolume.
  cbn [ec2_New is_nil svc_call iops availabilityZone size volumeType Z.eqb negb].
  rewrite !bind_bind.
  apply issues_after_call. intros [resp err].
  unfold setVolumeNameTag, tagVolume, go_timer. footprint.
  apply createVolume_poll_footprint; intros; exact I.
Qed.

Lemma getVolumeWithName_run (name : string) (region : EC2) :
  getVolumeWithName env name (Some region) w
  = (let '(matches, err) := ec2_DescribeTags env (nameQuery name) (List.length w) in
     match err with
     | Some e => Returned ("", Some e)
     | None =>
         match matches with
         | [t] => Returned (ResourceId t, None)
         | _ => Returned ("", Some (errExpectedOne (List.length matches)))
         end
     end, DescribeTags (nameQuery name) :: w).
Proof.
  unfold getVolumeWithName, getVolumeWithTag, getVolumesWithFilters. fold (nameQuery name).
  cbn [svc_call]. rewrite !bind_bind, bind_call.
  destruct (ec2_DescribeTags env (nameQuery name) (List.length w)) as [matches [e|]];
    [reflexivity|].
  destruct matches as [|t [|t' rest]]; reflexivity.
Qed.

(** X13: [Destroy] deletes nothing unless the name resolves and the name tag
    has been removed.  When the lookup fails or does not find exactly one
    volume, the only call is the lookup; when the removal of the tag fails,
    the calls are the lookup and that removal; in both cases an error is
    returned.  When the tag has been removed, one deletion request for the
    volume found follows, and after it only the timer and status queries. *)
Theorem Destroy_untags_before_it_deletes :
  let name := vol_Name (do_Volume do) in
  let lookup := DescribeTags (nameQuery name) in
  let found := ec2_DescribeTags env (nameQuery name) (List.length w) in
  (forall matches err,
      found = (matches, err) -> err <> None \/ List.length matches <> 1 ->
      exists e, Destroy env fuel c do w = (Returned (Some e), lookup :: w))
  /\ (forall t,
        found = ([t], None) ->
        let untag := DeleteTags [ResourceId t] [nameTag name] in
        match ec2_DeleteTags env [ResourceId t] [nameTag name] (S (List.length w)) with
        | Some e =>
            Destroy env fuel c do w
            = (Returned (Some (Errorf "failed to untag the volume: %v" [ArgE (Some e)])),
               untag :: lookup :: w)
        | None =>
            exists tail,
              snd (Destroy env fuel c do w)
              = tail ++ DeleteVolume (ResourceId t) :: untag :: lookup :: w
              /\ Forall status_poll tail
        end).
Proof.
  cbn zeta. split.
  - intros matches err Hfound Hbad. unfold Destroy. unfold bind at 1.
    cbn [ec2_New]. rewrite getVolumeWithName_run, Hfound.
    destruct err as [e|]; [eexists; reflexivity|].
    destruct matches as [|t [|t' rest]]; try (eexists; reflexivity).
    exfalso. destruct Hbad as [H|H]; now apply H.
  - intros t Hfound.
    destruct (ec2_DeleteTags env [ResourceId t] [nameTag (vol_Name (do_Volume do))]
                (S (List.length w))) as [e|] eqn:Huntag;
      unfold Destroy; unfold bind at 1; cbn [ec2_New];
      rewrite getVolumeWithName_run, Hfound; cbn [is_nil negb];
      unfold deleteVolumeNameTag, untagVolume; cbn [ec2_New svc_call];
      rewrite bind_bind, bind_call; cbn [List.length];
      fold (nameTag (vol_Name (do_Volume do)));
      rewrite Huntag; cbn [is_nil negb]; rewrite bind_ret; cbn [is_nil negb];
      [reflexivity|].
    unfold deleteVolumeSynchronously, deleteVolume. cbn [ec2_New is_nil svc_call].
    rewrite !bind_bind. apply issues_after_call. intros err.
    unfold go_timer. footprint.
    + apply getVolumeInfo_footprint. intros; exact I.
    + apply deleteVolume_poll_footprint; intros; exact I.
Qed.

End CreateDestroy.

(* ================================================================= *)
(** ** Format and the format command *)

Section MoreFormat.

Variable env : Env.
Variable fuel : nat.
Variable c : Driver.

Lemma detachVolumeSynchronously_first_call (volume instance device : string)
  (force : bool) (region : EC2) (timeout : Z) (w : World) :
  exists tail,
    snd (detachVolumeSynchronously env fuel volume instance device force (Some region)
           timeout w)
    = tail ++ DetachVolume volume device force instance :: w
    /\ Forall device_poll tail.
Proof.
  unfold detachVolumeSynchronously, detachVolume. cbn [is_nil svc_call].
  rewrite !bind_bind. apply issues_after_call. intros [resp err].
  unfold go_timer. footprint.
  - apply getVolumeInfo_footprint. intros; exact I.
  - apply detachVolume_poll_footprint; intros; exact I.
Qed.


Variable do : DriverOptions.

(** X15: when the format command fails after the volume was attached,
    [Format] sends a forced detach request before it returns, and it
    returns the error of the format command whether the detach succeeds or
    not; a detach error is only logged. *)
Theorem Format_returns_the_mkfs_error
  (w0 w1 w2 w3 w4 w5 w6 : World) (instanceID awsVolume device : string)
  (instance : ec2_Instance) (att : option VolumeAttachment)
  (vol : option ec2_Volume) (mkfsErr : error) (detachErr : option error) :
  getInstanceID env w0 = (Returned (instanceID, None), w1) ->
  getVolumeWithName env (vol_Name (do_Volume do)) (svc_of do) w1
  = (Returned (awsVolume, None), w2) ->
  getInstanceInfo env instanceID (svc_of do) w2 = (Returned (Some instance, None), w3) ->
  findFreeBlockDevice (BlockDeviceMappings instance) = (device, None) ->
  attachVolumeSynchronously env fuel awsVolume instanceID device (svc_of do)
    (do_Timeout do) w3
  = (Returned (att, None), w4) ->
  mkfsVolume env fuel c (fs_CreateCommand (do_FSOptions do)) device (do_Timeout do) w4
  = (Returned (Some mkfsErr), w5) ->
  detachVolumeSynchronously env fuel awsVolume instanceID device true (svc_of do)
    (do_Timeout do) w5
  = (Returned (vol, detachErr), w6) ->
  Format env fuel c do w0
  = (Returned (Some mkfsErr),
     match detachErr with
     | Some _ => LogError (errDetachAfterMkfs detachErr) :: w6
     | None => w6
     end)
  /\ exists tail, w6 = tail ++ DetachVolume awsVolume device true instanceID :: w5.
Proof.
  intros HID Hname Hinfo Hdev Hattach Hmkfs Hdetach. split.
  - unfold Format. fold (svc_of do).
    run_step HID. run_step Hname. run_step Hinfo.
    unfold bind at 1. cbn [deref ret]. rewrite Hdev. cbn [is_nil negb].
    run_step Hattach. run_step Hmkfs. run_step Hdetach.
    destruct detachErr; reflexivity.
  - destruct (detachVolumeSynchronously_first_call awsVolume instanceID device true
                (map_index (vol_Params (do_Volume do)) "region") (do_Timeout do) w5)
      as (tail & Htail & _).
    exists tail. exact (eq_trans (eq_sym (f_equal snd Hdetach)) Htail).
Qed.

End MoreFormat.

(* ================================================================= *)
(** ** The calls an operation may issue *)

(** The same for the operations of the driver, with the lemmas on the
    functions they call. *)
Ltac footprint_ops :=
  repeat
    match goal with
    | |- issues_only _ (getInstanceID _) => apply getInstanceID_footprint; cbn; auto
    | |- issues_only _ (getVolumeWithName _ _ _) =>
        apply getVolumeWithName_footprint; cbn; auto
    | |- issues_only _ (getInstanceInfo _ _ _) =>
        apply getInstanceInfo_footprint; cbn; auto
    | |- issues_only _ (attachVolumeSynchronously _ _ _ _ _ _ _) =>
        apply attachVolumeSynchronously_footprint; cbn; auto
    | |- issues_only _ (detachVolumeSynchronously _ _ _ _ _ _ _ _) =>
        apply detachVolumeSynchronously_footprint; cbn; auto
    | |- issues_only _ (log_Error _) => unfold log_Error
    | |- issues_only _ (time_Sleep _) => unfold time_Sleep
    | |- issues_only _ _ => progress footprint
    end.

Section OperationFootprints.

Variable env : Env.
Variable P : PathLib.
Variable c : Driver.
Variable do : DriverOptions.

Lemma mkfsVolume_footprint (allowed : Call -> Prop) (fuel : nat)
  (fscmd devicePath : string) (timeout : Z) :
  (forall argv t, allowed (RunCommand argv t)) ->
  issues_only allowed (mkfsVolume env fuel c fscmd devicePath timeout).
Proof. intros H. unfold mkfsVolume, runWithTimeout. footprint. Qed.

Lemma Unmount_retry_footprint (volumeDir awsVolume instanceID device : string)
  (svc : option EC2) (timeout : Z) (fuel : nat) :
  forall (retries : Z) (lastErr : option error),
    issues_only Unmount_calls
      (Unmount_retry env fuel volumeDir awsVolume instanceID device svc timeout
         retries lastErr).
Proof.
  induction fuel as [|fuel IH]; intros retries lastErr; cbn [Unmount_retry];
    footprint_ops; apply IH.
Qed.

(** X16: whatever the world answers, every detach request [Format] sends is
    forced and no detach request [Unmount] sends is; neither operation
    creates, tags, untags or deletes a volume. *)
Theorem Format_forces_the_detach_and_Unmount_does_not (fuel : nat) (w : World) :
  (exists tail, snd (Format env fuel c do w) = tail ++ w /\ Forall Format_calls tail)
  /\ (exists tail, snd (Unmount env P fuel c do w) = tail ++ w
                   /\ Forall Unmount_calls tail).
Proof.
  split.
  - revert w. change (issues_only Format_calls (Format env fuel c do)).
    unfold Format. footprint_ops; apply mkfsVolume_footprint; intros; exact I.
  - revert w. change (issues_only Unmount_calls (Unmount env P fuel c do)).
    unfold Unmount. footprint_ops. apply Unmount_retry_footprint.
Qed.

End OperationFootprints.

(* ================================================================= *)
(** ** Unmount *)

Section MoreUnmount.

Variable env : Env.
Variables volumeDir awsVolume instanceID device : string.
Variable svc : option EC2.
Variable timeout : Z.

(** X17: when the unmount call keeps failing with an error other than
    [ENOENT] and [EINVAL], the code after the label [retry] makes three
    attempts, each logged and followed by a sleep of 100ms, and gives up:
    it returns the error of the third attempt combined with the give-up
    error, and neither removes the directory nor detaches the volume. *)
Theorem Unmount_gives_up_after_three_failures (fuel : nat) (w : World) :
  (forall t, unmount_tolerated (unix_Unmount env volumeDir 0 t) = false) ->
  Unmount_retry env (4 + fuel) volumeDir awsVolume instanceID device svc timeout 0 None w
  = (Returned
       (Some (Combine (Errorf "Failed to umount after 3 retries" [])
                (errUnmountRetry volumeDir
                   (unix_Unmount env volumeDir 0 (6 + List.length w))))),
     failed_unmount env volumeDir (6 + List.length w)
     ++ failed_unmount env volumeDir (3 + List.length w)
     ++ failed_unmount env volumeDir (List.length w) ++ w).
Proof.
  intros Hhard. cbn [Nat.add].
  rewrite (Unmount_retry_failed_unmount env volumeDir awsVolume instanceID device svc
             timeout _ 0 None w _ ltac:(lia) eq_refl (Hhard _)).
  rewrite (Unmount_retry_failed_unmount env volumeDir awsVolume instanceID device svc
             timeout _ (0 + 1) _ _ _ ltac:(lia) eq_refl (Hhard _)).
  rewrite (Unmount_retry_failed_unmount env volumeDir awsVolume instanceID device svc
             timeout _ (0 + 1 + 1) _ _ _ ltac:(lia) eq_refl (Hhard _)).
  reflexivity.
Qed.

(** X18: an unmount call that succeeds, or fails with [ENOENT] or [EINVAL],
    followed by a removal of the directory that succeeds or finds no
    directory, leads to one detach, not forced; the result is nil when the
    detach succeeds, and the wrapped detach error when it fails. *)
Theorem Unmount_detaches_after_a_tolerated_unmount (fuel : nat) (retries : Z)
  (lastErr : option error) (w w' : World) (vol : option ec2_Volume)
  (detachErr : option error) :
  (retries < 3)%Z ->
  unmount_tolerated (unix_Unmount env volumeDir 0 (List.length w)) = true ->
  (let removal := os_Remove env volumeDir (S (List.length w)) in
   is_nil removal || os_IsNotExist removal = true) ->
  detachVolumeSynchronously env (S fuel) awsVolume instanceID device false svc timeout
    (OsRemove volumeDir :: UnixUnmount volumeDir 0 :: w)
  = (Returned (vol, detachErr), w') ->
  Unmount_retry env (S fuel) volumeDir awsVolume instanceID device svc timeout
    retries lastErr w
  = (Returned
       match detachErr with
       | Some _ => Some (Errorf "failed to detach volume from instance: %v"
                           [ArgE detachErr])
       | None => None
       end, w').
Proof.
  intros Hretries Hunmount Hremoval Hdetach. cbn zeta in Hremoval.
  cbn [Unmount_retry].
  destruct (Z.ltb_spec retries 3) as [_|Hge]; [|lia].
  rewrite bind_call, unmount_test, Hunmount. cbn [negb].
  rewrite bind_call. cbn [List.length].
  replace (negb (is_nil (os_Remove env volumeDir (S (List.length w))))
           && negb (os_IsNotExist (os_Remove env volumeDir (S (List.length w)))))
    with false.
  2:{ rewrite <- negb_orb, Hremoval. reflexivity. }
  unfold bind at 1. rewrite Hdetach. destruct detachErr; reflexivity.
Qed.

End MoreUnmount.

(* ================================================================= *)
(** ** Mount *)

Section MountFootprints.

Context {A : Type} (allowed : Call -> Prop).

Lemma mount_issues_mret (a : A) : mount_issues_only allowed (mret a).
Proof. intros s. exists []. split; [reflexivity|constructor]. Qed.

Lemma mount_issues_mcall (c : MountCall) (answer : nat -> A) :
  mount_issues_only allowed (mcall c answer).
Proof. intros s. exists []. split; [reflexivity|constructor]. Qed.

Lemma mount_issues_lift (m : M A) :
  issues_only allowed m -> mount_issues_only allowed (lift m).
Proof.
  intros Hm [w ow]. unfold lift. cbn [fst snd]. destruct (Hm w) as (tail & E & F).
  destruct (m w) as [r w']. exists tail. split; assumption.
Qed.

Lemma mount_issues_mbind {B : Type} (m : MM B) (k : B -> MM A) :
  mount_issues_only allowed m -> (forall b, mount_issues_only allowed (k b)) ->
  mount_issues_only allowed (mbind m k).
Proof.
  intros Hm Hk s. unfold mbind. destruct (Hm s) as (t1 & E1 & F1).
  destruct (m s) as [[b| |] s1]; cbn [snd] in *.
  - destruct (Hk b s1) as (t2 & E2 & F2). exists (t2 ++ t1). split.
    + rewrite E2, E1. apply app_assoc.
    + apply Forall_app. split; assumption.
  - exists t1. split; assumption.
  - exists t1. split; assumption.
Qed.

End MountFootprints.

(** The same for the computations of [Mount]. *)
Ltac mount_footprint :=
  repeat
    match goal with
    | |- mount_issues_only _ (mret _) => apply mount_issues_mret
    | |- mount_issues_only _ (mcall _ _) => apply mount_issues_mcall
    | |- mount_issues_only _ (lift _) => apply mount_issues_lift; footprint_ops
    | |- mount_issues_only _ (mbind _ _) => apply mount_issues_mbind; [|intros]
    | |- mount_issues_only _ (match ?x with _ => _ end) => destruct x
    end.

Lemma filter_detach_poll (tail : list Call) (w : World) :
  Forall Mount_calls tail -> detach_calls (tail ++ w) = detach_calls w.
Proof.
  intros H. unfold detach_calls. rewrite filter_app, length_app.
  replace (filter _ tail) with (@nil Call); [reflexivity|].
  induction H as [|c tail Hc _ IH]; [reflexivity|].
  cbn [filter]. destruct c; try contradiction; exact IH.
Qed.

Lemma is_nil_of_test {A : Type} (o : option A) : negb (is_nil o) = false -> o = None.
Proof. destruct o; [discriminate|reflexivity]. Qed.

Section MountFacts.

Variable env : Env.
Variable menv : MountEnv.
Variable P : PathLib.
Variable fuel : nat.
Variable c : Driver.
Variable do : DriverOptions.

(** X19: [Mount] never detaches.  Whatever the world answers, the calls it
    adds to the trace are the metadata query, the tag and instance queries,
    the attach request and the calls of the attach poll loop: when a step
    after the attach request fails, no detach request follows. *)
Theorem Mount_never_detaches (s : MWorld) :
  let trace := fst (snd (Mount env menv P fuel c do s)) in
  (exists tail, trace = tail ++ fst s /\ Forall Mount_calls tail)
  /\ detach_calls trace = detach_calls (fst s).
Proof.
  cbn zeta.
  assert (H : mount_issues_only Mount_calls (Mount env menv P fuel c do)).
  { unfold Mount. mount_footprint. }
  destruct (H s) as (tail & E & F). split; [exists tail; split; assumption|].
  rewrite E. now apply filter_detach_poll.
Qed.

Lemma dev_numbers (rdev : Z) :
  (Z.shiftr rdev 8 * 256 + Z.land rdev 255 = rdev /\ 0 <= Z.land rdev 255 < 256)%Z.
Proof.
  rewrite Z.shiftr_div_pow2 by lia.
  change 255%Z with (Z.ones 8). rewrite Z.land_ones by lia.
  change (2 ^ 8)%Z with 256%Z. pose proof (Z.div_mod rdev 256 ltac:(lia)).
  pose proof (Z.mod_pos_bound rdev 256 ltac:(lia)). lia.
Qed.

(** X20: when [Mount] returns a mount, it returns no error with it; the
    path of the mount is the path [MountPath] returns for the same options,
    its volume is the volume of the options, its device is a device the
    allocator returned for an instance, and its two device numbers are the
    low eight bits and the remaining high bits of the device number the OS
    reported for that device: [major * 256 + minor] is that number.  The
    last OS call of the run is the mount of the device on the path, with
    the filesystem type of the options. *)
Theorem Mount_returns_the_mount (s s' : MWorld) (m : storage_Mount)
  (err : option error) :
  Mount env menv P fuel c do s = (Returned (Some m, err), s') ->
  err = None
  /\ MountPath P c do = (mnt_Path m, None)
  /\ mnt_Volume m = do_Volume do
  /\ (exists instance,
        findFreeBlockDevice (BlockDeviceMappings instance) = (mnt_Device m, None))
  /\ (exists t, os_Stat_Rdev menv (mnt_Device m) t
                = ((mnt_DevMajor m * 256 + mnt_DevMinor m)%Z, None))
  /\ (0 <= mnt_DevMinor m < 256)%Z
  /\ (exists before,
        snd s' = UnixMount (mnt_Device m) (mnt_Path m) (fs_Type (do_FSOptions do)) 0 ""
                 :: before).
Proof.
  unfold Mount, mbind, lift, mcall, mret. intros H.
  repeat match type of H with
         | context [match ?x with _ => _ end] => destruct x eqn:?; try discriminate H
         end.
  injection H as <- <- <-. cbn [mnt_Path mnt_Device mnt_Volume mnt_DevMajor mnt_DevMinor].
  repeat match goal with
         | H : negb (is_nil ?o) = false |- _ => apply is_nil_of_test in H; subst o
         end.
  split; [reflexivity|]. split; [|split; [reflexivity|split; [|split; [|split]]]].
  - unfold MountPath.
    match goal with H : internalName _ _ = _ |- _ => rewrite H end. cbn [is_nil negb].
    match goal with H : mkMountPath _ _ _ = _ |- _ => rewrite H end. reflexivity.
  - eexists. eassumption.
  - eexists.
    match goal with H : os_Stat_Rdev _ _ _ = _ |- _ => rewrite H end.
    f_equal. symmetry. apply dev_numbers.
  - apply dev_numbers.
  - eexists. reflexivity.
Qed.

(** X21: a volume name that [internalName] rejects is rejected by [Unmount]
    right after the metadata query, before any request to the service; by
    [Mount] it is rejected only after the volume has been attached, with
    the same error, before any OS call, and the volume stays attached. *)
Theorem Mount_checks_the_name_after_attaching
  (w0 w1 w2 w3 w4 : World) (ow : list MountCall) (instanceID awsVolume device : string)
  (instance : ec2_Instance) (att : option VolumeAttachment) (intName : string)
  (e : error) :
  internalName c (vol_Name (do_Volume do)) = (intName, Some e) ->
  getInstanceID env w0 = (Returned (instanceID, None), w1) ->
  getVolumeWithName env (vol_Name (do_Volume do)) (svc_of do) w1
  = (Returned (awsVolume, None), w2) ->
  getInstanceInfo env instanceID (svc_of do) w2 = (Returned (Some instance, None), w3) ->
  findFreeBlockDevice (BlockDeviceMappings instance) = (device, None) ->
  attachVolumeSynchronously env fuel awsVolume instanceID device (svc_of do)
    (do_Timeout do) w3
  = (Returned (att, None), w4) ->
  Unmount env P fuel c do w0 = (Returned (Some e), w1)
  /\ Mount env menv P fuel c do (w0, ow) = (Returned (None, Some e), (w4, ow)).
Proof.
  intros Hname HID Hlookup Hinfo Hdev Hattach. split.
  - unfold Unmount. run_step HID. rewrite Hname. reflexivity.
  - unfold Mount, mbind, lift. fold (svc_of do). cbn [fst snd].
    rewrite HID. cbn [is_nil negb fst snd]. rewrite Hlookup. cbn [is_nil negb fst snd].
    rewrite Hinfo. cbn [is_nil negb fst snd deref ret]. rewrite Hdev.
    cbn [is_nil negb fst snd]. rewrite Hattach. cbn [is_nil negb fst snd].
    rewrite Hname. reflexivity.
Qed.

End MountFacts.

(* ================================================================= *)
(** ** Runs in the worlds above *)

(** X10 in a world whose timer has fired from moment 5 on. *)
Lemma synchronizers_end_once_the_timer_fires_witness :
  (forall config svc timeout,
      exists r w', createVolumeSynchronously (world_timer_fires 5) 6 config svc timeout []
                   = (Returned r, w'))
  /\ (forall volume instance device force svc timeout,
        exists r w', detachVolumeSynchronously (world_timer_fires 5) 6 volume instance
                       device force svc timeout [] = (Returned r, w'))
  /\ (forall volume svc timeout,
        exists r w', deleteVolumeSynchronously (world_timer_fires 5) 6 volume svc timeout []
                     = (Returned r, w'))
  /\ (forall volume instance device svc timeout,
        fst (attachVolumeSynchronously (world_timer_fires 5) 6 volume instance device svc
               timeout [])
        <> OutOfFuel).
Proof.
  exact (synchronizers_end_once_the_timer_fires (world_timer_fires 5) 5 6 []
           (fun t Ht => proj2 (Nat.leb_le 5 t) Ht) (proj1 (Nat.ltb_lt 5 6) eq_refl)).
Defined.

(** X11 in that world: the volume is described as being deleted, the loop
    goes on until the timer fires. *)
Lemma deleteVolumeSynchronously_waits_for_NotFound_witness :
  exists w', deleteVolumeSynchronously (world_timer_fires 5) 6 "vol-1"
               (Some "eu-central-1"%string) 10000000000 []
             = (Returned (Some errTimeout), w').
Proof.
  exact (deleteVolumeSynchronously_waits_for_NotFound (world_timer_fires 5) 5 6 "vol-1"
           "eu-central-1" 10000000000 []
           {| Attachments := []; State := "deleting"; VolumeId := "vol-1" |}
           (fun t Ht => proj2 (Nat.leb_le 5 t) Ht) (proj1 (Nat.ltb_lt 5 6) eq_refl)
           eq_refl eq_refl ltac:(discriminate)
           (fun t => ex_intro _ _ eq_refl)).
Defined.

(** X12 in a world that refuses the tag: [Create] fails and the volume it
    created stays, without a name. *)
Lemma Create_sends_one_request_witness :
  Create world_tagging_fails 8 {| mountpath := "" |} driverOpts []
  = (Returned (Some (Errorf "encountered error while storing volume name in tag: %v"
                       [ArgE (Some errThrottled)])),
     [ CreateTags ["vol-1"%string] [nameTag "test/pithos"];
       DescribeVolumes ["vol-1"%string]; Select 500; GoTimer 10000000000;
       CreateVolume (Create_request driverOpts) ])
  /\ exists tail,
       snd (Create world_tagging_fails 8 {| mountpath := "" |} driverOpts [])
       = tail ++ [CreateVolume (Create_request driverOpts)]
       /\ Forall (Create_follow_up driverOpts) tail.
Proof.
  exact (conj eq_refl
           (Create_sends_one_request world_tagging_fails 8 {| mountpath := "" |} driverOpts
              [] ltac:(vm_compute; split; discriminate) eq_refl)).
Defined.


(** X15 in that world: the format command fails, the forced detach is
    refused, and [Format] returns the error of the command. *)
Lemma Format_returns_the_mkfs_error_witness :
  let run := Format world_mkfs_fails 64 {| mountpath := "" |} driverOpts [] in
  (exists e, fst run = Returned (Some e))
  /\ snd run
     = [ LogError (errDetachAfterMkfs (Some errThrottled));
         DetachVolume "vol-1" "/dev/xvdb" true "i-1";
         RunCommand ["/bin/sh"; "-c"; "mkfs.ext4 -m0 /dev/xvdb"]%string 10000000000;
         AttachVolume "/dev/xvdb" "i-1" "vol-1"; DescribeInstances ["i-1"%string];
         DescribeTags (nameQuery "test/pithos"); GetMetadata "instance-id" ].
Proof.
  pose proof (Format_returns_the_mkfs_error world_mkfs_fails 64 {| mountpath := "" |}
                driverOpts []
                [ GetMetadata "instance-id" ]
                [ DescribeTags (nameQuery "test/pithos"); GetMetadata "instance-id" ]
                [ DescribeInstances ["i-1"%string];
                  DescribeTags (nameQuery "test/pithos"); GetMetadata "instance-id" ]
                [ AttachVolume "/dev/xvdb" "i-1" "vol-1"; DescribeInstances ["i-1"%string];
                  DescribeTags (nameQuery "test/pithos"); GetMetadata "instance-id" ]
                [ RunCommand ["/bin/sh"; "-c"; "mkfs.ext4 -m0 /dev/xvdb"]%string
                    10000000000;
                  AttachVolume "/dev/xvdb" "i-1" "vol-1"; DescribeInstances ["i-1"%string];
                  DescribeTags (nameQuery "test/pithos"); GetMetadata "instance-id" ]
                [ DetachVolume "vol-1" "/dev/xvdb" true "i-1";
                  RunCommand ["/bin/sh"; "-c"; "mkfs.ext4 -m0 /dev/xvdb"]%string
                    10000000000;
                  AttachVolume "/dev/xvdb" "i-1" "vol-1"; DescribeInstances ["i-1"%string];
                  DescribeTags (nameQuery "test/pithos"); GetMetadata "instance-id" ]
                "i-1" "vol-1" "/dev/xvdb" theInstance (Some (attachment "attached")) None
                _ (Some errThrottled)
                eq_refl eq_refl eq_refl eq_refl eq_refl eq_refl eq_refl) as [Hrun _].
  exact (conj (ex_intro _ _ (f_equal fst Hrun)) (f_equal snd Hrun)).
Defined.

(** X17 in a world whose mount point stays busy. *)
Lemma Unmount_gives_up_after_three_failures_witness :
  Unmount_retry world_mount_busy 4 "/mnt/ebs/test.pithos" "vol-1" "i-1" "/dev/xvdf"
    (Some "eu-central-1"%string) 10000000000 0 None []
  = (Returned
       (Some (Combine (Errorf "Failed to umount after 3 retries" [])
                (errUnmountRetry "/mnt/ebs/test.pithos" (Some EBUSY)))),
     failed_unmount world_mount_busy "/mnt/ebs/test.pithos" 6
     ++ failed_unmount world_mount_busy "/mnt/ebs/test.pithos" 3
     ++ failed_unmount world_mount_busy "/mnt/ebs/test.pithos" 0).
Proof.
  exact (Unmount_gives_up_after_three_failures world_mount_busy "/mnt/ebs/test.pithos"
           "vol-1" "i-1" "/dev/xvdf" (Some "eu-central-1"%string) 10000000000 0 []
           (fun t => eq_refl)).
Defined.

(** X18 in a world where nothing is mounted and the directory is gone: the
    volume is detached and [Unmount] returns nil. *)
Lemma Unmount_detaches_after_a_tolerated_unmount_witness :
  Unmount_retry world_not_mounted 8 "/mnt/ebs/test.pithos" "vol-1" "i-1" "/dev/xvdf"
    (Some "eu-central-1"%string) 10000000000 0 None []
  = (Returned None,
     [ DescribeVolumes ["vol-1"%string]; DetachVolume "vol-1" "/dev/xvdf" false "i-1";
       OsRemove "/mnt/ebs/test.pithos"; UnixUnmount "/mnt/ebs/test.pithos" 0 ]).
Proof.
  exact (Unmount_detaches_after_a_tolerated_unmount world_not_mounted
           "/mnt/ebs/test.pithos" "vol-1" "i-1" "/dev/xvdf" (Some "eu-central-1"%string)
           10000000000 7 0 None []
           [ DescribeVolumes ["vol-1"%string]; DetachVolume "vol-1" "/dev/xvdf" false "i-1";
             OsRemove "/mnt/ebs/test.pithos"; UnixUnmount "/mnt/ebs/test.pithos" 0 ]
           (Some {| Attachments := []; State := "available"; VolumeId := "vol-1" |}) None
           ltac:(lia) eq_refl eq_refl eq_refl).
Defined.

(** X20 on the volume of the tests: the mount of [/dev/xvdb], whose device
    number is [202 * 256 + 16], on [/mnt/ebs/test.pithos]. *)
Lemma Mount_returns_the_mount_witness :
  Mount world_available theDisk GoUnixPath 8 {| mountpath := myMountpath |} driverOpts
    ([], [])
  = (Returned (Some theMount, None),
     ([ AttachVolume "/dev/xvdb" "i-1" "vol-1"; DescribeInstances ["i-1"%string];
        DescribeTags (nameQuery "test/pithos"); GetMetadata "instance-id" ],
      [ UnixMount "/dev/xvdb" "/mnt/ebs/test.pithos" "ext4" 0 "";
        OsStatDevice "/dev/xvdb"; OsMkdirAll "/mnt/ebs/test.pithos" 448;
        OsMkdirAll "/mnt/ebs" 448 ]))
  /\ MountPath GoUnixPath {| mountpath := myMountpath |} driverOpts
     = (mnt_Path theMount, None).
Proof.
  assert (Hrun :
    Mount world_available theDisk GoUnixPath 8 {| mountpath := myMountpath |} driverOpts
      ([], [])
    = (Returned (Some theMount, None),
       ([ AttachVolume "/dev/xvdb" "i-1" "vol-1"; DescribeInstances ["i-1"%string];
          DescribeTags (nameQuery "test/pithos"); GetMetadata "instance-id" ],
        [ UnixMount "/dev/xvdb" "/mnt/ebs/test.pithos" "ext4" 0 "";
          OsStatDevice "/dev/xvdb"; OsMkdirAll "/mnt/ebs/test.pithos" 448;
          OsMkdirAll "/mnt/ebs" 448 ]))) by (vm_compute; reflexivity).
  split; [exact Hrun|].
  exact (proj1 (proj2 (Mount_returns_the_mount world_available theDisk GoUnixPath 8
                         {| mountpath := myMountpath |} driverOpts _ _ _ _ Hrun))).
Defined.

(** X21 on a volume created under the name [te.st/pithos]: [Unmount] refuses
    the name at once, [Mount] attaches the volume and then refuses it. *)
Lemma Mount_checks_the_name_after_attaching_witness :
  Unmount world_dotted_name GoUnixPath 8 {| mountpath := myMountpath |} dottedOpts []
  = (Returned (Some (Errorf "Invalid policy name %q, cannot contain '.'" [ArgS "te.st"])),
     [ GetMetadata "instance-id" ])
  /\ Mount world_dotted_name theDisk GoUnixPath 8 {| mountpath := myMountpath |}
       dottedOpts ([], [])
     = (Returned (None, Some (Errorf "Invalid policy name %q, cannot contain '.'"
                                [ArgS "te.st"])),
        ([ AttachVolume "/dev/xvdb" "i-1" "vol-1"; DescribeInstances ["i-1"%string];
           DescribeTags (nameQuery "te.st/pithos"); GetMetadata "instance-id" ], [])).
Proof.
  exact (Mount_checks_the_name_after_attaching world_dotted_name theDisk GoUnixPath 8
           {| mountpath := myMountpath |} dottedOpts
           []
           [ GetMetadata "instance-id" ]
           [ DescribeTags (nameQuery "te.st/pithos"); GetMetadata "instance-id" ]
           [ DescribeInstances ["i-1"%string];
             DescribeTags (nameQuery "te.st/pithos"); GetMetadata "instance-id" ]
           [ AttachVolume "/dev/xvdb" "i-1" "vol-1"; DescribeInstances ["i-1"%string];
             DescribeTags (nameQuery "te.st/pithos"); GetMetadata "instance-id" ]
           [] "i-1" "vol-1" "/dev/xvdb" theInstance (Some (attachment "attached")) ""
           (Errorf "Invalid policy name %q, cannot contain '.'" [ArgS "te.st"])
           eq_refl eq_refl eq_refl eq_refl eq_refl eq_refl).
Defined.
